(** * Attendance server: persistence-and-broadcast engine

    A shallow embedding of [src/server.js]: the JSON document kept in
    [data.json], the Express handlers that read, modify and rewrite it, the
    WebSocket registry with its [broadcast], and the summary projection.

    Conventions of the embedding.
    - The handlers thread the process state (file, sockets, clock) and may
      throw; they are written in a state-and-exception monad [M].
    - [JSON.stringify] on messages is a parameter of the development; the
      text written to [data.json] is identified with the document it encodes.

    The source is embedded twice.
    - The definitions that follow and the section [Server] take the values
      from request bodies, query strings and optional record members to be
      [field]s: absent ([undefined] / [null]) or a string.  The facts about
      the cascades of the deletes, the socket registry and the broadcast are
      stated on this embedding.
    - The module [Node] takes them to be any JSON value, keeps track of the
      names GET /api/summary writes on [Object.prototype], through which
      request members are then read, and lets a write to [data.json] fail
      after truncating the file.  The facts about upserts, validation, failed
      writes and the summary are stated on it, in the module [NodeFacts]. *)

From Stdlib Require Import List String Ascii Bool Arith NArith ZArith Lia.
Import ListNotations.
Open Scope string_scope.
Open Scope list_scope.

(** ** JavaScript values used by the server *)

Definition field := option string.

Definition truthy (v : field) : bool :=
  match v with
  | Some s => negb (s =? "")
  | None => false
  end.

(** [!v] *)
Definition falsy (v : field) : bool := negb (truthy v).

(** [v || d] *)
Definition js_or (v d : field) : field := if truthy v then v else d.

(** The string held by a field that has passed a truthiness test. *)
Definition str (v : field) : string :=
  match v with
  | Some s => s
  | None => ""
  end.

(** [Array.prototype.findIndex]: index of the first match, [-1] if none. *)
Fixpoint findIndex {A : Type} (p : A -> bool) (l : list A) : Z :=
  match l with
  | [] => (-1)%Z
  | x :: t => if p x then 0%Z
              else let i := findIndex p t in
                   if (i <? 0)%Z then (-1)%Z else (i + 1)%Z
  end.

(** [a[i] = v] for an index inside the array; the handlers only ever assign
    at an index returned by [findIndex].  At or past the end JavaScript grows
    the array; the model appends. *)
Fixpoint array_set {A : Type} (l : list A) (i : nat) (v : A) : list A :=
  match l, i with
  | [], _ => [v]
  | _ :: t, O => v :: t
  | x :: t, S j => x :: array_set t j v
  end.

(** [a.push(v)] *)
Definition push {A : Type} (l : list A) (v : A) : list A := l ++ [v].

(** ** Data model *)

Record Class := mkClass {
  c_id : string;
  c_name : string;
  c_createdAt : field;
  c_updatedAt : field }.

Record Student := mkStudent {
  s_id : string;
  s_name : string;
  s_rollNumber : field;
  s_className : string;
  s_updatedAt : field }.

Record Attendance := mkAttendance {
  a_id : string;
  a_studentId : string;
  a_studentName : string;
  a_className : string;
  a_prayer : string;
  a_date : string;
  a_status : string;
  a_reason : field;
  a_timestamp : field;
  a_updatedAt : field }.

Record Document := mkDocument {
  classes : list Class;
  students : list Student;
  attendance : list Attendance }.

Definition initialData : Document := mkDocument [] [] [].

(** ** Messages, sockets and responses *)

Inductive MsgData :=
| DClass (c : option Class)
| DStudent (s : option Student)
| DAttendance (a : option Attendance)
| DId (id : string).

Inductive Message :=
| Event (type : string) (data : MsgData) (action : string)
| Welcome (type : string) (message : string).

(** A WebSocket as the server sees it: its identity, its [readyState]
    (0 CONNECTING, 1 OPEN, 2 CLOSING, 3 CLOSED) and the frames handed to
    [send], oldest first. *)
Record Socket := mkSocket {
  sock_id : nat;
  readyState : nat;
  sent : list string }.

Inductive exn := IOError | TypeError.

(** ** A JavaScript object used as a map

    Own enumerable string-keyed properties in the order in which the
    language enumerates them (and [JSON.stringify] prints them): the keys
    that are array indices first, in ascending numeric order, then the other
    keys in the order of their creation. *)
Definition JsObj (V : Type) := list (string * V).

Definition Summary := JsObj (JsObj (list Attendance)).

Inductive Body :=
| BError (msg : string)
| BException (e : exn)
| BSuccess
| BClass (c : option Class)
| BStudent (s : option Student)
| BAttendance (a : option Attendance)
| BClasses (l : list Class)
| BStudents (l : list Student)
| BAttendanceList (l : list Attendance)
| BSummary (s : Summary).

Record Response := mkResponse {
  status : nat;
  body : Body }.

(** ** Process state *)

Inductive file_state :=
| NoFile
| FileOf (d : Document)
| Corrupt.

(** Calls observed on the two functions every mutation goes through. *)
Inductive Call :=
| CWriteData (d : Document)
| CBroadcast (m : Message).

Record World := mkWorld {
  w_file : file_state;      (* data.json *)
  w_disk_ok : bool;         (* does fs.writeFileSync succeed *)
  w_clients : list Socket;  (* the Set [clients], in insertion order *)
  w_clock : nat -> string;  (* successive readings of new Date().toISOString() *)
  w_tick : nat;
  w_calls : list Call }.    (* oldest first *)

Definition set_file (f : file_state) (w : World) : World :=
  mkWorld f (w_disk_ok w) (w_clients w) (w_clock w) (w_tick w) (w_calls w).

Definition set_clients (cs : list Socket) (w : World) : World :=
  mkWorld (w_file w) (w_disk_ok w) cs (w_clock w) (w_tick w) (w_calls w).

Definition set_tick (n : nat) (w : World) : World :=
  mkWorld (w_file w) (w_disk_ok w) (w_clients w) (w_clock w) n (w_calls w).

Definition add_call (c : Call) (w : World) : World :=
  mkWorld (w_file w) (w_disk_ok w) (w_clients w) (w_clock w) (w_tick w)
          (w_calls w ++ [c]).

(** ** State and exceptions *)

(** [Beyond]: the execution reads or writes an object reached through
    [Object.prototype]; what follows depends on the global object graph,
    which is outside the embedding.  It is not an exception and no [catch]
    sees it. *)
Inductive result (A : Type) :=
| Ok (a : A)
| Throw (e : exn)
| Beyond.
Arguments Ok {A} a.
Arguments Throw {A} e.
Arguments Beyond {A}.

Definition M (A : Type) : Type := World -> result A * World.

Definition ret {A : Type} (a : A) : M A := fun w => (Ok a, w).

Definition bind {A B : Type} (m : M A) (k : A -> M B) : M B :=
  fun w => match m w with
           | (Ok a, w') => k a w'
           | (Throw e, w') => (Throw e, w')
           | (Beyond, w') => (Beyond, w')
           end.

Definition throw {A : Type} (e : exn) : M A := fun w => (Throw e, w).

(** [try { m } catch (error) { h error }] *)
Definition try_catch {A : Type} (m : M A) (h : exn -> M A) : M A :=
  fun w => match m w with
           | (Ok a, w') => (Ok a, w')
           | (Throw e, w') => h e w'
           | (Beyond, w') => (Beyond, w')
           end.

Definition lift {A : Type} (r : result A) : M A := fun w => (r, w).

Definition modify (f : World -> World) : M unit := fun w => (Ok tt, f w).

Definition gets {A : Type} (f : World -> A) : M A := fun w => (Ok (f w), w).

Notation "x <- c ;; k" := (bind c (fun x => k))
  (at level 61, c at next level, right associativity).
Notation "c ;; k" := (bind c (fun _ => k))
  (at level 61, right associativity).

(** [new Date().toISOString()] *)
Definition now : M string :=
  fun w => (Ok (w_clock w (w_tick w)), set_tick (S (w_tick w)) w).

(** ** The data file *)

Definition fs_existsSync : M bool :=
  gets (fun w => match w_file w with NoFile => false | _ => true end).

Definition fs_writeFileSync (d : Document) : M unit :=
  fun w => if w_disk_ok w then (Ok tt, set_file (FileOf d) w)
           else (Throw IOError, w).

(** [JSON.parse(fs.readFileSync(DATA_FILE, 'utf8'))] *)
Definition fs_readFileSync_parse : M Document :=
  fun w => match w_file w with
           | FileOf d => (Ok d, w)
           | NoFile => (Throw IOError, w)
           | Corrupt => (Throw TypeError, w)
           end.

Definition ensureDataFile : M unit :=
  e <- fs_existsSync ;;
  if negb e then fs_writeFileSync initialData else ret tt.

Definition readData : M Document :=
  try_catch (ensureDataFile ;; fs_readFileSync_parse)
            (fun _ => ret (mkDocument [] [] [])).

Definition writeData (data : Document) : M bool :=
  modify (add_call (CWriteData data)) ;;
  try_catch (fs_writeFileSync data ;; ret true) (fun _ => ret false).

(** ** Objects as maps: property lookup and assignment *)

(** The array indices: canonical decimal numerals of the integers from 0 to
    2^32 - 2. *)
Definition digit (c : ascii) : option N :=
  let n := N_of_ascii c in
  if ((48 <=? n) && (n <=? 57))%N then Some (n - 48)%N else None.

Fixpoint digits (s : string) (acc : N) : option N :=
  match s with
  | EmptyString => Some acc
  | String c t => match digit c with
                  | Some d => digits t (10 * acc + d)%N
                  | None => None
                  end
  end.

Definition array_index (s : string) : option N :=
  match s with
  | EmptyString => None
  | String c t =>
      match digits s 0%N with
      | Some n =>
          if (Ascii.eqb c "0" && negb (t =? ""))%bool then None
          else if (n <=? 4294967294)%N then Some n else None
      | None => None
      end
  end.

(** The members every object literal inherits from [Object.prototype]; all
    of them are functions or objects, hence truthy. *)
Definition object_prototype_names : list string :=
  [ "constructor"; "__defineGetter__"; "__defineSetter__"; "hasOwnProperty";
    "__lookupGetter__"; "__lookupSetter__"; "isPrototypeOf";
    "propertyIsEnumerable"; "toString"; "valueOf"; "__proto__";
    "toLocaleString" ].

Definition inherited (k : string) : bool :=
  existsb (String.eqb k) object_prototype_names.

Inductive lookup (V : Type) :=
| Own (v : V)
| Inherited
| Undefined.
Arguments Own {V} v.
Arguments Inherited {V}.
Arguments Undefined {V}.

Definition has_own {V : Type} (o : JsObj V) (k : string) : bool :=
  existsb (fun kv => fst kv =? k) o.

(** [o[k]] *)
Definition obj_get {V : Type} (o : JsObj V) (k : string) : lookup V :=
  match find (fun kv => fst kv =? k) o with
  | Some kv => Own (snd kv)
  | None => if inherited k then Inherited else Undefined
  end.

Fixpoint obj_replace {V : Type} (k : string) (v : V) (o : JsObj V) : JsObj V :=
  match o with
  | [] => []
  | kv :: t => if fst kv =? k then (fst kv, v) :: t
               else kv :: obj_replace k v t
  end.

Fixpoint obj_insert_index {V : Type} (n : N) (k : string) (v : V)
         (o : JsObj V) : JsObj V :=
  match o with
  | [] => [(k, v)]
  | kv :: t => match array_index (fst kv) with
               | Some m => if (n <? m)%N then (k, v) :: o
                           else kv :: obj_insert_index n k v t
               | None => (k, v) :: o
               end
  end.

(** Creation of a property the object does not own yet. *)
Definition obj_define {V : Type} (k : string) (v : V) (o : JsObj V) : JsObj V :=
  match array_index k with
  | Some n => obj_insert_index n k v o
  | None => o ++ [(k, v)]
  end.

(** [o[k] = v] for a key that is not inherited. *)
Definition obj_set {V : Type} (o : JsObj V) (k : string) (v : V) : JsObj V :=
  if has_own o k then obj_replace k v o else obj_define k v o.

(** ** The summary projection: body of the [forEach] of GET /api/summary *)

Definition bind_result {A B : Type} (r : result A) (k : A -> result B) : result B :=
  match r with
  | Ok a => k a
  | Throw e => Throw e
  | Beyond => Beyond
  end.

Definition summary_step (summary : Summary) (record : Attendance) : result Summary :=
  (* if (!summary[record.date]) summary[record.date] = {}; *)
  bind_result
    match obj_get summary (a_date record) with
    | Undefined => Ok (obj_set summary (a_date record) [])
    | Own _ => Ok summary
    | Inherited => Beyond
    end (fun summary =>
  bind_result
    match obj_get summary (a_date record) with
    | Own byPrayer => Ok byPrayer
    | _ => Beyond
    end (fun byPrayer =>
  (* if (!summary[record.date][record.prayer]) summary[record.date][record.prayer] = []; *)
  let byPrayer :=
    match obj_get byPrayer (a_prayer record) with
    | Undefined => obj_set byPrayer (a_prayer record) []
    | _ => byPrayer
    end in
  (* summary[record.date][record.prayer].push(record); *)
  match obj_get byPrayer (a_prayer record) with
  | Own records =>
      Ok (obj_set summary (a_date record)
            (obj_set byPrayer (a_prayer record) (push records record)))
  | _ => Throw TypeError   (* an inherited member has no [push] *)
  end)).

Fixpoint forEach_summary (l : list Attendance) (summary : Summary) : result Summary :=
  match l with
  | [] => Ok summary
  | record :: t => bind_result (summary_step summary record) (forEach_summary t)
  end.

Definition summarize (l : list Attendance) : result Summary :=
  forEach_summary l [].

(** ** Requests *)

Record ClassBody := mkClassBody {
  cb_id : field;
  cb_name : field }.

Record StudentBody := mkStudentBody {
  sb_id : field;
  sb_name : field;
  sb_rollNumber : field;
  sb_className : field }.

Record AttendanceBody := mkAttendanceBody {
  ab_id : field;
  ab_studentId : field;
  ab_studentName : field;
  ab_className : field;
  ab_prayer : field;
  ab_date : field;
  ab_status : field;
  ab_reason : field;
  ab_timestamp : field }.

Record AttendanceQuery := mkAttendanceQuery {
  q_date : field;
  q_className : field;
  q_prayer : field;
  q_studentId : field }.

Record SummaryQuery := mkSummaryQuery {
  sq_date : field;
  sq_className : field }.

Definition set_classes (l : list Class) (data : Document) : Document :=
  mkDocument l (students data) (attendance data).

Definition set_students (l : list Student) (data : Document) : Document :=
  mkDocument (classes data) l (attendance data).

Definition set_attendance (l : list Attendance) (data : Document) : Document :=
  mkDocument (classes data) (students data) l.

(** [a[i]] followed by a member access: a [TypeError] when [a[i]] is
    [undefined]. *)
Definition element {A : Type} (l : list A) (i : Z) : M A :=
  match nth_error l (Z.to_nat i) with
  | Some x => ret x
  | None => throw TypeError
  end.

(** [if (q) attendance = attendance.filter(a => a.key === q)] *)
Definition filter_if (q : field) (key : Attendance -> string)
           (l : list Attendance) : list Attendance :=
  if truthy q then filter (fun a => key a =? str q) l else l.

(** ** Sample data for the examples that close the development *)

Definition sample_clock (n : nat) : string :=
  match n with
  | 0 => "2024-03-01T08:00:00.000Z"
  | 1 => "2024-03-01T08:00:00.001Z"
  | 2 => "2024-03-01T08:00:00.002Z"
  | _ => "2024-03-01T08:00:00.003Z"
  end.

(** A stand-in for [JSON.stringify]; the examples do not depend on it. *)
Definition sample_stringify (m : Message) : string :=
  match m with
  | Event type _ action => String.append type (String.append "/" action)
  | Welcome type _ => type
  end.

(** A process whose data file holds [d], with a working disk and [cs]
    registered. *)
Definition world_of (d : Document) (cs : list Socket) : World :=
  mkWorld (FileOf d) true cs sample_clock 0 [].

Definition grade4 : Class :=
  mkClass "c0" "Grade 4" (Some "2023-09-01T07:00:00.000Z") (Some "2023-09-01T07:00:00.000Z").
Definition grade5 : Class :=
  mkClass "c1" "Grade 5" (Some "2023-09-02T07:00:00.000Z") (Some "2023-09-02T07:00:00.000Z").
Definition grade6 : Class :=
  mkClass "c2" "Grade 6" (Some "2023-09-03T07:00:00.000Z") (Some "2023-09-03T07:00:00.000Z").

Definition amal : Student := mkStudent "s1" "Amal" None "Grade 5" None.
Definition bilal : Student := mkStudent "s2" "Bilal" (Some "12") "Grade 6" None.
Definition dawud : Student := mkStudent "s3" "Dawud" None "Grade 5" None.

Definition mark (id studentId date prayer : string) : Attendance :=
  mkAttendance id studentId "name" "Grade 5" prayer date "present" None None None.

Definition rec1 : Attendance := mark "a1" "s1" "2024-01-01" "fajr".
Definition rec2 : Attendance := mark "a2" "s2" "2024-01-01" "fajr".
Definition rec3 : Attendance := mark "a3" "s1" "2024-01-02" "dhuhr".

Definition school : Document :=
  mkDocument [grade4; grade5; grade6] [amal; bilal; dawud] [rec1; rec2; rec3].

Definition marked : AttendanceBody :=
  mkAttendanceBody (Some "a9") (Some "s2") (Some "Bilal") (Some "Grade 6")
    (Some "asr") (Some "2024-01-03") (Some "present") None None.

Definition deleted_event : Message := Event "attendance_deleted" (DId "a1") "deleted".

(** Bilal under a new name and class, and a student the school does not
    have yet. *)
Definition enrolled : StudentBody :=
  mkStudentBody (Some "s2") (Some "Bilal K.") (Some "") (Some "Grade 4").
(** A record whose prayer is named like a member of [Object.prototype]. *)
Definition odd : Attendance := mark "a5" "s1" "2024-01-02" "constructor".

(** ** Grouping as the specification words it

    Keys in the order of their first appearance; under each key the elements
    carrying it, in their original order. *)
Fixpoint first_appearances (l : list string) : list string :=
  match l with
  | [] => []
  | k :: t => k :: filter (fun k' => negb (k' =? k)) (first_appearances t)
  end.

Definition group_by {A : Type} (key : A -> string) (l : list A) : JsObj (list A) :=
  map (fun k => (k, filter (fun a => key a =? k) l)) (first_appearances (map key l)).

(** The object whose keys are [ks], in that order, with [g k] under [k]. *)
Definition tabulate {V : Type} (g : string -> V) (ks : list string) : JsObj V :=
  map (fun k => (k, g k)) ks.

(** What [o[k]] holds once [if (!o[k]) o[k] = init] has run. *)
Definition value_or {V : Type} (o : JsObj V) (k : string) (init : V) : V :=
  match find (fun kv => fst kv =? k) o with
  | Some kv => snd kv
  | None => init
  end.

(** * The process in full: any JSON value, a writable [Object.prototype], writes that can tear

    The embedding of the section [Server] takes request members to be
    strings, the process's [Object.prototype] to be as the language defines it
    and a failed write to leave the file alone.  The module [Node] embeds the
    same source without these three restrictions. *)
Module Node.

(** ** Values

    What [express.json()], the query parser and [JSON.parse] hand to the
    handlers.  [VRef] is an array or an object: it is truthy, and [===] holds
    of it only for the very same reference.  Every request parses its body
    and the data file anew, so two references a handler compares are never
    the same one, except where the handler copied the reference itself (the
    record it has just written).  The contents of an array or object play no
    part in what the handlers do and are not carried.  Numbers are the
    integers. *)
Inductive value :=
| VUndefined
| VNull
| VBool (b : bool)
| VNum (n : Z)
| VStr (s : string)
| VRef.

Definition truthy (v : value) : bool :=
  match v with
  | VUndefined | VNull => false
  | VBool b => b
  | VNum n => negb (n =? 0)%Z
  | VStr s => negb (s =? "")
  | VRef => true
  end.

(** [!v] *)
Definition falsy (v : value) : bool := negb (truthy v).

(** [v || d] *)
Definition js_or (v d : value) : value := if truthy v then v else d.

(** [a === b] for two values that are not one and the same reference. *)
Definition strict_eq (a b : value) : bool :=
  match a, b with
  | VUndefined, VUndefined => true
  | VNull, VNull => true
  | VBool x, VBool y => Bool.eqb x y
  | VNum x, VNum y => (x =? y)%Z
  | VStr x, VStr y => x =? y
  | _, _ => false
  end.

(** A string, a number or a boolean. *)
Definition primitive (v : value) : bool :=
  match v with
  | VBool _ | VNum _ | VStr _ => true
  | _ => false
  end.

(** ** Data model: the records as they are parsed from [data.json] *)

Record Class := mkClass {
  c_id : value;
  c_name : value;
  c_createdAt : value;
  c_updatedAt : value }.

Record Student := mkStudent {
  s_id : value;
  s_name : value;
  s_rollNumber : value;
  s_className : value;
  s_updatedAt : value }.

Record Attendance := mkAttendance {
  a_id : value;
  a_studentId : value;
  a_studentName : value;
  a_className : value;
  a_prayer : value;
  a_date : value;
  a_status : value;
  a_reason : value;
  a_timestamp : value;
  a_updatedAt : value }.

Record Document := mkDocument {
  classes : list Class;
  students : list Student;
  attendance : list Attendance }.

Definition initialData : Document := mkDocument [] [] [].

Definition set_classes (l : list Class) (data : Document) : Document :=
  mkDocument l (students data) (attendance data).

Definition set_students (l : list Student) (data : Document) : Document :=
  mkDocument (classes data) l (attendance data).

Definition set_attendance (l : list Attendance) (data : Document) : Document :=
  mkDocument (classes data) (students data) l.

Inductive MsgData :=
| DClass (c : option Class)
| DStudent (s : option Student)
| DAttendance (a : option Attendance)
| DId (id : string).

Inductive Message :=
| Event (type : string) (data : MsgData) (action : string)
| Welcome (type : string) (message : string).

Definition Summary := JsObj (JsObj (list Attendance)).

Inductive Body :=
| BError (msg : string)
| BException (e : exn)
| BSuccess
| BClass (c : option Class)
| BStudent (s : option Student)
| BAttendance (a : option Attendance)
| BClasses (l : list Class)
| BStudents (l : list Student)
| BAttendanceList (l : list Attendance)
| BSummary (s : Summary).

Record Response := mkResponse {
  status : nat;
  body : Body }.

(** ** Process state *)

Inductive file_state :=
| NoFile
| FileOf (d : Document)
| Corrupt.

(** What [fs.writeFileSync] does at present: it writes; or it fails before
    the file is opened (no permission, read-only volume) and leaves it as it
    is; or it fails after the file has been opened with truncation (volume
    full, I/O error) and leaves a file that does not parse. *)
Inductive disk := Writes | Refuses | Tears.

Inductive Call :=
| CWriteData (d : Document)
| CBroadcast (m : Message).

Record World := mkWorld {
  w_file : file_state;      (* data.json *)
  w_disk : disk;
  w_clients : list Socket;  (* the Set [clients], in insertion order *)
  w_clock : nat -> string;  (* successive readings of new Date().toISOString() *)
  w_tick : nat;
  w_calls : list Call;      (* oldest first *)
  w_proto : list string }.  (* members added to Object.prototype; each holds an array *)

Definition set_file (f : file_state) (w : World) : World :=
  mkWorld f (w_disk w) (w_clients w) (w_clock w) (w_tick w) (w_calls w) (w_proto w).

Definition set_clients (cs : list Socket) (w : World) : World :=
  mkWorld (w_file w) (w_disk w) cs (w_clock w) (w_tick w) (w_calls w) (w_proto w).

Definition set_tick (n : nat) (w : World) : World :=
  mkWorld (w_file w) (w_disk w) (w_clients w) (w_clock w) n (w_calls w) (w_proto w).

Definition add_call (c : Call) (w : World) : World :=
  mkWorld (w_file w) (w_disk w) (w_clients w) (w_clock w) (w_tick w)
          (w_calls w ++ [c]) (w_proto w).

Definition set_proto (p : list string) (w : World) : World :=
  mkWorld (w_file w) (w_disk w) (w_clients w) (w_clock w) (w_tick w) (w_calls w) p.

Definition set_disk (k : disk) (w : World) : World :=
  mkWorld (w_file w) k (w_clients w) (w_clock w) (w_tick w) (w_calls w) (w_proto w).

(** ** State and exceptions *)

Definition M (A : Type) : Type := World -> result A * World.

Definition ret {A : Type} (a : A) : M A := fun w => (Ok a, w).

Definition bind {A B : Type} (m : M A) (k : A -> M B) : M B :=
  fun w => match m w with
           | (Ok a, w') => k a w'
           | (Throw e, w') => (Throw e, w')
           | (Beyond, w') => (Beyond, w')
           end.

Definition throw {A : Type} (e : exn) : M A := fun w => (Throw e, w).

Definition try_catch {A : Type} (m : M A) (h : exn -> M A) : M A :=
  fun w => match m w with
           | (Ok a, w') => (Ok a, w')
           | (Throw e, w') => h e w'
           | (Beyond, w') => (Beyond, w')
           end.

Definition modify (f : World -> World) : M unit := fun w => (Ok tt, f w).

Definition gets {A : Type} (f : World -> A) : M A := fun w => (Ok (f w), w).

Declare Scope node_scope.
Notation "x <- c ;; k" := (bind c (fun x => k))
  (at level 61, c at next level, right associativity) : node_scope.
Notation "c ;; k" := (bind c (fun _ => k))
  (at level 61, right associativity) : node_scope.
Open Scope node_scope.

(** [new Date().toISOString()] *)
Definition now : M string :=
  fun w => (Ok (w_clock w (w_tick w)), set_tick (S (w_tick w)) w).

(** ** The data file *)

Definition fs_existsSync : M bool :=
  gets (fun w => match w_file w with NoFile => false | _ => true end).

Definition fs_writeFileSync (d : Document) : M unit :=
  fun w => match w_disk w with
           | Writes => (Ok tt, set_file (FileOf d) w)
           | Refuses => (Throw IOError, w)
           | Tears => (Throw IOError, set_file Corrupt w)
           end.

(** [JSON.parse(fs.readFileSync(DATA_FILE, 'utf8'))] *)
Definition fs_readFileSync_parse : M Document :=
  fun w => match w_file w with
           | FileOf d => (Ok d, w)
           | NoFile => (Throw IOError, w)
           | Corrupt => (Throw TypeError, w)
           end.

Definition ensureDataFile : M unit :=
  e <- fs_existsSync ;;
  if negb e then fs_writeFileSync initialData else ret tt.

Definition readData : M Document :=
  try_catch (ensureDataFile ;; fs_readFileSync_parse)
            (fun _ => ret (mkDocument [] [] [])).

Definition writeData (data : Document) : M bool :=
  modify (add_call (CWriteData data)) ;;
  try_catch (fs_writeFileSync data ;; ret true) (fun _ => ret false).

(** ** Requests

    A member of [req.body] or [req.query] is read by destructuring, which
    looks through the prototype chain: a member the request does not carry
    ([VUndefined]) is found on [Object.prototype] when a summary has added it
    there, and is then the array it holds.  The records parsed from
    [data.json] carry all their members, as every record the server writes
    does; reading one of them never reaches [Object.prototype]. *)
Definition read (proto : list string) (name : string) (own : value) : value :=
  match own with
  | VUndefined => if existsb (String.eqb name) proto then VRef else VUndefined
  | _ => own
  end.

Record ClassBody := mkClassBody {
  cb_id : value;
  cb_name : value }.

Record StudentBody := mkStudentBody {
  sb_id : value;
  sb_name : value;
  sb_rollNumber : value;
  sb_className : value }.

Record AttendanceBody := mkAttendanceBody {
  ab_id : value;
  ab_studentId : value;
  ab_studentName : value;
  ab_className : value;
  ab_prayer : value;
  ab_date : value;
  ab_status : value;
  ab_reason : value;
  ab_timestamp : value }.

Record AttendanceQuery := mkAttendanceQuery {
  q_date : value;
  q_className : value;
  q_prayer : value;
  q_studentId : value }.

Record SummaryQuery := mkSummaryQuery {
  sq_date : value;
  sq_className : value }.

(** [a[i]] followed by a member access. *)
Definition element {A : Type} (l : list A) (i : Z) : M A :=
  match nth_error l (Z.to_nat i) with
  | Some x => ret x
  | None => throw TypeError
  end.

(** [a.find(x => x.id === id)] once the handler has written the record that
    carries [id] itself at index [written]: that record satisfies the test
    whatever [id] is, the ones before it only through [p]. *)
Fixpoint find_written {A : Type} (p : A -> bool) (written : nat) (l : list A) : option A :=
  match l with
  | [] => None
  | x :: t => match written with
              | O => Some x
              | S n => if p x then Some x else find_written p n t
              end
  end.

(** [if (q) attendance = attendance.filter(a => a.key === q)] *)
Definition filter_if (q : value) (key : Attendance -> value)
           (l : list Attendance) : list Attendance :=
  if truthy q then filter (fun a => strict_eq (key a) q) l else l.

(** ** Property lookup on an object literal *)

Inductive found (V : Type) :=
| Own (v : V)
| InheritedArray      (* a member a summary has added to Object.prototype *)
| InheritedBuiltin    (* a member Object.prototype has from the language *)
| Missing.
Arguments Own {V} v.
Arguments InheritedArray {V}.
Arguments InheritedBuiltin {V}.
Arguments Missing {V}.

Definition obj_get {V : Type} (proto : list string) (o : JsObj V) (k : string) : found V :=
  match find (fun kv => fst kv =? k) o with
  | Some kv => Own (snd kv)
  | None => if existsb (String.eqb k) proto then InheritedArray
            else if inherited k then InheritedBuiltin else Missing
  end.

(** The property key of [record.date] and [record.prayer].  For a string it
    is the string; the conversion of other values is not embedded. *)
Definition key_of (v : value) : result string :=
  match v with
  | VStr s => Ok s
  | _ => Beyond
  end.

(** ** The summary projection: body of the [forEach] of GET /api/summary

    [summary] is the handler's local object; [Object.prototype] is the
    process's.  Where the loop writes to an object it reached through
    [Object.prototype] other than [Object.prototype] itself (a builtin
    function, an array a summary has put there), the outcome is [Beyond]. *)
Definition summary_step (summary : Summary) (record : Attendance) : M Summary :=
  fun w =>
  let proto := w_proto w in
  match key_of (a_date record), key_of (a_prayer record) with
  | Ok d, Ok p =>
      (* if (!summary[record.date]) summary[record.date] = {}; *)
      let summary :=
        match obj_get proto summary d with
        | Missing => obj_set summary d []
        | _ => summary
        end in
      match obj_get proto summary d with
      | Own byPrayer =>
          (* if (!summary[record.date][record.prayer]) summary[record.date][record.prayer] = []; *)
          let byPrayer :=
            match obj_get proto byPrayer p with
            | Missing => obj_set byPrayer p []
            | _ => byPrayer
            end in
          (* summary[record.date][record.prayer].push(record); *)
          match obj_get proto byPrayer p with
          | Own records =>
              (Ok (obj_set summary d (obj_set byPrayer p (push records record))), w)
          | InheritedArray =>
              (* the record lands in the array on Object.prototype *)
              (Ok summary, w)
          | _ => (Throw TypeError, w)   (* a builtin member has no [push] *)
          end
      | InheritedBuiltin =>
          if d =? "__proto__" then
            (* summary.__proto__ is Object.prototype itself *)
            if existsb (String.eqb p) proto then (Ok summary, w)
            else if inherited p then (Throw TypeError, w)
            else (Ok summary, set_proto (proto ++ [p]) w)
          else (Beyond, w)
      | _ => (Beyond, w)
      end
  | _, _ => (Beyond, w)
  end.

Fixpoint forEach_summary (l : list Attendance) (summary : Summary) : M Summary :=
  match l with
  | [] => ret summary
  | record :: t => summary <- summary_step summary record ;; forEach_summary t summary
  end.

Section Handlers.

(** [JSON.stringify] on the messages pushed to the sockets. *)
Variable JSON_stringify : Message -> string.

Definition send (data : string) (client : Socket) : Socket :=
  mkSocket (sock_id client) (readyState client) (push (sent client) data).

Definition broadcast (message : Message) : M unit :=
  modify (add_call (CBroadcast message)) ;;
  let data := JSON_stringify message in
  modify (fun w =>
    set_clients
      (map (fun client =>
              if (readyState client =? 1)%nat then send data client else client)
           (w_clients w)) w).

(** [catch (error) { res.status(500).json({ error: error.message }) }] *)
Definition handler (m : M Response) : M Response :=
  try_catch m (fun e => ret (mkResponse 500 (BException e))).

(** ** Classes *)

Definition get_classes : M Response :=
  handler (
    data <- readData ;;
    ret (mkResponse 200 (BClasses (classes data)))).

Definition post_classes (req : ClassBody) : M Response :=
  handler (
    data <- readData ;;
    proto <- gets w_proto ;;
    let id := read proto "id" (cb_id req) in
    let name := read proto "name" (cb_name req) in
    if falsy id || falsy name then
      ret (mkResponse 400 (BError "id and name are required"))
    else
      let existingIndex := findIndex (fun c => strict_eq (c_id c) id) (classes data) in
      let written :=
        if (existingIndex >=? 0)%Z then Z.to_nat existingIndex
        else List.length (classes data) in
      data <-
        (if (existingIndex >=? 0)%Z then
           existing <- element (classes data) existingIndex ;;
           createdAt <-
             (if truthy (c_createdAt existing) then ret (c_createdAt existing)
              else t <- now ;; ret (VStr t)) ;;
           updatedAt <- now ;;
           ret (set_classes
                  (array_set (classes data) (Z.to_nat existingIndex)
                     (mkClass id name createdAt (VStr updatedAt)))
                  data)
         else
           createdAt <- now ;;
           updatedAt <- now ;;
           ret (set_classes
                  (push (classes data)
                     (mkClass id name (VStr createdAt) (VStr updatedAt)))
                  data)) ;;
      writeData data ;;
      let newClass :=
        find_written (fun c => strict_eq (c_id c) id) written (classes data) in
      broadcast (Event "class_updated" (DClass newClass)
                   (if (existingIndex >=? 0)%Z then "updated" else "created")) ;;
      ret (mkResponse 200 (BClass newClass))).

Definition delete_classes (id : string) : M Response :=
  handler (
    data <- readData ;;
    let classToDelete := find (fun c => strict_eq (c_id c) (VStr id)) (classes data) in
    let data :=
      set_classes (filter (fun c => negb (strict_eq (c_id c) (VStr id))) (classes data))
                  data in
    let data :=
      match classToDelete with
      | Some cls =>
          set_students
            (filter (fun s => negb (strict_eq (s_className s) (c_name cls)))
                    (students data)) data
      | None => data
      end in
    writeData data ;;
    broadcast (Event "class_deleted" (DId id) "deleted") ;;
    ret (mkResponse 200 BSuccess)).

(** ** Students *)

Definition get_students : M Response :=
  handler (
    data <- readData ;;
    ret (mkResponse 200 (BStudents (students data)))).

Definition get_students_class (className : string) : M Response :=
  handler (
    data <- readData ;;
    ret (mkResponse 200
           (BStudents (filter (fun s => strict_eq (s_className s) (VStr className))
                              (students data))))).

Definition post_students (req : StudentBody) : M Response :=
  handler (
    data <- readData ;;
    proto <- gets w_proto ;;
    let id := read proto "id" (sb_id req) in
    let name := read proto "name" (sb_name req) in
    let rollNumber := read proto "rollNumber" (sb_rollNumber req) in
    let className := read proto "className" (sb_className req) in
    if falsy id || falsy name || falsy className then
      ret (mkResponse 400 (BError "id, name, and className are required"))
    else
      let existingIndex := findIndex (fun s => strict_eq (s_id s) id) (students data) in
      let written :=
        if (existingIndex >=? 0)%Z then Z.to_nat existingIndex
        else List.length (students data) in
      data <-
        (if (existingIndex >=? 0)%Z then
           updatedAt <- now ;;
           ret (set_students
                  (array_set (students data) (Z.to_nat existingIndex)
                     (mkStudent id name (js_or rollNumber VNull) className
                        (VStr updatedAt)))
                  data)
         else
           updatedAt <- now ;;
           ret (set_students
                  (push (students data)
                     (mkStudent id name (js_or rollNumber VNull) className
                        (VStr updatedAt)))
                  data)) ;;
      writeData data ;;
      let newStudent :=
        find_written (fun s => strict_eq (s_id s) id) written (students data) in
      broadcast (Event "student_updated" (DStudent newStudent)
                   (if (existingIndex >=? 0)%Z then "updated" else "created")) ;;
      ret (mkResponse 200 (BStudent newStudent))).

Definition delete_students (id : string) : M Response :=
  handler (
    data <- readData ;;
    let data :=
      set_students (filter (fun s => negb (strict_eq (s_id s) (VStr id))) (students data))
                   data in
    let data :=
      set_attendance
        (filter (fun a => negb (strict_eq (a_studentId a) (VStr id))) (attendance data))
        data in
    writeData data ;;
    broadcast (Event "student_deleted" (DId id) "deleted") ;;
    ret (mkResponse 200 BSuccess)).

(** ** Attendance *)

Definition get_attendance (q : AttendanceQuery) : M Response :=
  handler (
    data <- readData ;;
    proto <- gets w_proto ;;
    let date := read proto "date" (q_date q) in
    let className := read proto "className" (q_className q) in
    let prayer := read proto "prayer" (q_prayer q) in
    let studentId := read proto "studentId" (q_studentId q) in
    let attendance := attendance data in
    let attendance := filter_if date a_date attendance in
    let attendance := filter_if className a_className attendance in
    let attendance := filter_if prayer a_prayer attendance in
    let attendance := filter_if studentId a_studentId attendance in
    ret (mkResponse 200 (BAttendanceList attendance))).

Definition post_attendance (req : AttendanceBody) : M Response :=
  handler (
    data <- readData ;;
    proto <- gets w_proto ;;
    let id := read proto "id" (ab_id req) in
    let studentId := read proto "studentId" (ab_studentId req) in
    let studentName := read proto "studentName" (ab_studentName req) in
    let className := read proto "className" (ab_className req) in
    let prayer := read proto "prayer" (ab_prayer req) in
    let date := read proto "date" (ab_date req) in
    let status := read proto "status" (ab_status req) in
    let reason := read proto "reason" (ab_reason req) in
    let timestamp := read proto "timestamp" (ab_timestamp req) in
    if falsy id || falsy studentId || falsy studentName || falsy className
       || falsy prayer || falsy date || falsy status then
      ret (mkResponse 400
             (BError "id, studentId, studentName, className, prayer, date, and status are required"))
    else
      let existingIndex := findIndex (fun a => strict_eq (a_id a) id) (attendance data) in
      let written :=
        if (existingIndex >=? 0)%Z then Z.to_nat existingIndex
        else List.length (attendance data) in
      data <-
        (if (existingIndex >=? 0)%Z then
           timestamp <-
             (if truthy timestamp then ret timestamp else t <- now ;; ret (VStr t)) ;;
           updatedAt <- now ;;
           ret (set_attendance
                  (array_set (attendance data) (Z.to_nat existingIndex)
                     (mkAttendance id studentId studentName className prayer date status
                        (js_or reason VNull) timestamp (VStr updatedAt)))
                  data)
         else
           timestamp <-
             (if truthy timestamp then ret timestamp else t <- now ;; ret (VStr t)) ;;
           updatedAt <- now ;;
           ret (set_attendance
                  (push (attendance data)
                     (mkAttendance id studentId studentName className prayer date status
                        (js_or reason VNull) timestamp (VStr updatedAt)))
                  data)) ;;
      writeData data ;;
      let attendanceRecord :=
        find_written (fun a => strict_eq (a_id a) id) written (attendance data) in
      broadcast (Event "attendance_updated" (DAttendance attendanceRecord)
                   (if (existingIndex >=? 0)%Z then "updated" else "created")) ;;
      ret (mkResponse 200 (BAttendance attendanceRecord))).

Definition delete_attendance (id : string) : M Response :=
  handler (
    data <- readData ;;
    let data :=
      set_attendance (filter (fun a => negb (strict_eq (a_id a) (VStr id))) (attendance data))
                     data in
    writeData data ;;
    broadcast (Event "attendance_deleted" (DId id) "deleted") ;;
    ret (mkResponse 200 BSuccess)).

(** ** Summary *)

Definition get_summary (q : SummaryQuery) : M Response :=
  handler (
    data <- readData ;;
    proto <- gets w_proto ;;
    let date := read proto "date" (sq_date q) in
    let className := read proto "className" (sq_className q) in
    let attendance := attendance data in
    let attendance := filter_if date a_date attendance in
    let attendance := filter_if className a_className attendance in
    summary <- forEach_summary attendance [] ;;
    ret (mkResponse 200 (BSummary summary))).

(** ** Requests and events as the unit of observation *)

Inductive Mutation :=
| UpsertClass (req : ClassBody)
| DeleteClass (id : string)
| UpsertStudent (req : StudentBody)
| DeleteStudent (id : string)
| UpsertAttendance (req : AttendanceBody)
| DeleteAttendance (id : string).

Inductive Request :=
| Mutate (m : Mutation)
| ListClasses
| ListStudents
| StudentsOfClass (className : string)
| ListAttendance (q : AttendanceQuery)
| Summarize (q : SummaryQuery).

Definition mutate (m : Mutation) : M Response :=
  match m with
  | UpsertClass req => post_classes req
  | DeleteClass id => delete_classes id
  | UpsertStudent req => post_students req
  | DeleteStudent id => delete_students id
  | UpsertAttendance req => post_attendance req
  | DeleteAttendance id => delete_attendance id
  end.

Definition serve (r : Request) : M Response :=
  match r with
  | Mutate m => mutate m
  | ListClasses => get_classes
  | ListStudents => get_students
  | StudentsOfClass className => get_students_class className
  | ListAttendance q => get_attendance q
  | Summarize q => get_summary q
  end.

(** The document a request finds: what [readData] returns. *)
Definition loaded (w : World) : Document :=
  match w_file w with
  | FileOf d => d
  | _ => mkDocument [] [] []
  end.

(** The process state after a sequence of requests. *)
Fixpoint after_requests (rs : list Request) (w : World) : World :=
  match rs with
  | [] => w
  | r :: t => after_requests t (snd (serve r w))
  end.

(** A process as it starts: no data file yet, [Object.prototype] as the
    language defines it, and a clock whose readings, being ISO dates, are not
    empty. *)
Definition started (w : World) : Prop :=
  w_file w = NoFile /\ w_proto w = [] /\ forall k, w_clock w k <> "".

(** The states the server gets into: from its start, by serving requests,
    while the volume under [data.json] may change its behaviour, sockets come
    and go, and the process may be started again on the file it has left.
    Where the summary loop leaves the embedding ([Beyond]) it may have put
    further names on [Object.prototype]; [reach_proto] allows for any. *)
Inductive reachable : World -> Prop :=
| reach_start (w : World) : started w -> reachable w
| reach_serve (r : Request) (w : World) : reachable w -> reachable (snd (serve r w))
| reach_disk (k : disk) (w : World) : reachable w -> reachable (set_disk k w)
| reach_clients (cs : list Socket) (w : World) : reachable w -> reachable (set_clients cs w)
| reach_restart (w : World) : reachable w -> reachable (set_proto [] (set_clients [] w))
| reach_proto (p : list string) (w : World) : reachable w -> reachable (set_proto p w).

(** ** The effects of the steps every mutation goes through *)

Definition after_read (w : World) : World :=
  match w_file w with
  | NoFile => match w_disk w with
              | Writes => set_file (FileOf initialData) w
              | Refuses => w
              | Tears => set_file Corrupt w
              end
  | _ => w
  end.

Definition after_write (data : Document) (w : World) : World :=
  let w := add_call (CWriteData data) w in
  match w_disk w with
  | Writes => set_file (FileOf data) w
  | Refuses => w
  | Tears => set_file Corrupt w
  end.

Definition deliver (data : string) (client : Socket) : Socket :=
  if (readyState client =? 1)%nat then send data client else client.

Definition after_broadcast (message : Message) (w : World) : World :=
  set_clients (map (deliver (JSON_stringify message)) (w_clients w))
              (add_call (CBroadcast message) w).

(** The file once a request has handed [data] to [writeData]. *)
Definition file_after (data : Document) (w : World) : file_state :=
  match w_disk w with
  | Writes => FileOf data
  | Refuses => w_file w
  | Tears => Corrupt
  end.

End Handlers.

(** ** Vocabulary for the theorems *)

(** No two of the values are [===]. *)
Fixpoint distinct (ids : list value) : Prop :=
  match ids with
  | [] => True
  | x :: t => (forall y, In y t -> strict_eq y x = false) /\ distinct t
  end.

(** The shape of the documents the server writes: in each collection no two
    records have [===] ids, and every class carries an id and a creation
    stamp. *)
Definition tidy (d : Document) : Prop :=
  distinct (map c_id (classes d)) /\
  distinct (map s_id (students d)) /\
  distinct (map a_id (attendance d)) /\
  forall c, In c (classes d) -> truthy (c_id c) = true /\ truthy (c_createdAt c) = true.

(** The string a string value holds. *)
Definition text (v : value) : string :=
  match v with
  | VStr s => s
  | _ => ""
  end.

(** A key that is not an array index and that no object inherits, neither
    from the language nor from an earlier summary. *)
Definition plain_in (proto : list string) (k : string) : bool :=
  match array_index k with
  | Some _ => false
  | None => negb (inherited k) && negb (existsb (String.eqb k) proto)
  end.

(** The class record POST /api/classes writes over [existing], and the one
    it appends. *)
Definition restamp (id name : value) (existing : Class) (w : World) : Class :=
  if truthy (c_createdAt existing)
  then mkClass id name (c_createdAt existing) (VStr (w_clock w (w_tick w)))
  else mkClass id name (VStr (w_clock w (w_tick w))) (VStr (w_clock w (S (w_tick w)))).

Definition stamp (id name : value) (w : World) : Class :=
  mkClass id name (VStr (w_clock w (w_tick w))) (VStr (w_clock w (S (w_tick w)))).

(** The records POST /api/students and POST /api/attendance store. *)
Definition student_of (req : StudentBody) (w : World) : Student :=
  let proto := w_proto w in
  mkStudent (read proto "id" (sb_id req)) (read proto "name" (sb_name req))
            (js_or (read proto "rollNumber" (sb_rollNumber req)) VNull)
            (read proto "className" (sb_className req))
            (VStr (w_clock w (w_tick w))).

Definition attendance_of (req : AttendanceBody) (w : World) : Attendance :=
  let proto := w_proto w in
  let timestamp := read proto "timestamp" (ab_timestamp req) in
  mkAttendance (read proto "id" (ab_id req)) (read proto "studentId" (ab_studentId req))
    (read proto "studentName" (ab_studentName req))
    (read proto "className" (ab_className req)) (read proto "prayer" (ab_prayer req))
    (read proto "date" (ab_date req)) (read proto "status" (ab_status req))
    (js_or (read proto "reason" (ab_reason req)) VNull)
    (if truthy timestamp then timestamp else VStr (w_clock w (w_tick w)))
    (VStr (w_clock w (if truthy timestamp then w_tick w else S (w_tick w)))).

(** The test each POST handler makes before it touches the document, on the
    members as the handler reads them. *)
Definition invalid (proto : list string) (m : Mutation) : bool :=
  match m with
  | UpsertClass req =>
      falsy (read proto "id" (cb_id req)) || falsy (read proto "name" (cb_name req))
  | UpsertStudent req =>
      falsy (read proto "id" (sb_id req)) || falsy (read proto "name" (sb_name req))
      || falsy (read proto "className" (sb_className req))
  | UpsertAttendance req =>
      falsy (read proto "id" (ab_id req)) || falsy (read proto "studentId" (ab_studentId req))
      || falsy (read proto "studentName" (ab_studentName req))
      || falsy (read proto "className" (ab_className req))
      || falsy (read proto "prayer" (ab_prayer req))
      || falsy (read proto "date" (ab_date req))
      || falsy (read proto "status" (ab_status req))
  | _ => false
  end.

Definition requirement (m : Mutation) : string :=
  match m with
  | UpsertClass _ => "id and name are required"
  | UpsertStudent _ => "id, name, and className are required"
  | UpsertAttendance _ =>
      "id, studentId, studentName, className, prayer, date, and status are required"
  | _ => ""
  end.

(** The members that test reads. *)
Definition required (m : Mutation) : list string :=
  match m with
  | UpsertClass _ => ["id"; "name"]
  | UpsertStudent _ => ["id"; "name"; "className"]
  | UpsertAttendance _ =>
      ["id"; "studentId"; "studentName"; "className"; "prayer"; "date"; "status"]
  | _ => []
  end.

(** The class record POST /api/classes stores for [req]. *)
Definition class_of (req : ClassBody) (w : World) : Class :=
  let id := read (w_proto w) "id" (cb_id req) in
  let name := read (w_proto w) "name" (cb_name req) in
  match find (fun c => strict_eq (c_id c) id) (classes (loaded w)) with
  | Some existing => restamp id name existing w
  | None => stamp id name w
  end.

(** [existingIndex >= 0 ? 'updated' : 'created'] *)
Definition action_of {A : Type} (p : A -> bool) (l : list A) : string :=
  if existsb p l then "updated" else "created".

(** What a mutation that passes validation answers and announces. *)
Definition answer (m : Mutation) (w : World) : Body :=
  match m with
  | UpsertClass req => BClass (Some (class_of req w))
  | UpsertStudent req => BStudent (Some (student_of req w))
  | UpsertAttendance req => BAttendance (Some (attendance_of req w))
  | DeleteClass _ | DeleteStudent _ | DeleteAttendance _ => BSuccess
  end.

Definition event (m : Mutation) (w : World) : Message :=
  match m with
  | UpsertClass req =>
      Event "class_updated" (DClass (Some (class_of req w)))
        (action_of (fun c => strict_eq (c_id c) (read (w_proto w) "id" (cb_id req)))
                   (classes (loaded w)))
  | DeleteClass id => Event "class_deleted" (DId id) "deleted"
  | UpsertStudent req =>
      Event "student_updated" (DStudent (Some (student_of req w)))
        (action_of (fun s => strict_eq (s_id s) (read (w_proto w) "id" (sb_id req)))
                   (students (loaded w)))
  | DeleteStudent id => Event "student_deleted" (DId id) "deleted"
  | UpsertAttendance req =>
      Event "attendance_updated" (DAttendance (Some (attendance_of req w)))
        (action_of (fun a => strict_eq (a_id a) (read (w_proto w) "id" (ab_id req)))
                   (attendance (loaded w)))
  | DeleteAttendance id => Event "attendance_deleted" (DId id) "deleted"
  end.

(** [l] with its first element satisfying [p] replaced by [x], or with [x]
    appended when it has none: what the three POST handlers do to a
    collection. *)
Fixpoint upsert {A : Type} (p : A -> bool) (x : A) (l : list A) : list A :=
  match l with
  | [] => [x]
  | y :: t => if p y then x :: t else y :: upsert p x t
  end.

(** The document each mutation hands to [writeData]. *)
Definition handed (m : Mutation) (w : World) : Document :=
  let data := loaded w in
  match m with
  | UpsertClass req =>
      set_classes
        (upsert (fun c => strict_eq (c_id c) (read (w_proto w) "id" (cb_id req)))
                (class_of req w) (classes data)) data
  | DeleteClass id =>
      let data' :=
        set_classes (filter (fun c => negb (strict_eq (c_id c) (VStr id))) (classes data))
                    data in
      match find (fun c => strict_eq (c_id c) (VStr id)) (classes data) with
      | Some cls =>
          set_students
            (filter (fun s => negb (strict_eq (s_className s) (c_name cls)))
                    (students data)) data'
      | None => data'
      end
  | UpsertStudent req =>
      set_students
        (upsert (fun s => strict_eq (s_id s) (read (w_proto w) "id" (sb_id req)))
                (student_of req w) (students data)) data
  | DeleteStudent id =>
      set_attendance
        (filter (fun a => negb (strict_eq (a_studentId a) (VStr id))) (attendance data))
        (set_students (filter (fun s => negb (strict_eq (s_id s) (VStr id))) (students data))
                      data)
  | UpsertAttendance req =>
      set_attendance
        (upsert (fun a => strict_eq (a_id a) (read (w_proto w) "id" (ab_id req)))
                (attendance_of req w) (attendance data)) data
  | DeleteAttendance id =>
      set_attendance (filter (fun a => negb (strict_eq (a_id a) (VStr id))) (attendance data))
                     data
  end.

(** The summary as the specification words it: by date, then by prayer. *)
Definition grouped_by_date_then_prayer (l : list Attendance) : Summary :=
  map (fun g => (fst g, group_by (fun a => text (a_prayer a)) (snd g)))
      (group_by (fun a => text (a_date a)) l).

(** The records a summary holds under a date and a prayer. *)
Definition records_of (s : Summary) (date prayer : string) : list Attendance :=
  value_or (value_or s date []) prayer [].

(** ** Sample data *)

Definition fresh_world : World := mkWorld NoFile Writes [] sample_clock 0 [] [].

Definition world_of (d : Document) (k : disk) (cs : list Socket) : World :=
  mkWorld (FileOf d) k cs sample_clock 0 [] [].

Definition mark (id date prayer : string) : AttendanceBody :=
  mkAttendanceBody (VStr id) (VStr "s1") (VStr "Amal") (VStr "Grade 5")
    (VStr prayer) (VStr date) (VStr "present") VUndefined VUndefined.

(** The same payload without [status]. *)
Definition unmarked (id date prayer : string) : AttendanceBody :=
  mkAttendanceBody (VStr id) (VStr "s1") (VStr "Amal") (VStr "Grade 5")
    (VStr prayer) (VStr date) VUndefined VUndefined VUndefined.

Definition taken (id date prayer : string) : Attendance :=
  mkAttendance (VStr id) (VStr "s1") (VStr "Amal") (VStr "Grade 5")
    (VStr prayer) (VStr date) (VStr "present") VNull
    (VStr "2024-03-01T08:00:00.000Z") (VStr "2024-03-01T08:00:00.000Z").

Definition grade5 : Class :=
  mkClass (VStr "c1") (VStr "Grade 5") (VStr "2023-09-02T07:00:00.000Z")
          (VStr "2023-09-02T07:00:00.000Z").

Definition grade6 : Class :=
  mkClass (VStr "c2") (VStr "Grade 6") (VStr "2023-09-03T07:00:00.000Z")
          (VStr "2023-09-03T07:00:00.000Z").

Definition no_filter : SummaryQuery := mkSummaryQuery VUndefined VUndefined.

Definition any_stringify (m : Message) : string :=
  match m with
  | Event type _ action => String.append type (String.append "/" action)
  | Welcome type _ => type
  end.

End Node.

Section Server.

(** [JSON.stringify] on the messages pushed to the sockets. *)
Variable JSON_stringify : Message -> string.

(** ** The WebSocket registry *)

(** [client.send(data)] on an open socket. *)
Definition send (data : string) (client : Socket) : Socket :=
  mkSocket (sock_id client) (readyState client) (push (sent client) data).

Definition broadcast (message : Message) : M unit :=
  modify (add_call (CBroadcast message)) ;;
  let data := JSON_stringify message in
  modify (fun w =>
    set_clients
      (map (fun client =>
              if (readyState client =? 1)%nat then send data client else client)
           (w_clients w)) w).

(** [clients.add(ws)]: a Set keeps one entry per socket. *)
Definition clients_add (ws : Socket) (cs : list Socket) : list Socket :=
  if existsb (fun c => (sock_id c =? sock_id ws)%nat) cs then cs else cs ++ [ws].

(** [clients.delete(ws)] *)
Definition clients_delete (ws : nat) (cs : list Socket) : list Socket :=
  filter (fun c => negb (sock_id c =? ws)%nat) cs.

(** [wss.on('connection', ...)]: the socket handed over is open and has
    sent nothing yet. *)
Definition on_connection (ws : nat) : M unit :=
  modify (fun w => set_clients (clients_add (mkSocket ws 1 []) (w_clients w)) w) ;;
  let data := JSON_stringify (Welcome "connected" "Connected to server") in
  modify (fun w =>
    set_clients
      (map (fun c => if (sock_id c =? ws)%nat then send data c else c) (w_clients w)) w).

(** [ws.on('close', ...)] *)
Definition on_close (ws : nat) : M unit :=
  modify (fun w => set_clients (clients_delete ws (w_clients w)) w).

(** [ws.on('error', ...)] only logs. *)
Definition on_error (ws : nat) : M unit := ret tt.

(** The transport changing a socket's [readyState] (for instance to
    CLOSING when the peer starts the closing handshake). *)
Definition transport_state (ws st : nat) : M unit :=
  modify (fun w =>
    set_clients
      (map (fun c => if (sock_id c =? ws)%nat then mkSocket (sock_id c) st (sent c) else c)
           (w_clients w)) w).

(** [catch (error) { res.status(500).json({ error: error.message }) }] *)
Definition handler (m : M Response) : M Response :=
  try_catch m (fun e => ret (mkResponse 500 (BException e))).

(** ** Classes *)

Definition get_classes : M Response :=
  handler (
    data <- readData ;;
    ret (mkResponse 200 (BClasses (classes data)))).

Definition post_classes (req : ClassBody) : M Response :=
  handler (
    data <- readData ;;
    let id := cb_id req in
    let name := cb_name req in
    if falsy id || falsy name then
      ret (mkResponse 400 (BError "id and name are required"))
    else
      let existingIndex := findIndex (fun c => c_id c =? str id) (classes data) in
      data <-
        (if (existingIndex >=? 0)%Z then
           existing <- element (classes data) existingIndex ;;
           createdAt <-
             (if truthy (c_createdAt existing) then ret (c_createdAt existing)
              else t <- now ;; ret (Some t)) ;;
           updatedAt <- now ;;
           ret (set_classes
                  (array_set (classes data) (Z.to_nat existingIndex)
                     (mkClass (str id) (str name) createdAt (Some updatedAt)))
                  data)
         else
           createdAt <- now ;;
           updatedAt <- now ;;
           ret (set_classes
                  (push (classes data)
                     (mkClass (str id) (str name) (Some createdAt) (Some updatedAt)))
                  data)) ;;
      writeData data ;;
      let newClass := find (fun c => c_id c =? str id) (classes data) in
      broadcast (Event "class_updated" (DClass newClass)
                   (if (existingIndex >=? 0)%Z then "updated" else "created")) ;;
      ret (mkResponse 200 (BClass newClass))).

Definition delete_classes (id : string) : M Response :=
  handler (
    data <- readData ;;
    let classToDelete := find (fun c => c_id c =? id) (classes data) in
    let data := set_classes (filter (fun c => negb (c_id c =? id)) (classes data)) data in
    let data :=
      match classToDelete with
      | Some cls =>
          set_students
            (filter (fun s => negb (s_className s =? c_name cls)) (students data)) data
      | None => data
      end in
    writeData data ;;
    broadcast (Event "class_deleted" (DId id) "deleted") ;;
    ret (mkResponse 200 BSuccess)).

(** ** Students *)

Definition get_students : M Response :=
  handler (
    data <- readData ;;
    ret (mkResponse 200 (BStudents (students data)))).

Definition get_students_class (className : string) : M Response :=
  handler (
    data <- readData ;;
    ret (mkResponse 200
           (BStudents (filter (fun s => s_className s =? className) (students data))))).

Definition post_students (req : StudentBody) : M Response :=
  handler (
    data <- readData ;;
    let id := sb_id req in
    let name := sb_name req in
    let rollNumber := sb_rollNumber req in
    let className := sb_className req in
    if falsy id || falsy name || falsy className then
      ret (mkResponse 400 (BError "id, name, and className are required"))
    else
      let existingIndex := findIndex (fun s => s_id s =? str id) (students data) in
      data <-
        (if (existingIndex >=? 0)%Z then
           updatedAt <- now ;;
           ret (set_students
                  (array_set (students data) (Z.to_nat existingIndex)
                     (mkStudent (str id) (str name) (js_or rollNumber None)
                        (str className) (Some updatedAt)))
                  data)
         else
           updatedAt <- now ;;
           ret (set_students
                  (push (students data)
                     (mkStudent (str id) (str name) (js_or rollNumber None)
                        (str className) (Some updatedAt)))
                  data)) ;;
      writeData data ;;
      let newStudent := find (fun s => s_id s =? str id) (students data) in
      broadcast (Event "student_updated" (DStudent newStudent)
                   (if (existingIndex >=? 0)%Z then "updated" else "created")) ;;
      ret (mkResponse 200 (BStudent newStudent))).

Definition delete_students (id : string) : M Response :=
  handler (
    data <- readData ;;
    let data := set_students (filter (fun s => negb (s_id s =? id)) (students data)) data in
    let data :=
      set_attendance (filter (fun a => negb (a_studentId a =? id)) (attendance data)) data in
    writeData data ;;
    broadcast (Event "student_deleted" (DId id) "deleted") ;;
    ret (mkResponse 200 BSuccess)).

(** ** Attendance *)

Definition get_attendance (q : AttendanceQuery) : M Response :=
  handler (
    data <- readData ;;
    let attendance := attendance data in
    let attendance := filter_if (q_date q) a_date attendance in
    let attendance := filter_if (q_className q) a_className attendance in
    let attendance := filter_if (q_prayer q) a_prayer attendance in
    let attendance := filter_if (q_studentId q) a_studentId attendance in
    ret (mkResponse 200 (BAttendanceList attendance))).

Definition post_attendance (req : AttendanceBody) : M Response :=
  handler (
    data <- readData ;;
    let id := ab_id req in
    let studentId := ab_studentId req in
    let studentName := ab_studentName req in
    let className := ab_className req in
    let prayer := ab_prayer req in
    let date := ab_date req in
    let status := ab_status req in
    let reason := ab_reason req in
    let timestamp := ab_timestamp req in
    if falsy id || falsy studentId || falsy studentName || falsy className
       || falsy prayer || falsy date || falsy status then
      ret (mkResponse 400
             (BError "id, studentId, studentName, className, prayer, date, and status are required"))
    else
      let existingIndex := findIndex (fun a => a_id a =? str id) (attendance data) in
      data <-
        (if (existingIndex >=? 0)%Z then
           timestamp <-
             (if truthy timestamp then ret timestamp else t <- now ;; ret (Some t)) ;;
           updatedAt <- now ;;
           ret (set_attendance
                  (array_set (attendance data) (Z.to_nat existingIndex)
                     (mkAttendance (str id) (str studentId) (str studentName)
                        (str className) (str prayer) (str date) (str status)
                        (js_or reason None) timestamp (Some updatedAt)))
                  data)
         else
           timestamp <-
             (if truthy timestamp then ret timestamp else t <- now ;; ret (Some t)) ;;
           updatedAt <- now ;;
           ret (set_attendance
                  (push (attendance data)
                     (mkAttendance (str id) (str studentId) (str studentName)
                        (str className) (str prayer) (str date) (str status)
                        (js_or reason None) timestamp (Some updatedAt)))
                  data)) ;;
      writeData data ;;
      let attendanceRecord := find (fun a => a_id a =? str id) (attendance data) in
      broadcast (Event "attendance_updated" (DAttendance attendanceRecord)
                   (if (existingIndex >=? 0)%Z then "updated" else "created")) ;;
      ret (mkResponse 200 (BAttendance attendanceRecord))).

Definition delete_attendance (id : string) : M Response :=
  handler (
    data <- readData ;;
    let data := set_attendance (filter (fun a => negb (a_id a =? id)) (attendance data)) data in
    writeData data ;;
    broadcast (Event "attendance_deleted" (DId id) "deleted") ;;
    ret (mkResponse 200 BSuccess)).

(** ** Summary *)

Definition get_summary (q : SummaryQuery) : M Response :=
  handler (
    data <- readData ;;
    let attendance := attendance data in
    let attendance := filter_if (sq_date q) a_date attendance in
    let attendance := filter_if (sq_className q) a_className attendance in
    summary <- lift (summarize attendance) ;;
    ret (mkResponse 200 (BSummary summary))).

(** ** Requests as the unit of observation *)

Inductive Mutation :=
| UpsertClass (req : ClassBody)
| DeleteClass (id : string)
| UpsertStudent (req : StudentBody)
| DeleteStudent (id : string)
| UpsertAttendance (req : AttendanceBody)
| DeleteAttendance (id : string).

Definition mutate (m : Mutation) : M Response :=
  match m with
  | UpsertClass req => post_classes req
  | DeleteClass id => delete_classes id
  | UpsertStudent req => post_students req
  | DeleteStudent id => delete_students id
  | UpsertAttendance req => post_attendance req
  | DeleteAttendance id => delete_attendance id
  end.

(** The document a request finds: what [readData] returns. *)
Definition loaded (w : World) : Document :=
  match w_file w with
  | FileOf d => d
  | _ => mkDocument [] [] []
  end.

(** ** The effects of the three steps every mutation goes through *)

(** The process state after [readData]: a missing file has been created
    empty when the disk accepts the write. *)
Definition after_read (w : World) : World :=
  match w_file w with
  | NoFile => if w_disk_ok w then set_file (FileOf initialData) w else w
  | _ => w
  end.

(** The process state after [writeData data]. *)
Definition after_write (data : Document) (w : World) : World :=
  let w := add_call (CWriteData data) w in
  if w_disk_ok w then set_file (FileOf data) w else w.

(** What [broadcast] does to one registered socket. *)
Definition deliver (data : string) (client : Socket) : Socket :=
  if (readyState client =? 1)%nat then send data client else client.

(** The process state after [broadcast message]. *)
Definition after_broadcast (message : Message) (w : World) : World :=
  set_clients (map (deliver (JSON_stringify message)) (w_clients w))
              (add_call (CBroadcast message) w).

(** The record POST /api/classes writes over an existing class: the creation
    stamp is kept when it is truthy, read from the clock otherwise. *)
Definition restamp (id name : string) (existing : Class) (w : World) : Class :=
  if truthy (c_createdAt existing)
  then mkClass id name (c_createdAt existing) (Some (w_clock w (w_tick w)))
  else mkClass id name (Some (w_clock w (w_tick w))) (Some (w_clock w (S (w_tick w)))).

(** The record POST /api/classes appends for a new id. *)
Definition stamp (id name : string) (w : World) : Class :=
  mkClass id name (Some (w_clock w (w_tick w))) (Some (w_clock w (S (w_tick w)))).

(** A payload that fails the required-field test of its POST handler.
    Deletions take their id from the route and have no such test. *)
Definition invalid (m : Mutation) : bool :=
  match m with
  | UpsertClass req => falsy (cb_id req) || falsy (cb_name req)
  | UpsertStudent req =>
      falsy (sb_id req) || falsy (sb_name req) || falsy (sb_className req)
  | UpsertAttendance req =>
      falsy (ab_id req) || falsy (ab_studentId req) || falsy (ab_studentName req)
      || falsy (ab_className req) || falsy (ab_prayer req) || falsy (ab_date req)
      || falsy (ab_status req)
  | _ => false
  end.

(** The text of the 400 response of each POST handler. *)
Definition requirement (m : Mutation) : string :=
  match m with
  | UpsertClass _ => "id and name are required"
  | UpsertStudent _ => "id, name, and className are required"
  | UpsertAttendance _ =>
      "id, studentId, studentName, className, prayer, date, and status are required"
  | _ => ""
  end.

(** ** Further vocabulary for the properties of the handlers *)

(** The process state after a sequence of mutating requests. *)
Fixpoint after_requests (ms : list Mutation) (w : World) : World :=
  match ms with
  | [] => w
  | m :: t => after_requests t (snd (mutate m w))
  end.

(** The GET routes. *)
Inductive Read :=
| ListClasses
| ListStudents
| StudentsOfClass (className : string)
| ListAttendance (q : AttendanceQuery)
| Summarize (q : SummaryQuery).

Definition serve (r : Read) : M Response :=
  match r with
  | ListClasses => get_classes
  | ListStudents => get_students
  | StudentsOfClass className => get_students_class className
  | ListAttendance q => get_attendance q
  | Summarize q => get_summary q
  end.

(** A query parameter that is absent or empty accepts every record; one
    that is present accepts the records carrying exactly that string. *)
Definition accepts (q : field) (x : string) : bool :=
  if truthy q then x =? str q else true.

(** All four parameters of GET /api/attendance at once. *)
Definition matches (q : AttendanceQuery) (a : Attendance) : bool :=
  accepts (q_date q) (a_date a) && accepts (q_className q) (a_className a)
  && accepts (q_prayer q) (a_prayer a) && accepts (q_studentId q) (a_studentId a).

(** The records a summary holds under a date and a prayer. *)
Definition records_of (s : Summary) (date prayer : string) : list Attendance :=
  value_or (value_or s date []) prayer [].

(** The student record POST /api/students stores. *)
Definition student_of (req : StudentBody) (w : World) : Student :=
  mkStudent (str (sb_id req)) (str (sb_name req)) (js_or (sb_rollNumber req) None)
            (str (sb_className req)) (Some (w_clock w (w_tick w))).

(** The attendance record POST /api/attendance stores: the caller's
    timestamp when it sends one, a clock reading otherwise. *)
Definition attendance_of (req : AttendanceBody) (w : World) : Attendance :=
  mkAttendance (str (ab_id req)) (str (ab_studentId req)) (str (ab_studentName req))
    (str (ab_className req)) (str (ab_prayer req)) (str (ab_date req))
    (str (ab_status req)) (js_or (ab_reason req) None)
    (if truthy (ab_timestamp req) then ab_timestamp req
     else Some (w_clock w (w_tick w)))
    (Some (w_clock w (if truthy (ab_timestamp req) then w_tick w else S (w_tick w)))).

(** The messages handed to [broadcast], oldest first. *)
Fixpoint broadcasts (calls : list Call) : list Message :=
  match calls with
  | [] => []
  | CBroadcast m :: t => m :: broadcasts t
  | CWriteData _ :: t => broadcasts t
  end.

(** A socket after [frames] have been broadcast, one after the other. *)
Definition deliver_all (frames : list string) (client : Socket) : Socket :=
  if (readyState client =? 1)%nat
  then mkSocket (sock_id client) (readyState client) (sent client ++ frames)
  else client.

(** ** First theorems: the three steps *)

Lemma readData_run (w : World) :
  readData w = (Ok (loaded w), after_read w).
Proof.
  destruct w as [f ok cs clk n calls].
  destruct f; [destruct ok | | ]; reflexivity.
Qed.

Lemma writeData_run (data : Document) (w : World) :
  writeData data w = (Ok (w_disk_ok w), after_write data w).
Proof.
  unfold writeData, try_catch, bind, modify, fs_writeFileSync, after_write, ret.
  cbn. destruct (w_disk_ok w); reflexivity.
Qed.

Lemma broadcast_run (message : Message) (w : World) :
  broadcast message w = (Ok tt, after_broadcast message w).
Proof. reflexivity. Qed.

Lemma bind_run {A B : Type} (m : M A) (k : A -> M B) (w w' : World) (a : A) :
  m w = (Ok a, w') -> bind m k w = k a w'.
Proof. intros H. unfold bind. rewrite H. reflexivity. Qed.

Lemma handler_run (m : M Response) (w w' : World) (r : Response) :
  m w = (Ok r, w') -> handler m w = (Ok r, w').
Proof. intros H. unfold handler, try_catch. rewrite H. reflexivity. Qed.

(** ** Arrays: [findIndex], [find] and assignment at the index found *)

Lemma findIndex_none {A : Type} (p : A -> bool) (l : list A) :
  (forall x, In x l -> p x = false) -> findIndex p l = (-1)%Z.
Proof.
  induction l as [|x t IH]; intros H; cbn; [reflexivity|].
  rewrite (H x (or_introl eq_refl)), IH by (intros y Hy; apply H; right; exact Hy).
  reflexivity.
Qed.

Lemma findIndex_first {A : Type} (p : A -> bool) (l1 l2 : list A) (x : A) :
  (forall y, In y l1 -> p y = false) -> p x = true ->
  findIndex p (l1 ++ x :: l2) = Z.of_nat (List.length l1).
Proof.
  induction l1 as [|y t IH]; intros H Hx; cbn [app findIndex List.length].
  - rewrite Hx. reflexivity.
  - rewrite (H y (or_introl eq_refl)), IH by (try assumption; intros z Hz; apply H; right; exact Hz).
    destruct (Z.ltb_spec (Z.of_nat (List.length t)) 0); lia.
Qed.

Lemma array_set_middle {A : Type} (l1 l2 : list A) (x v : A) :
  array_set (l1 ++ x :: l2) (List.length l1) v = l1 ++ v :: l2.
Proof. induction l1 as [|y t IH]; cbn; [reflexivity | rewrite IH; reflexivity]. Qed.

Lemma find_none {A : Type} (p : A -> bool) (l : list A) :
  (forall x, In x l -> p x = false) -> find p l = None.
Proof.
  induction l as [|x t IH]; intros H; cbn; [reflexivity|].
  rewrite (H x (or_introl eq_refl)). apply IH. intros y Hy. apply H. right. exact Hy.
Qed.

Lemma find_first {A : Type} (p : A -> bool) (l1 l2 : list A) (x : A) :
  (forall y, In y l1 -> p y = false) -> p x = true ->
  find p (l1 ++ x :: l2) = Some x.
Proof.
  induction l1 as [|y t IH]; intros H Hx; cbn [app find].
  - rewrite Hx. reflexivity.
  - rewrite (H y (or_introl eq_refl)). apply IH; [|exact Hx].
    intros z Hz. apply H. right. exact Hz.
Qed.

(** Every list either has no element satisfying [p] or splits at the first. *)
Lemma first_match {A : Type} (p : A -> bool) (l : list A) :
  (forall x, In x l -> p x = false) \/
  (exists l1 x l2, l = l1 ++ x :: l2 /\ p x = true /\ forall y, In y l1 -> p y = false).
Proof.
  induction l as [|x t IH].
  - left. intros x [].
  - destruct (p x) eqn:Hx.
    + right. exists [], x, t. repeat split; [exact Hx | intros y []].
    + destruct IH as [IH | (l1 & y & l2 & -> & Hy & Hl1)].
      * left. intros y [<- | Hy]; [exact Hx | apply IH; exact Hy].
      * right. exists (x :: l1), y, l2. repeat split; [exact Hy|].
        intros z [<- | Hz]; [exact Hx | apply Hl1; exact Hz].
Qed.

Lemma element_middle {A : Type} (l1 l2 : list A) (x : A) (w : World) :
  element (l1 ++ x :: l2) (Z.of_nat (List.length l1)) w = (Ok x, w).
Proof.
  unfold element. rewrite Nat2Z.id, nth_error_app2, Nat.sub_diag by lia.
  reflexivity.
Qed.


Lemma post_classes_found (req : ClassBody) (w : World) l1 old l2 :
  truthy (cb_id req) = true -> truthy (cb_name req) = true ->
  classes (loaded w) = l1 ++ old :: l2 ->
  (forall c, In c l1 -> c_id c <> str (cb_id req)) -> c_id old = str (cb_id req) ->
  post_classes req w =
  let w1 := after_read w in
  let new := restamp (str (cb_id req)) (str (cb_name req)) old w1 in
  (Ok (mkResponse 200 (BClass (Some new))),
   after_broadcast (Event "class_updated" (DClass (Some new)) "updated")
     (after_write (set_classes (l1 ++ new :: l2) (loaded w))
        (set_tick (w_tick w1 + (if truthy (c_createdAt old) then 1 else 2)) w1))).
Proof.
  intros Hid Hname Hl Hl1 Hold.
  unfold post_classes. apply handler_run.
  erewrite bind_run by apply readData_run.
  unfold falsy. rewrite Hid, Hname. cbn [negb orb].
  rewrite Hl, findIndex_first.
  2:{ intros y Hy. apply String.eqb_neq. auto. }
  2:{ apply String.eqb_eq. auto. }
  replace (Z.of_nat (List.length l1) >=? 0)%Z with true by (symmetry; apply Z.geb_le; lia).
  erewrite bind_run.
  2:{ erewrite bind_run by apply element_middle.
      instantiate (1 := set_tick (w_tick (after_read w) + (if truthy (c_createdAt old) then 1 else 2)) (after_read w)).
      instantiate (1 := set_classes (l1 ++ restamp (str (cb_id req)) (str (cb_name req)) old (after_read w) :: l2) (loaded w)).
      unfold now, bind, ret, restamp.
      destruct (truthy (c_createdAt old));
        cbn [w_tick w_clock set_tick];
        rewrite Nat2Z.id, array_set_middle, ?Nat.add_1_r, ?Nat.add_succ_r, ?Nat.add_0_r;
        reflexivity. }
  erewrite bind_run by apply writeData_run.
  cbn [classes set_classes].
  rewrite find_first.
  2:{ intros y Hy. apply String.eqb_neq. auto. }
  2:{ unfold restamp. destruct (truthy (c_createdAt old)); apply String.eqb_refl. }
  erewrite bind_run by apply broadcast_run.
  reflexivity.
Qed.

Lemma post_classes_fresh (req : ClassBody) (w : World) :
  truthy (cb_id req) = true -> truthy (cb_name req) = true ->
  (forall c, In c (classes (loaded w)) -> c_id c <> str (cb_id req)) ->
  post_classes req w =
  let w1 := after_read w in
  let new := stamp (str (cb_id req)) (str (cb_name req)) w1 in
  (Ok (mkResponse 200 (BClass (Some new))),
   after_broadcast (Event "class_updated" (DClass (Some new)) "created")
     (after_write (set_classes (classes (loaded w) ++ [new]) (loaded w))
        (set_tick (w_tick w1 + 2) w1))).
Proof.
  intros Hid Hname Hnone.
  unfold post_classes. apply handler_run.
  erewrite bind_run by apply readData_run.
  unfold falsy. rewrite Hid, Hname. cbn [negb orb].
  rewrite findIndex_none by (intros y Hy; apply String.eqb_neq; auto).
  cbn [Z.geb Z.compare].
  erewrite bind_run.
  2:{ instantiate (1 := set_tick (w_tick (after_read w) + 2) (after_read w)).
      instantiate (1 := set_classes (classes (loaded w) ++ [stamp (str (cb_id req)) (str (cb_name req)) (after_read w)]) (loaded w)).
      unfold now, bind, ret, stamp, push. cbn.
      rewrite ?Nat.add_succ_r, ?Nat.add_0_r. reflexivity. }
  erewrite bind_run by apply writeData_run.
  cbn [classes set_classes].
  rewrite <- (app_nil_r (_ ++ [_])), <- app_assoc. cbn [app].
  rewrite find_first.
  2:{ intros y Hy. apply String.eqb_neq. auto. }
  2:{ apply String.eqb_refl. }
  erewrite bind_run by apply broadcast_run.
  reflexivity.
Qed.

(** ** What the three steps leave alone *)

Lemma after_read_obs (w : World) :
  w_disk_ok (after_read w) = w_disk_ok w /\
  w_clients (after_read w) = w_clients w /\
  w_clock (after_read w) = w_clock w /\
  w_tick (after_read w) = w_tick w /\
  w_calls (after_read w) = w_calls w.
Proof.
  destruct w as [f ok cs clk n calls].
  destruct f; [destruct ok | | ]; cbn; repeat split.
Qed.

Lemma NoDup_key_split {A : Type} (f : A -> string) (l1 l2 : list A) (x : A) :
  NoDup (map f (l1 ++ x :: l2)) ->
  (forall y, In y l1 -> f y <> f x) /\ (forall y, In y l2 -> f y <> f x).
Proof.
  rewrite map_app. cbn [map]. intros H.
  apply NoDup_remove_2 in H.
  split; intros y Hy E; apply H, in_or_app; [left | right];
    rewrite <- E; apply in_map; exact Hy.
Qed.

Lemma filter_none {A : Type} (p : A -> bool) (l : list A) :
  (forall x, In x l -> p x = false) -> filter p l = [].
Proof.
  induction l as [|x t IH]; intros H; cbn; [reflexivity|].
  rewrite (H x (or_introl eq_refl)). apply IH. intros y Hy. apply H. right. exact Hy.
Qed.

Lemma filter_all {A : Type} (p : A -> bool) (l : list A) :
  (forall x, In x l -> p x = true) -> filter p l = l.
Proof.
  induction l as [|x t IH]; intros H; cbn; [reflexivity|].
  rewrite (H x (or_introl eq_refl)). f_equal. apply IH. intros y Hy. apply H. right. exact Hy.
Qed.


Lemma mutation_obs (message : Message) (d : Document) (n : nat) (w : World) :
  let w' := after_broadcast message (after_write d (set_tick n (after_read w))) in
  w_calls w' = w_calls w ++ [CWriteData d; CBroadcast message] /\
  w_disk_ok w' = w_disk_ok w /\
  w_file w' = (if w_disk_ok w then FileOf d else w_file w) /\
  w_clients w' = map (deliver (JSON_stringify message)) (w_clients w) /\
  w_clock w' = w_clock w /\
  w_tick w' = n.
Proof.
  destruct w as [f ok cs clk k calls].
  destruct f, ok; cbn; rewrite <- ?app_assoc; repeat split.
Qed.

(** ** Deletions *)

Lemma delete_classes_run (id : string) (w : World) :
  delete_classes id w =
  (Ok (mkResponse 200 BSuccess),
   after_broadcast (Event "class_deleted" (DId id) "deleted")
     (after_write
        (mkDocument
           (filter (fun c => negb (c_id c =? id)) (classes (loaded w)))
           match find (fun c => c_id c =? id) (classes (loaded w)) with
           | Some cls => filter (fun s => negb (s_className s =? c_name cls))
                           (students (loaded w))
           | None => students (loaded w)
           end
           (attendance (loaded w)))
        (set_tick (w_tick (after_read w)) (after_read w)))).
Proof.
  unfold delete_classes. apply handler_run.
  erewrite bind_run by apply readData_run.
  erewrite bind_run by apply writeData_run.
  erewrite bind_run by apply broadcast_run.
  destruct (find _ _), (after_read w); reflexivity.
Qed.

Lemma delete_students_run (id : string) (w : World) :
  delete_students id w =
  (Ok (mkResponse 200 BSuccess),
   after_broadcast (Event "student_deleted" (DId id) "deleted")
     (after_write
        (mkDocument
           (classes (loaded w))
           (filter (fun s => negb (s_id s =? id)) (students (loaded w)))
           (filter (fun a => negb (a_studentId a =? id)) (attendance (loaded w))))
        (set_tick (w_tick (after_read w)) (after_read w)))).
Proof.
  unfold delete_students. apply handler_run.
  erewrite bind_run by apply readData_run.
  erewrite bind_run by apply writeData_run.
  erewrite bind_run by apply broadcast_run.
  destruct (after_read w); reflexivity.
Qed.

Lemma delete_attendance_run (id : string) (w : World) :
  delete_attendance id w =
  (Ok (mkResponse 200 BSuccess),
   after_broadcast (Event "attendance_deleted" (DId id) "deleted")
     (after_write
        (mkDocument
           (classes (loaded w))
           (students (loaded w))
           (filter (fun a => negb (a_id a =? id)) (attendance (loaded w))))
        (set_tick (w_tick (after_read w)) (after_read w)))).
Proof.
  unfold delete_attendance. apply handler_run.
  erewrite bind_run by apply readData_run.
  erewrite bind_run by apply writeData_run.
  erewrite bind_run by apply broadcast_run.
  destruct (after_read w); reflexivity.
Qed.

(** ** Upserts of students and attendance records *)

Lemma post_students_run (req : StudentBody) (w : World) :
  truthy (sb_id req) = true -> truthy (sb_name req) = true ->
  truthy (sb_className req) = true ->
  exists new d' action n,
    post_students req w =
    (Ok (mkResponse 200 (BStudent new)),
     after_broadcast (Event "student_updated" (DStudent new) action)
       (after_write d' (set_tick n (after_read w)))).
Proof.
  intros Hid Hname Hcls.
  unfold post_students.
  destruct (findIndex (fun s => (s_id s =? str (sb_id req))%string) (students (loaded w)) >=? 0)%Z eqn:E.
  - eexists _, _, _, _. apply handler_run.
    erewrite bind_run by apply readData_run.
    unfold falsy. rewrite Hid, Hname, Hcls. cbn [negb orb]. rewrite E.
    erewrite bind_run by (unfold now, bind, ret; reflexivity).
    erewrite bind_run by apply writeData_run.
    erewrite bind_run by apply broadcast_run.
    reflexivity.
  - eexists _, _, _, _. apply handler_run.
    erewrite bind_run by apply readData_run.
    unfold falsy. rewrite Hid, Hname, Hcls. cbn [negb orb]. rewrite E.
    erewrite bind_run by (unfold now, bind, ret; reflexivity).
    erewrite bind_run by apply writeData_run.
    erewrite bind_run by apply broadcast_run.
    reflexivity.
Qed.

Lemma post_attendance_run (req : AttendanceBody) (w : World) :
  invalid (UpsertAttendance req) = false ->
  exists new d' action n,
    post_attendance req w =
    (Ok (mkResponse 200 (BAttendance new)),
     after_broadcast (Event "attendance_updated" (DAttendance new) action)
       (after_write d' (set_tick n (after_read w)))).
Proof.
  intros Hv. cbn [invalid] in Hv.
  unfold post_attendance.
  destruct (findIndex (fun a => (a_id a =? str (ab_id req))%string)
              (attendance (loaded w)) >=? 0)%Z eqn:E;
    destruct (truthy (ab_timestamp req)) eqn:T;
    eexists _, _, _, _; apply handler_run;
    (erewrite bind_run by apply readData_run);
    cbv zeta; rewrite Hv, ?E, ?T;
    (erewrite bind_run by (unfold now, bind, ret; reflexivity));
    (erewrite bind_run by apply writeData_run);
    (erewrite bind_run by apply broadcast_run);
    reflexivity.
Qed.

Lemma post_classes_run (req : ClassBody) (w : World) :
  invalid (UpsertClass req) = false ->
  exists new d' action n,
    post_classes req w =
    (Ok (mkResponse 200 (BClass new)),
     after_broadcast (Event "class_updated" (DClass new) action)
       (after_write d' (set_tick n (after_read w)))).
Proof.
  intros Hv. cbn [invalid] in Hv. apply orb_false_elim in Hv.
  unfold falsy in Hv. rewrite !negb_false_iff in Hv. destruct Hv as [Hid Hname].
  destruct (first_match (fun c => c_id c =? str (cb_id req)) (classes (loaded w)))
    as [Hnone | (l1 & old & l2 & Hl & Hold & Hl1)].
  - eexists _, _, _, _. apply post_classes_fresh; try assumption.
    intros c Hc. apply String.eqb_neq. auto.
  - eexists _, _, _, _. eapply post_classes_found; try eassumption.
    + intros c Hc. apply String.eqb_neq. auto.
    + apply String.eqb_eq. exact Hold.
Qed.

(** Every mutation that passes validation reads, writes, broadcasts and
    answers 200, in that order. *)
Lemma mutate_run (m : Mutation) (w : World) :
  invalid m = false ->
  exists resp message d' n,
    mutate m w =
    (Ok resp, after_broadcast message (after_write d' (set_tick n (after_read w)))) /\
    status resp = 200.
Proof.
  intros Hv. destruct m as [req | id | req | id | req | id]; cbn [mutate].
  - destruct (post_classes_run req w Hv) as (new & d' & action & n & ->).
    eexists _, _, _, _. split; reflexivity.
  - rewrite delete_classes_run. eexists _, _, _, _. split; reflexivity.
  - cbn [invalid] in Hv. apply orb_false_elim in Hv. destruct Hv as [Hv Hc].
    apply orb_false_elim in Hv. destruct Hv as [Hi Hn].
    unfold falsy in *. rewrite negb_false_iff in *.
    destruct (post_students_run req w Hi Hn Hc) as (new & d' & action & n & ->).
    eexists _, _, _, _. split; reflexivity.
  - rewrite delete_students_run. eexists _, _, _, _. split; reflexivity.
  - destruct (post_attendance_run req w Hv) as (new & d' & action & n & ->).
    eexists _, _, _, _. split; reflexivity.
  - rewrite delete_attendance_run. eexists _, _, _, _. split; reflexivity.
Qed.

(** A request that fails validation stops after [readData]. *)
Lemma mutate_invalid (m : Mutation) (w : World) :
  invalid m = true ->
  mutate m w = (Ok (mkResponse 400 (BError (requirement m))), after_read w).
Proof.
  intros Hv. destruct m as [req | id | req | id | req | id]; cbn [invalid] in Hv;
    try discriminate; cbn [mutate requirement].
  - unfold post_classes. apply handler_run.
    erewrite bind_run by apply readData_run. rewrite Hv. reflexivity.
  - unfold post_students. apply handler_run.
    erewrite bind_run by apply readData_run. rewrite Hv. reflexivity.
  - unfold post_attendance. apply handler_run.
    erewrite bind_run by apply readData_run. rewrite Hv. reflexivity.
Qed.

(** ** Objects: lookup and assignment on keys that are not array indices *)

Lemma has_own_find {V : Type} (o : JsObj V) (k : string) :
  has_own o k = match find (fun kv => fst kv =? k) o with Some _ => true | None => false end.
Proof.
  unfold has_own. induction o as [|kv t IH]; cbn; [reflexivity|].
  destruct (fst kv =? k); [reflexivity | exact IH].
Qed.

Lemma obj_set_append {V : Type} (o : JsObj V) (k : string) (v : V) :
  array_index k = None -> find (fun kv => fst kv =? k) o = None ->
  obj_set o k v = o ++ [(k, v)].
Proof.
  intros Hk Hf. unfold obj_set, obj_define. rewrite has_own_find, Hf, Hk. reflexivity.
Qed.

Lemma obj_set_replace {V : Type} (o : JsObj V) (k : string) (v : V) (kv : string * V) :
  find (fun kv => fst kv =? k) o = Some kv -> obj_set o k v = obj_replace k v o.
Proof. intros Hf. unfold obj_set. rewrite has_own_find, Hf. reflexivity. Qed.

Lemma obj_replace_last {V : Type} (o : JsObj V) (k : string) (v0 v : V) :
  find (fun kv => fst kv =? k) o = None ->
  obj_replace k v (o ++ [(k, v0)]) = o ++ [(k, v)].
Proof.
  induction o as [|kv t IH]; cbn.
  - rewrite String.eqb_refl. reflexivity.
  - destruct (fst kv =? k); [discriminate|]. intros H. rewrite IH by exact H. reflexivity.
Qed.

Lemma find_last {V : Type} (o : JsObj V) (k : string) (v : V) :
  find (fun kv => fst kv =? k) o = None ->
  find (fun kv => fst kv =? k) (o ++ [(k, v)]) = Some (k, v).
Proof.
  induction o as [|kv t IH]; cbn.
  - rewrite String.eqb_refl. reflexivity.
  - destruct (fst kv =? k); [discriminate | exact IH].
Qed.

(** ** Keys in order of first appearance *)

Lemma first_appearances_In (l : list string) (k : string) :
  In k (first_appearances l) <-> In k l.
Proof.
  induction l as [|x t IH]; cbn; [tauto|].
  rewrite filter_In, IH, negb_true_iff, String.eqb_neq.
  destruct (string_dec x k) as [-> | N]; [tauto|].
  split; [tauto|]. intros [E | H]; [contradiction|]. right. split; [exact H | congruence].
Qed.

Lemma first_appearances_NoDup (l : list string) : NoDup (first_appearances l).
Proof.
  induction l as [|x t IH]; cbn; constructor.
  - rewrite filter_In, String.eqb_refl. intros [_ H]. discriminate.
  - apply NoDup_filter. exact IH.
Qed.

Lemma first_appearances_snoc (l : list string) (k : string) :
  first_appearances (l ++ [k]) =
  first_appearances l ++ (if existsb (String.eqb k) l then [] else [k]).
Proof.
  induction l as [|x t IH]; cbn [app first_appearances existsb]; [reflexivity|].
  rewrite IH, filter_app. cbn [app]. do 2 f_equal.
  destruct (k =? x) eqn:E; cbn [orb].
  - destruct (existsb (String.eqb k) t); cbn; rewrite ?E; reflexivity.
  - destruct (existsb (String.eqb k) t); cbn; rewrite ?E; reflexivity.
Qed.

Lemma existsb_eqb_In (l : list string) (k : string) :
  existsb (String.eqb k) l = true <-> In k l.
Proof.
  rewrite existsb_exists. split.
  - intros (x & Hx & E). apply String.eqb_eq in E. subst. exact Hx.
  - intros H. exists k. split; [exact H | apply String.eqb_refl].
Qed.

(** ** Tabulated objects *)

Lemma tabulate_ext {V : Type} (g g' : string -> V) (ks : list string) :
  (forall k, In k ks -> g k = g' k) -> tabulate g ks = tabulate g' ks.
Proof.
  intros H. unfold tabulate. apply map_ext_in. intros k Hk. rewrite (H k Hk). reflexivity.
Qed.

Lemma find_tabulate_absent {V : Type} (g : string -> V) (ks : list string) (k : string) :
  ~ In k ks -> find (fun kv => fst kv =? k) (tabulate g ks) = None.
Proof.
  intros H. apply find_none. intros kv Hkv. unfold tabulate in Hkv.
  apply in_map_iff in Hkv. destruct Hkv as (k' & <- & Hk'). cbn.
  apply String.eqb_neq. intros ->. exact (H Hk').
Qed.

Lemma find_tabulate_present {V : Type} (g : string -> V) (ks : list string) (k : string) :
  In k ks -> find (fun kv => fst kv =? k) (tabulate g ks) = Some (k, g k).
Proof.
  induction ks as [|x t IH]; cbn; [tauto|].
  destruct (x =? k) eqn:E.
  - apply String.eqb_eq in E. subst. reflexivity.
  - apply String.eqb_neq in E. intros [H | H]; [contradiction | exact (IH H)].
Qed.

Lemma value_or_tabulate {V : Type} (g : string -> V) (ks : list string) (k : string)
      (init : V) :
  value_or (tabulate g ks) k init = if existsb (String.eqb k) ks then g k else init.
Proof.
  unfold value_or. destruct (existsb (String.eqb k) ks) eqn:E.
  - rewrite find_tabulate_present by (apply existsb_eqb_In; exact E). reflexivity.
  - rewrite find_tabulate_absent; [reflexivity|].
    intros H. apply existsb_eqb_In in H. congruence.
Qed.

Lemma obj_replace_tabulate {V : Type} (g : string -> V) (ks : list string) (k : string)
      (v : V) :
  NoDup ks ->
  obj_replace k v (tabulate g ks) = tabulate (fun k' => if k' =? k then v else g k') ks.
Proof.
  induction ks as [|x t IH]; intros Hnd; cbn; [reflexivity|].
  apply NoDup_cons_iff in Hnd. destruct Hnd as [Hx Hnd].
  destruct (x =? k) eqn:E.
  - apply String.eqb_eq in E. subst x. f_equal.
    apply tabulate_ext. intros k' Hk'.
    destruct (k' =? k) eqn:E'; [|reflexivity].
    apply String.eqb_eq in E'. subst. contradiction.
  - f_equal. apply IH. exact Hnd.
Qed.

(** Assigning under a key that is not an array index, on an object whose
    keys are the first appearances of [l]. *)
Lemma obj_set_tabulate {V : Type} (g : string -> V) (l : list string) (k : string) (v : V) :
  array_index k = None ->
  obj_set (tabulate g (first_appearances l)) k v =
  tabulate (fun k' => if k' =? k then v else g k') (first_appearances (l ++ [k])).
Proof.
  intros Hk. rewrite first_appearances_snoc.
  destruct (existsb (String.eqb k) l) eqn:E.
  - rewrite app_nil_r.
    erewrite obj_set_replace
      by (apply find_tabulate_present, first_appearances_In, existsb_eqb_In; exact E).
    apply obj_replace_tabulate, first_appearances_NoDup.
  - assert (N : ~ In k (first_appearances l)).
    { rewrite first_appearances_In, <- existsb_eqb_In. congruence. }
    rewrite obj_set_append by (try assumption; apply find_tabulate_absent; exact N).
    unfold tabulate. rewrite map_app. cbn [map]. rewrite String.eqb_refl. f_equal.
    apply map_ext_in. intros k' Hk'.
    destruct (k' =? k) eqn:E'; [|reflexivity].
    apply String.eqb_eq in E'. subst. contradiction.
Qed.

(** ** Grouping *)

Lemma group_by_snoc {A : Type} (key : A -> string) (l : list A) (r : A) :
  array_index (key r) = None ->
  group_by key (l ++ [r]) =
  obj_set (group_by key l) (key r)
    (push (value_or (group_by key l) (key r) []) r).
Proof.
  intros Hk. unfold group_by at 2 3. fold (tabulate (fun k => filter (fun a => key a =? k) l)
    (first_appearances (map key l))).
  rewrite obj_set_tabulate by exact Hk.
  unfold group_by. rewrite map_app. cbn [map].
  apply tabulate_ext. intros k Hk'.
  rewrite filter_app. cbn [filter]. rewrite (String.eqb_sym k).
  destruct (key r =? k) eqn:E; [|apply app_nil_r].
  apply String.eqb_eq in E. subst k.
  rewrite value_or_tabulate. unfold push. f_equal.
  destruct (existsb (String.eqb (key r)) (first_appearances (map key l))) eqn:X;
    [reflexivity|].
  apply filter_none. intros a Ha. apply String.eqb_neq. intros Ea.
  assert (In (key r) (first_appearances (map key l))).
  { apply first_appearances_In. rewrite <- Ea. apply in_map. exact Ha. }
  apply existsb_eqb_In in H. congruence.
Qed.

(** ** Reads *)

Lemma get_attendance_run (q : AttendanceQuery) (w : World) :
  get_attendance q w =
  (Ok (mkResponse 200
         (BAttendanceList
            (filter_if (q_studentId q) a_studentId
               (filter_if (q_prayer q) a_prayer
                  (filter_if (q_className q) a_className
                     (filter_if (q_date q) a_date (attendance (loaded w)))))))),
   after_read w).
Proof.
  unfold get_attendance. apply handler_run.
  erewrite bind_run by apply readData_run. reflexivity.
Qed.

Lemma document_eta (d : Document) :
  mkDocument (classes d) (students d) (attendance d) = d.
Proof. destruct d; reflexivity. Qed.

(** With distinct ids the class [find] returns for an id is the class of
    that id. *)
Lemma find_class_of_id (l : list Class) (cls : Class) :
  NoDup (map c_id l) -> In cls l ->
  find (fun c => c_id c =? c_id cls) l = Some cls.
Proof.
  intros Hnd Hin. apply in_split in Hin. destruct Hin as (l1 & l2 & ->).
  destruct (NoDup_key_split c_id l1 l2 cls Hnd) as [N1 _].
  apply find_first; [|apply String.eqb_refl].
  intros y Hy. apply String.eqb_neq. auto.
Qed.

(** * The claims *)

(** C2.  Deleting a class that the document holds writes, in one call of
    [writeData], a document without the classes of that id and without the
    students whose [className] is that class's name; every student with
    another [className] stays, whatever its id. *)
Theorem delete_classes_cascades_by_name (id : string) (w : World) (cls : Class) :
  find (fun c => c_id c =? id) (classes (loaded w)) = Some cls ->
  exists d' w',
    delete_classes id w = (Ok (mkResponse 200 BSuccess), w') /\
    w_calls w' = w_calls w ++
      [CWriteData d'; CBroadcast (Event "class_deleted" (DId id) "deleted")] /\
    (w_disk_ok w = true -> w_file w' = FileOf d') /\
    classes d' = filter (fun c => negb (c_id c =? id)) (classes (loaded w)) /\
    students d' =
      filter (fun s => negb (s_className s =? c_name cls)) (students (loaded w)) /\
    (forall s, In s (students (loaded w)) -> s_className s = c_name cls ->
               ~ In s (students d')) /\
    (forall s, In s (students (loaded w)) -> s_className s <> c_name cls ->
               In s (students d')).
Proof.
  intros Hfind. eexists _, _. split; [apply delete_classes_run|].
  match goal with |- context [after_broadcast ?m (after_write ?d (set_tick ?n _))] =>
    destruct (mutation_obs m d n w) as (Hcalls & Hok & Hfile & _) end.
  rewrite Hcalls, Hfile, Hfind. cbn [classes students].
  repeat apply conj; try reflexivity.
  all: cbn [classes students attendance].
  - intros ->. reflexivity.
  - intros s Hs E H. apply filter_In in H. destruct H as [_ H].
    rewrite negb_true_iff, String.eqb_neq in H. contradiction.
  - intros s Hs N. apply filter_In. rewrite negb_true_iff, String.eqb_neq. auto.
Qed.

(** C3.  Deleting a student writes, in one call of [writeData], a document
    without the students of that id and without the attendance records whose
    [studentId] is that id; the other attendance records stay, in their
    order. *)
Theorem delete_students_cascades_attendance (id : string) (w : World) :
  exists d' w',
    delete_students id w = (Ok (mkResponse 200 BSuccess), w') /\
    w_calls w' = w_calls w ++
      [CWriteData d'; CBroadcast (Event "student_deleted" (DId id) "deleted")] /\
    (w_disk_ok w = true -> w_file w' = FileOf d') /\
    students d' = filter (fun s => negb (s_id s =? id)) (students (loaded w)) /\
    attendance d' =
      filter (fun a => negb (a_studentId a =? id)) (attendance (loaded w)) /\
    (forall a, In a (attendance (loaded w)) -> a_studentId a = id ->
               ~ In a (attendance d')) /\
    (forall a, In a (attendance (loaded w)) -> a_studentId a <> id ->
               In a (attendance d')).
Proof.
  eexists _, _. split; [apply delete_students_run|].
  match goal with |- context [after_broadcast ?m (after_write ?d (set_tick ?n _))] =>
    destruct (mutation_obs m d n w) as (Hcalls & Hok & Hfile & _) end.
  rewrite Hcalls, Hfile. cbn [students attendance].
  repeat apply conj; try reflexivity.
  all: cbn [classes students attendance].
  - intros ->. reflexivity.
  - intros a Ha E H. apply filter_In in H. destruct H as [_ H].
    rewrite negb_true_iff, String.eqb_neq in H. contradiction.
  - intros a Ha N. apply filter_In. rewrite negb_true_iff, String.eqb_neq. auto.
Qed.


Lemma In_deliver (data : string) (c : Socket) (cs : list Socket) :
  In c cs -> In (deliver data c) (map (deliver data) cs).
Proof. apply in_map. Qed.

Lemma deliver_open (data : string) (c : Socket) :
  readyState c = 1 -> deliver data c = mkSocket (sock_id c) 1 (sent c ++ [data]).
Proof. unfold deliver, send, push. intros ->. reflexivity. Qed.

Lemma deliver_other (data : string) (c : Socket) :
  readyState c <> 1 -> deliver data c = c.
Proof.
  unfold deliver. intros H. destruct (Nat.eqb_spec (readyState c) 1); [contradiction|].
  reflexivity.
Qed.

Lemma deliver_id (data : string) (cs : list Socket) :
  map sock_id (map (deliver data) cs) = map sock_id cs.
Proof.
  rewrite map_map. apply map_ext. intros c. unfold deliver.
  destruct (readyState c =? 1)%nat; reflexivity.
Qed.

(** C8.  [broadcast] serializes the message into one string and hands that
    same string to every registered socket that is open; the others are
    passed over, no exception is raised, and a socket unregistered before
    the publish takes nothing from the delivery to the remaining ones. *)
Theorem broadcast_delivers_to_open_sockets (message : Message) (w : World) :
  let data := JSON_stringify message in
  exists w',
    broadcast message w = (Ok tt, w') /\
    w_clients w' = map (deliver data) (w_clients w) /\
    (forall c, In c (w_clients w) -> readyState c = 1 ->
               In (mkSocket (sock_id c) 1 (sent c ++ [data])) (w_clients w')) /\
    (forall c, In c (w_clients w) -> readyState c <> 1 -> In c (w_clients w')) /\
    (forall ws, exists w1 w2,
        on_close ws w = (Ok tt, w1) /\
        broadcast message w1 = (Ok tt, w2) /\
        forall c, In c (w_clients w) -> sock_id c <> ws -> readyState c = 1 ->
                  In (mkSocket (sock_id c) 1 (sent c ++ [data])) (w_clients w2)).
Proof.
  intros data. exists (after_broadcast message w).
  split; [apply broadcast_run|]. cbn [after_broadcast w_clients set_clients].
  fold data. repeat apply conj.
  - reflexivity.
  - intros c Hc Hopen. rewrite <- (deliver_open data c Hopen). apply In_deliver, Hc.
  - intros c Hc Hno. apply in_map_iff. exists c. split; [apply deliver_other|]; assumption.
  - intros ws. eexists _, _. split; [reflexivity|]. split; [apply broadcast_run|].
    intros c Hc Hid Hopen. cbn [after_broadcast w_clients set_clients]. fold data.
    rewrite <- (deliver_open data c Hopen). apply In_deliver.
    unfold clients_delete. apply filter_In. split; [exact Hc|].
    apply negb_true_iff, Nat.eqb_neq, Hid.
Qed.

(** C9 (amended).  [broadcast] never unregisters: a registered socket that
    is not open is passed over and stays registered, the open ones receive
    the payload, and no exception is raised.  A socket leaves the registry
    only through its own close event; its error event changes nothing.  Every
    mutation that passes validation answers 200 whatever the states of the
    registered sockets, and leaves the registry as it was. *)
Theorem broadcast_keeps_the_registry (message : Message) (w : World) :
  let data := JSON_stringify message in
  exists w',
    broadcast message w = (Ok tt, w') /\
    map sock_id (w_clients w') = map sock_id (w_clients w) /\
    (forall c, In c (w_clients w) -> readyState c <> 1 -> In c (w_clients w')) /\
    (forall c, In c (w_clients w) -> readyState c = 1 ->
               In (mkSocket (sock_id c) 1 (sent c ++ [data])) (w_clients w')) /\
    (forall ws, on_error ws w = (Ok tt, w)) /\
    (forall ws, exists w1,
        on_close ws w = (Ok tt, w1) /\
        forall c, In c (w_clients w1) <-> In c (w_clients w) /\ sock_id c <> ws) /\
    (forall m, invalid m = false ->
        exists resp w2,
          mutate m w = (Ok resp, w2) /\ status resp = 200 /\
          map sock_id (w_clients w2) = map sock_id (w_clients w)).
Proof.
  intros data. exists (after_broadcast message w).
  split; [apply broadcast_run|]. cbn [after_broadcast w_clients set_clients].
  fold data. repeat apply conj.
  - apply deliver_id.
  - intros c Hc Hno. apply in_map_iff. exists c. split; [apply deliver_other|]; assumption.
  - intros c Hc Hopen. rewrite <- (deliver_open data c Hopen). apply In_deliver, Hc.
  - reflexivity.
  - intros ws. eexists. split; [reflexivity|].
    intros c. cbn [w_clients set_clients]. unfold clients_delete.
    rewrite filter_In, negb_true_iff, Nat.eqb_neq. reflexivity.
  - intros m Hv. destruct (mutate_run m w Hv) as (resp & msg & d' & n & Hrun & Hst).
    eexists _, _. split; [exact Hrun|]. split; [exact Hst|].
    destruct (mutation_obs msg d' n w) as (_ & _ & _ & Hcs & _).
    cbv zeta in Hcs. rewrite Hcs. apply deliver_id.
Qed.


(** * Further properties of the handlers *)

(** ** Upserts of students and attendance records, in full *)

Lemma post_students_found (req : StudentBody) (w : World) l1 old l2 :
  invalid (UpsertStudent req) = false ->
  students (loaded w) = l1 ++ old :: l2 ->
  (forall s, In s l1 -> s_id s <> str (sb_id req)) -> s_id old = str (sb_id req) ->
  post_students req w =
  let w1 := after_read w in
  let new := student_of req w1 in
  (Ok (mkResponse 200 (BStudent (Some new))),
   after_broadcast (Event "student_updated" (DStudent (Some new)) "updated")
     (after_write (set_students (l1 ++ new :: l2) (loaded w))
        (set_tick (S (w_tick w1)) w1))).
Proof.
  intros Hv Hl Hl1 Hold. cbn [invalid] in Hv.
  unfold post_students. apply handler_run.
  erewrite bind_run by apply readData_run.
  cbv zeta. rewrite Hv, Hl, findIndex_first.
  2:{ intros y Hy. apply String.eqb_neq. auto. }
  2:{ apply String.eqb_eq. auto. }
  replace (Z.of_nat (List.length l1) >=? 0)%Z with true by (symmetry; apply Z.geb_le; lia).
  erewrite bind_run.
  2:{ unfold now, bind, ret. rewrite Nat2Z.id, array_set_middle. reflexivity. }
  erewrite bind_run by apply writeData_run.
  cbn [students set_students].
  rewrite find_first.
  2:{ intros y Hy. apply String.eqb_neq. auto. }
  2:{ apply String.eqb_refl. }
  erewrite bind_run by apply broadcast_run.
  reflexivity.
Qed.

Lemma post_students_fresh (req : StudentBody) (w : World) :
  invalid (UpsertStudent req) = false ->
  (forall s, In s (students (loaded w)) -> s_id s <> str (sb_id req)) ->
  post_students req w =
  let w1 := after_read w in
  let new := student_of req w1 in
  (Ok (mkResponse 200 (BStudent (Some new))),
   after_broadcast (Event "student_updated" (DStudent (Some new)) "created")
     (after_write (set_students (students (loaded w) ++ [new]) (loaded w))
        (set_tick (S (w_tick w1)) w1))).
Proof.
  intros Hv Hnone. cbn [invalid] in Hv.
  unfold post_students. apply handler_run.
  erewrite bind_run by apply readData_run.
  cbv zeta. rewrite Hv.
  rewrite findIndex_none by (intros y Hy; apply String.eqb_neq; auto).
  cbn [Z.geb Z.compare].
  erewrite bind_run by (unfold now, bind, ret; reflexivity).
  erewrite bind_run by apply writeData_run.
  cbn [students set_students]. unfold push.
  rewrite <- (app_nil_r (_ ++ [_])), <- app_assoc. cbn [app].
  rewrite find_first.
  2:{ intros y Hy. apply String.eqb_neq. auto. }
  2:{ apply String.eqb_refl. }
  erewrite bind_run by apply broadcast_run.
  reflexivity.
Qed.

Lemma post_attendance_found (req : AttendanceBody) (w : World) l1 old l2 :
  invalid (UpsertAttendance req) = false ->
  attendance (loaded w) = l1 ++ old :: l2 ->
  (forall a, In a l1 -> a_id a <> str (ab_id req)) -> a_id old = str (ab_id req) ->
  post_attendance req w =
  let w1 := after_read w in
  let new := attendance_of req w1 in
  (Ok (mkResponse 200 (BAttendance (Some new))),
   after_broadcast (Event "attendance_updated" (DAttendance (Some new)) "updated")
     (after_write (set_attendance (l1 ++ new :: l2) (loaded w))
        (set_tick (w_tick w1 + (if truthy (ab_timestamp req) then 1 else 2)) w1))).
Proof.
  intros Hv Hl Hl1 Hold. cbn [invalid] in Hv.
  unfold post_attendance. apply handler_run.
  erewrite bind_run by apply readData_run.
  cbv zeta. rewrite Hv, Hl, findIndex_first.
  2:{ intros y Hy. apply String.eqb_neq. auto. }
  2:{ apply String.eqb_eq. auto. }
  replace (Z.of_nat (List.length l1) >=? 0)%Z with true by (symmetry; apply Z.geb_le; lia).
  erewrite bind_run.
  2:{ instantiate (1 := set_tick (w_tick (after_read w)
                           + (if truthy (ab_timestamp req) then 1 else 2)) (after_read w)).
      instantiate (1 := set_attendance (l1 ++ attendance_of req (after_read w) :: l2)
                          (loaded w)).
      unfold now, bind, ret, attendance_of.
      destruct (truthy (ab_timestamp req));
        cbn [w_tick w_clock set_tick];
        rewrite Nat2Z.id, array_set_middle, ?Nat.add_1_r, ?Nat.add_succ_r, ?Nat.add_0_r;
        reflexivity. }
  erewrite bind_run by apply writeData_run.
  cbn [attendance set_attendance].
  rewrite find_first.
  2:{ intros y Hy. apply String.eqb_neq. auto. }
  2:{ apply String.eqb_refl. }
  erewrite bind_run by apply broadcast_run.
  reflexivity.
Qed.

Lemma post_attendance_fresh (req : AttendanceBody) (w : World) :
  invalid (UpsertAttendance req) = false ->
  (forall a, In a (attendance (loaded w)) -> a_id a <> str (ab_id req)) ->
  post_attendance req w =
  let w1 := after_read w in
  let new := attendance_of req w1 in
  (Ok (mkResponse 200 (BAttendance (Some new))),
   after_broadcast (Event "attendance_updated" (DAttendance (Some new)) "created")
     (after_write (set_attendance (attendance (loaded w) ++ [new]) (loaded w))
        (set_tick (w_tick w1 + (if truthy (ab_timestamp req) then 1 else 2)) w1))).
Proof.
  intros Hv Hnone. cbn [invalid] in Hv.
  unfold post_attendance. apply handler_run.
  erewrite bind_run by apply readData_run.
  cbv zeta. rewrite Hv.
  rewrite findIndex_none by (intros y Hy; apply String.eqb_neq; auto).
  cbn [Z.geb Z.compare].
  erewrite bind_run.
  2:{ instantiate (1 := set_tick (w_tick (after_read w)
                           + (if truthy (ab_timestamp req) then 1 else 2)) (after_read w)).
      instantiate (1 := set_attendance
                          (attendance (loaded w) ++ [attendance_of req (after_read w)])
                          (loaded w)).
      unfold now, bind, ret, attendance_of, push.
      destruct (truthy (ab_timestamp req));
        cbn [w_tick w_clock set_tick];
        rewrite ?Nat.add_1_r, ?Nat.add_succ_r, ?Nat.add_0_r;
        reflexivity. }
  erewrite bind_run by apply writeData_run.
  cbn [attendance set_attendance].
  rewrite <- (app_nil_r (_ ++ [_])), <- app_assoc. cbn [app].
  rewrite find_first.
  2:{ intros y Hy. apply String.eqb_neq. auto. }
  2:{ apply String.eqb_refl. }
  erewrite bind_run by apply broadcast_run.
  reflexivity.
Qed.

Lemma loaded_after_mutation (message : Message) (d : Document) (n : nat) (w : World) :
  loaded (after_broadcast message (after_write d (set_tick n (after_read w)))) =
  if w_disk_ok w then d else loaded w.
Proof.
  destruct (mutation_obs message d n w) as (_ & _ & Hfile & _). cbv zeta in Hfile.
  unfold loaded at 1. rewrite Hfile. destruct (w_disk_ok w); reflexivity.
Qed.

Lemma student_of_after_read (req : StudentBody) (w : World) :
  student_of req (after_read w) = student_of req w.
Proof.
  unfold student_of. destruct (after_read_obs w) as (_ & _ & -> & -> & _). reflexivity.
Qed.

Lemma attendance_of_after_read (req : AttendanceBody) (w : World) :
  attendance_of req (after_read w) = attendance_of req w.
Proof.
  unfold attendance_of. destruct (after_read_obs w) as (_ & _ & -> & -> & _). reflexivity.
Qed.



(** ** Ids stay distinct *)

(** ** Reads *)

Lemma get_students_class_run (className : string) (w : World) :
  get_students_class className w =
  (Ok (mkResponse 200
         (BStudents (filter (fun s => s_className s =? className) (students (loaded w))))),
   after_read w).
Proof.
  unfold get_students_class. apply handler_run.
  erewrite bind_run by apply readData_run. reflexivity.
Qed.

Lemma filter_filter {A : Type} (p q : A -> bool) (l : list A) :
  filter q (filter p l) = filter (fun x => p x && q x) l.
Proof.
  induction l as [|x t IH]; cbn; [reflexivity|].
  destruct (p x); cbn; [destruct (q x)|]; rewrite IH; reflexivity.
Qed.

Lemma filter_if_accepts (q : field) (key : Attendance -> string) (l : list Attendance) :
  filter_if q key l = filter (fun a => accepts q (key a)) l.
Proof.
  unfold filter_if, accepts. destruct (truthy q); [reflexivity|].
  symmetry. apply filter_all. reflexivity.
Qed.

Lemma accepts_spec (q : field) (x : string) :
  accepts q x = true <-> (truthy q = true -> x = str q).
Proof.
  unfold accepts. destruct (truthy q).
  - rewrite String.eqb_eq. tauto.
  - split; [discriminate | reflexivity].
Qed.


(** ** The data file *)


(** ** The registry *)

Lemma on_connection_run (ws : nat) (w : World) :
  (forall c, In c (w_clients w) -> sock_id c <> ws) ->
  on_connection ws w =
  (Ok tt,
   set_clients
     (w_clients w ++
      [mkSocket ws 1 [JSON_stringify (Welcome "connected" "Connected to server")]]) w).
Proof.
  intros Hnew. unfold on_connection, bind, modify, clients_add.
  cbn [w_clients set_clients sock_id].
  assert (E : existsb (fun c => (sock_id c =? ws)%nat) (w_clients w) = false).
  { apply not_true_is_false. intros H. apply existsb_exists in H.
    destruct H as (c & Hc & H). apply Nat.eqb_eq in H. exact (Hnew c Hc H). }
  rewrite E. f_equal. unfold set_clients. cbn. f_equal.
  rewrite map_app. cbn [map sock_id]. rewrite Nat.eqb_refl. f_equal.
  rewrite <- (map_id (w_clients w)) at 2. apply map_ext_in.
  intros c Hc. destruct (Nat.eqb_spec (sock_id c) ws) as [H|]; [|reflexivity].
  exfalso. exact (Hnew c Hc H).
Qed.

(** X9.  A connecting socket that is not yet registered is appended to the
    registry, open, and receives the welcome frame; the sockets already
    registered stay as they are and receive nothing, and neither the file nor
    the call log changes. *)
Theorem on_connection_registers_and_welcomes (ws : nat) (w : World) :
  (forall c, In c (w_clients w) -> sock_id c <> ws) ->
  let w' := snd (on_connection ws w) in
  fst (on_connection ws w) = Ok tt /\
  w_clients w' =
    w_clients w ++
    [mkSocket ws 1 [JSON_stringify (Welcome "connected" "Connected to server")]] /\
  w_calls w' = w_calls w /\
  w_file w' = w_file w.
Proof.
  intros Hnew. rewrite (on_connection_run ws w Hnew). repeat split.
Qed.

Lemma clients_delete_twice (ws : nat) (cs : list Socket) :
  clients_delete ws (clients_delete ws cs) = clients_delete ws cs.
Proof.
  unfold clients_delete. rewrite filter_filter. apply filter_ext.
  intros c. apply andb_diag.
Qed.

Lemma set_clients_same (w : World) : set_clients (w_clients w) w = w.
Proof. destruct w; reflexivity. Qed.

(** X10.  The close event unregisters the socket and nothing else: the
    other sockets stay, in their order and with what they were sent; a later
    [broadcast] no longer reaches the socket; closing twice, or closing a
    socket that is not registered, changes nothing; and a connection
    followed by its close leaves the registry as it found it. *)
Theorem on_close_unregisters (ws : nat) (w : World) :
  let w' := snd (on_close ws w) in
  fst (on_close ws w) = Ok tt /\
  w_clients w' = filter (fun c => negb (sock_id c =? ws)%nat) (w_clients w) /\
  ~ In ws (map sock_id (w_clients w')) /\
  (forall message,
      ~ In ws (map sock_id (w_clients (snd (broadcast message w'))))) /\
  on_close ws w' = (Ok tt, w') /\
  ((forall c, In c (w_clients w) -> sock_id c <> ws) ->
     w' = w /\
     w_clients (snd ((on_connection ws ;; on_close ws) w)) = w_clients w).
Proof.
  cbn [on_close modify fst snd].
  assert (N : ~ In ws (map sock_id (clients_delete ws (w_clients w)))).
  { intros H. apply in_map_iff in H. destruct H as (c & Hc & Hin).
    apply filter_In in Hin. destruct Hin as [_ Hin].
    apply negb_true_iff, Nat.eqb_neq in Hin. contradiction. }
  repeat apply conj.
  - reflexivity.
  - reflexivity.
  - exact N.
  - intros message. rewrite broadcast_run. cbn [snd after_broadcast w_clients set_clients].
    rewrite deliver_id. exact N.
  - unfold on_close, modify. cbn [w_clients set_clients].
    rewrite clients_delete_twice. destruct w; reflexivity.
  - intros Hnew.
    assert (E : clients_delete ws (w_clients w) = w_clients w).
    { apply filter_all. intros c Hc. apply negb_true_iff, Nat.eqb_neq, Hnew, Hc. }
    split.
    + rewrite E. apply set_clients_same.
    + erewrite bind_run by (apply on_connection_run; exact Hnew).
      cbn [snd on_close modify w_clients set_clients].
      unfold clients_delete. rewrite filter_app. fold (clients_delete ws (w_clients w)).
      rewrite E. cbn. rewrite Nat.eqb_refl. cbn. apply app_nil_r.
Qed.

(** ** Frames in request order *)

Lemma deliver_all_none (c : Socket) : deliver_all [] c = c.
Proof.
  unfold deliver_all. destruct (readyState c =? 1)%nat; [|reflexivity].
  rewrite app_nil_r. destruct c; reflexivity.
Qed.

Lemma deliver_all_app (f1 f2 : list string) (c : Socket) :
  deliver_all f2 (deliver_all f1 c) = deliver_all (f1 ++ f2) c.
Proof.
  unfold deliver_all. destruct (readyState c =? 1)%nat eqn:E; cbn [readyState sock_id sent];
    rewrite E; [rewrite app_assoc|]; reflexivity.
Qed.

Lemma broadcasts_app (c1 c2 : list Call) :
  broadcasts (c1 ++ c2) = broadcasts c1 ++ broadcasts c2.
Proof.
  induction c1 as [|[d|m] t IH]; cbn; [reflexivity | exact IH | rewrite IH; reflexivity].
Qed.

(** What one request adds to the broadcast log and to the sockets. *)
Lemma mutate_frames (m : Mutation) (w : World) :
  exists evs,
    broadcasts (w_calls (snd (mutate m w))) = broadcasts (w_calls w) ++ evs /\
    w_clients (snd (mutate m w)) =
      map (deliver_all (map JSON_stringify evs)) (w_clients w) /\
    List.length evs = if invalid m then 0 else 1.
Proof.
  destruct (invalid m) eqn:Hv.
  - exists []. rewrite (mutate_invalid m w Hv). cbn [snd].
    destruct (after_read_obs w) as (_ & -> & _ & _ & ->).
    rewrite app_nil_r. repeat split. cbn [map].
    rewrite <- (map_id (w_clients w)) at 1. apply map_ext. intros c.
    symmetry. apply deliver_all_none.
  - destruct (mutate_run m w Hv) as (resp & msg & d' & n & Hrun & _).
    exists [msg]. rewrite Hrun. cbn [snd].
    destruct (mutation_obs msg d' n w) as (Hcalls & _ & _ & Hcs & _).
    cbv zeta in *. rewrite Hcalls, Hcs, broadcasts_app. cbn [broadcasts map].
    repeat apply conj; reflexivity.
Qed.


(** ** How upserts and deletes compose *)

Lemma mutate_disk (m : Mutation) (w : World) :
  w_disk_ok (snd (mutate m w)) = w_disk_ok w.
Proof.
  destruct (invalid m) eqn:Hv.
  - rewrite (mutate_invalid m w Hv). cbn [snd]. apply after_read_obs.
  - destruct (mutate_run m w Hv) as (resp & msg & d' & n & Hrun & _).
    rewrite Hrun. cbn [snd]. apply (mutation_obs msg d' n w).
Qed.

Lemma filter_twice {A : Type} (p : A -> bool) (l : list A) :
  filter p (filter p l) = filter p l.
Proof. rewrite filter_filter. apply filter_ext. intros x. apply andb_diag. Qed.

(** X14.  Deleting is idempotent: the document after deleting an id twice
    is the document after deleting it once, for classes, students and
    attendance records alike, whether or not the writes succeed. *)
Theorem delete_twice_is_delete_once (id : string) (w : World) :
  loaded (after_requests [DeleteClass id; DeleteClass id] w) =
    loaded (after_requests [DeleteClass id] w) /\
  loaded (after_requests [DeleteStudent id; DeleteStudent id] w) =
    loaded (after_requests [DeleteStudent id] w) /\
  loaded (after_requests [DeleteAttendance id; DeleteAttendance id] w) =
    loaded (after_requests [DeleteAttendance id] w).
Proof.
  cbn [after_requests mutate]. repeat apply conj.
  - set (w1 := snd (delete_classes id w)).
    assert (Hok1 : w_disk_ok w1 = w_disk_ok w) by apply (mutate_disk (DeleteClass id) w).
    rewrite delete_classes_run. cbn [snd]. rewrite loaded_after_mutation, Hok1.
    destruct (w_disk_ok w) eqn:Hok; [|reflexivity].
    assert (Hl1 : loaded w1 = _)
      by (subst w1; rewrite delete_classes_run; cbn [snd];
          rewrite loaded_after_mutation, Hok; reflexivity).
    rewrite Hl1. cbn [classes students attendance].
    rewrite filter_twice, find_none; [reflexivity|].
    intros c Hc. apply filter_In in Hc. apply negb_true_iff. tauto.
  - set (w1 := snd (delete_students id w)).
    assert (Hok1 : w_disk_ok w1 = w_disk_ok w) by apply (mutate_disk (DeleteStudent id) w).
    rewrite delete_students_run. cbn [snd]. rewrite loaded_after_mutation, Hok1.
    destruct (w_disk_ok w) eqn:Hok; [|reflexivity].
    assert (Hl1 : loaded w1 = _)
      by (subst w1; rewrite delete_students_run; cbn [snd];
          rewrite loaded_after_mutation, Hok; reflexivity).
    rewrite Hl1. cbn [classes students attendance].
    rewrite !filter_twice. reflexivity.
  - set (w1 := snd (delete_attendance id w)).
    assert (Hok1 : w_disk_ok w1 = w_disk_ok w) by apply (mutate_disk (DeleteAttendance id) w).
    rewrite delete_attendance_run. cbn [snd]. rewrite loaded_after_mutation, Hok1.
    destruct (w_disk_ok w) eqn:Hok; [|reflexivity].
    assert (Hl1 : loaded w1 = _)
      by (subst w1; rewrite delete_attendance_run; cbn [snd];
          rewrite loaded_after_mutation, Hok; reflexivity).
    rewrite Hl1. cbn [classes students attendance].
    rewrite !filter_twice. reflexivity.
Qed.


(** ** Objects: lookup after assignment, for every key *)

Lemma find_app_other {V : Type} (o : JsObj V) (k k' : string) (v : V) :
  k' <> k ->
  find (fun kv => fst kv =? k') (o ++ [(k, v)]) = find (fun kv => fst kv =? k') o.
Proof.
  intros N. induction o as [|kv t IH]; cbn.
  - apply String.eqb_neq in N. rewrite String.eqb_sym, N. reflexivity.
  - destruct (fst kv =? k'); [reflexivity | exact IH].
Qed.

Lemma find_insert_index_same {V : Type} (n : N) (o : JsObj V) (k : string) (v : V) :
  find (fun kv => fst kv =? k) o = None ->
  find (fun kv => fst kv =? k) (obj_insert_index n k v o) = Some (k, v).
Proof.
  induction o as [|kv t IH]; cbn [obj_insert_index find].
  - cbn. rewrite String.eqb_refl. reflexivity.
  - destruct (fst kv =? k) eqn:E; [discriminate|]. intros H.
    destruct (array_index (fst kv)); [destruct (n <? n0)%N|]; cbn [find fst];
      rewrite ?String.eqb_refl, ?E; auto.
Qed.

Lemma find_insert_index_other {V : Type} (n : N) (o : JsObj V) (k k' : string) (v : V) :
  k' <> k ->
  find (fun kv => fst kv =? k') (obj_insert_index n k v o) =
  find (fun kv => fst kv =? k') o.
Proof.
  intros N. assert (E : (k =? k') = false) by (apply String.eqb_neq; congruence).
  induction o as [|kv t IH]; cbn [obj_insert_index find].
  - cbn. rewrite E. reflexivity.
  - destruct (array_index (fst kv)); [destruct (n <? n0)%N|]; cbn [find fst];
      rewrite ?E; try reflexivity.
    destruct (fst kv =? k'); [reflexivity | exact IH].
Qed.

Lemma find_replace_same {V : Type} (o : JsObj V) (k : string) (v : V) (kv : string * V) :
  find (fun kv => fst kv =? k) o = Some kv ->
  find (fun kv => fst kv =? k) (obj_replace k v o) = Some (k, v).
Proof.
  induction o as [|x t IH]; cbn; [discriminate|].
  destruct (fst x =? k) eqn:E; cbn; rewrite E.
  - intros _. apply String.eqb_eq in E. rewrite E. reflexivity.
  - exact IH.
Qed.

Lemma find_replace_other {V : Type} (o : JsObj V) (k k' : string) (v : V) :
  k' <> k ->
  find (fun kv => fst kv =? k') (obj_replace k v o) = find (fun kv => fst kv =? k') o.
Proof.
  intros N. induction o as [|x t IH]; cbn; [reflexivity|].
  destruct (fst x =? k) eqn:E; cbn.
  - apply String.eqb_eq in E. rewrite E.
    assert (E' : (k =? k') = false) by (apply String.eqb_neq; congruence).
    rewrite E'. reflexivity.
  - destruct (fst x =? k'); [reflexivity | exact IH].
Qed.

(** [o[k] = v; o[k]] *)
Lemma find_obj_set_same {V : Type} (o : JsObj V) (k : string) (v : V) :
  find (fun kv => fst kv =? k) (obj_set o k v) = Some (k, v).
Proof.
  unfold obj_set, obj_define. rewrite has_own_find.
  destruct (find (fun kv => fst kv =? k) o) as [kv|] eqn:Hf.
  - exact (find_replace_same o k v kv Hf).
  - destruct (array_index k).
    + apply find_insert_index_same, Hf.
    + apply find_last, Hf.
Qed.

(** [o[k] = v; o[k']] for another key. *)
Lemma find_obj_set_other {V : Type} (o : JsObj V) (k k' : string) (v : V) :
  k' <> k ->
  find (fun kv => fst kv =? k') (obj_set o k v) = find (fun kv => fst kv =? k') o.
Proof.
  intros N. unfold obj_set, obj_define.
  destruct (has_own o k).
  - apply find_replace_other, N.
  - destruct (array_index k).
    + apply find_insert_index_other, N.
    + apply find_app_other, N.
Qed.

Lemma value_or_set {V : Type} (o : JsObj V) (k k' : string) (v init : V) :
  value_or (obj_set o k v) k' init = if k' =? k then v else value_or o k' init.
Proof.
  unfold value_or. destruct (String.eqb_spec k' k) as [-> | N].
  - rewrite find_obj_set_same. reflexivity.
  - rewrite find_obj_set_other by exact N. reflexivity.
Qed.

Lemma has_own_set {V : Type} (o : JsObj V) (k k' : string) (v : V) :
  has_own (obj_set o k v) k' = (k' =? k) || has_own o k'.
Proof.
  rewrite !has_own_find. destruct (String.eqb_spec k' k) as [-> | N].
  - rewrite find_obj_set_same. reflexivity.
  - rewrite find_obj_set_other by exact N. reflexivity.
Qed.

(** [if (!o[k]) o[k] = init] on a key that is not inherited. *)
Lemma ensure_own {V : Type} (o : JsObj V) (k : string) (init : V) :
  inherited k = false ->
  let o1 := match obj_get o k with
            | Undefined => obj_set o k init
            | _ => o
            end in
  obj_get o1 k = Own (value_or o k init) /\
  (forall k' dflt, k' <> k -> value_or o1 k' dflt = value_or o k' dflt) /\
  (forall k', k' <> k -> has_own o1 k' = has_own o k').
Proof.
  intros Hk. unfold obj_get at 1, value_or at 1.
  destruct (find (fun kv => fst kv =? k) o) as [kv|] eqn:Hf.
  - cbv zeta. unfold obj_get. rewrite Hf. repeat split.
  - rewrite Hk. cbv zeta. unfold obj_get. rewrite find_obj_set_same. cbn [snd].
    repeat split.
    + intros k' dflt N. rewrite value_or_set.
      apply String.eqb_neq in N. rewrite N. reflexivity.
    + intros k' N. rewrite has_own_set.
      apply String.eqb_neq in N. rewrite N. reflexivity.
Qed.

(** One round of the loop on a record whose keys are not inherited: where
    the record lands and what every other lookup still gives. *)
Lemma summary_step_lookup (summary : Summary) (record : Attendance) :
  inherited (a_date record) = false -> inherited (a_prayer record) = false ->
  exists summary',
    summary_step summary record = Ok summary' /\
    (forall d p,
        records_of summary' d p =
        if (d =? a_date record) && (p =? a_prayer record)
        then records_of summary d p ++ [record]
        else records_of summary d p) /\
    (forall d, has_own summary' d = (d =? a_date record) || has_own summary d) /\
    (forall d p,
        has_own (value_or summary' d []) p =
        ((d =? a_date record) && (p =? a_prayer record))
        || has_own (value_or summary d []) p).
Proof.
  intros Hd Hp. unfold summary_step.
  set (d0 := a_date record). set (p0 := a_prayer record).
  set (s1 := match obj_get summary d0 with
             | Undefined => obj_set summary d0 []
             | _ => summary
             end).
  set (b := value_or summary d0 []).
  set (b1 := match obj_get b p0 with
             | Undefined => obj_set b p0 []
             | _ => b
             end).
  assert (G1 : obj_get s1 d0 = Own b) by apply (ensure_own summary d0 [] Hd).
  assert (V1 : forall k' dflt, k' <> d0 -> value_or s1 k' dflt = value_or summary k' dflt)
    by apply (ensure_own summary d0 [] Hd).
  assert (O1 : forall k', k' <> d0 -> has_own s1 k' = has_own summary k')
    by apply (ensure_own summary d0 [] Hd).
  assert (G2 : obj_get b1 p0 = Own (value_or b p0 [])) by apply (ensure_own b p0 [] Hp).
  assert (V2 : forall k' dflt, k' <> p0 -> value_or b1 k' dflt = value_or b k' dflt)
    by apply (ensure_own b p0 [] Hp).
  assert (O2 : forall k', k' <> p0 -> has_own b1 k' = has_own b k')
    by apply (ensure_own b p0 [] Hp).
  assert (E1 : match obj_get summary d0 with
               | Undefined => Ok (obj_set summary d0 [])
               | Own _ => Ok summary
               | Inherited => Beyond
               end = Ok s1).
  { subst s1. unfold obj_get. destruct (find _ summary); [reflexivity|].
    fold d0 in Hd. rewrite Hd. reflexivity. }
  rewrite E1. cbn [bind_result]. rewrite G1. cbn [bind_result]. fold b1. rewrite G2.
  eexists. split; [reflexivity|].
  unfold records_of. repeat apply conj.
  - intros d p. rewrite value_or_set.
    destruct (String.eqb_spec d d0) as [-> | N]; cbn [andb].
    + fold b. rewrite value_or_set. unfold push.
      destruct (String.eqb_spec p p0) as [-> | N']; [reflexivity|].
      apply V2, N'.
    + rewrite (V1 d [] N). reflexivity.
  - intros d. rewrite has_own_set.
    destruct (String.eqb_spec d d0) as [-> | N]; [reflexivity|].
    cbn [orb]. apply O1, N.
  - intros d p. rewrite value_or_set.
    destruct (String.eqb_spec d d0) as [-> | N]; cbn [andb].
    + fold b. rewrite has_own_set.
      destruct (String.eqb_spec p p0) as [-> | N']; [reflexivity|].
      cbn [orb]. apply O2, N'.
    + rewrite (V1 d [] N). reflexivity.
Qed.

(** The loop from any summary on, for records whose keys are not
    inherited. *)
Lemma forEach_summary_lookup (rest : list Attendance) (summary : Summary) :
  (forall a, In a rest -> inherited (a_date a) = false /\ inherited (a_prayer a) = false) ->
  exists summary',
    forEach_summary rest summary = Ok summary' /\
    (forall d p,
        records_of summary' d p =
        records_of summary d p
        ++ filter (fun a => (a_date a =? d) && (a_prayer a =? p)) rest) /\
    (forall d,
        has_own summary' d =
        has_own summary d || existsb (fun a => a_date a =? d) rest) /\
    (forall d p,
        has_own (value_or summary' d []) p =
        has_own (value_or summary d []) p
        || existsb (fun a => (a_date a =? d) && (a_prayer a =? p)) rest).
Proof.
  revert summary. induction rest as [|r t IH]; intros summary H; cbn [forEach_summary].
  - exists summary. split; [reflexivity|]. cbn [filter existsb].
    repeat split; intros; rewrite ?app_nil_r, ?orb_false_r; reflexivity.
  - destruct (H r (or_introl eq_refl)) as [Hd Hp].
    destruct (summary_step_lookup summary r Hd Hp) as (s1 & Hs1 & R1 & D1 & P1).
    rewrite Hs1. cbn [bind_result].
    destruct (IH s1 (fun a Ha => H a (or_intror Ha))) as (s2 & Hs2 & R2 & D2 & P2).
    exists s2. split; [exact Hs2|]. repeat split.
    + intros d p. rewrite R2, R1. cbn [filter].
      rewrite (String.eqb_sym (a_date r)), (String.eqb_sym (a_prayer r)).
      destruct ((d =? a_date r) && (p =? a_prayer r)); [rewrite <- app_assoc|]; reflexivity.
    + intros d. rewrite D2, D1. cbn [existsb].
      rewrite (String.eqb_sym (a_date r)).
      destruct (d =? a_date r), (has_own summary d); reflexivity.
    + intros d p. rewrite P2, P1. cbn [existsb].
      rewrite (String.eqb_sym (a_date r)), (String.eqb_sym (a_prayer r)).
      destruct ((d =? a_date r) && (p =? a_prayer r)),
               (has_own (value_or summary d []) p); reflexivity.
Qed.

Lemma forEach_summary_app (l1 l2 : list Attendance) (summary : Summary) :
  forEach_summary (l1 ++ l2) summary =
  bind_result (forEach_summary l1 summary) (forEach_summary l2).
Proof.
  revert summary. induction l1 as [|r t IH]; intros summary; cbn [app forEach_summary].
  - reflexivity.
  - destruct (summary_step summary r); cbn [bind_result]; [apply IH | reflexivity..].
Qed.


End Server.

(** * Examples: the theorems at concrete requests *)

(** Deleting "Grade 5" removes Amal and Dawud and keeps Bilal. *)
Lemma delete_classes_cascades_by_name_witness :
  find (fun c => c_id c =? "c1") (classes (loaded (world_of school []))) = Some grade5 /\
  exists d' w',
    delete_classes sample_stringify "c1" (world_of school []) =
      (Ok (mkResponse 200 BSuccess), w') /\
    w_file w' = FileOf d' /\
    classes d' = [grade4; grade6] /\
    students d' = [bilal].
Proof.
  split; [reflexivity|].
  destruct (delete_classes_cascades_by_name sample_stringify "c1" (world_of school [])
              grade5 eq_refl)
    as (d' & w' & Hrun & _ & Hfile & Hcl & Hst & _).
  exists d', w'. repeat apply conj; auto.
Defined.

(** Deleting Amal removes the two records taken for "s1" and keeps Bilal's. *)
Lemma delete_students_cascades_attendance_witness :
  exists d' w',
    delete_students sample_stringify "s1" (world_of school []) =
      (Ok (mkResponse 200 BSuccess), w') /\
    w_file w' = FileOf d' /\
    students d' = [bilal; dawud] /\
    attendance d' = [rec2].
Proof.
  destruct (delete_students_cascades_attendance sample_stringify "s1" (world_of school []))
    as (d' & w' & Hrun & _ & Hfile & Hst & Hat & _).
  exists d', w'. repeat apply conj; auto.
Defined.


(** A prayer named like a member of [Object.prototype] makes the summary
    fail with status 500. *)
Lemma get_summary_inherited_prayer :
  get_summary (mkSummaryQuery None None)
    (world_of (mkDocument [] [] [mark "a1" "s1" "2024-01-01" "constructor"]) []) =
  (Ok (mkResponse 500 (BException TypeError)),
   world_of (mkDocument [] [] [mark "a1" "s1" "2024-01-01" "constructor"]) []).
Proof. reflexivity. Qed.

(** Two open subscribers and one that is closing. *)
Lemma broadcast_delivers_to_open_sockets_witness :
  exists w',
    broadcast sample_stringify deleted_event
      (world_of school [mkSocket 1 1 []; mkSocket 2 2 []; mkSocket 3 1 ["hello"]]) =
      (Ok tt, w') /\
    w_clients w' =
      [mkSocket 1 1 ["attendance_deleted/deleted"]; mkSocket 2 2 [];
       mkSocket 3 1 ["hello"; "attendance_deleted/deleted"]].
Proof.
  destruct (broadcast_delivers_to_open_sockets sample_stringify deleted_event
              (world_of school [mkSocket 1 1 []; mkSocket 2 2 []; mkSocket 3 1 ["hello"]]))
    as (w' & Hrun & Hcs & _).
  exists w'. split; [exact Hrun | exact Hcs].
Defined.

(** An open subscriber and one that is closing: both stay registered. *)
Lemma broadcast_keeps_the_registry_witness :
  exists w',
    broadcast sample_stringify deleted_event
      (world_of school [mkSocket 1 1 []; mkSocket 2 2 []]) = (Ok tt, w') /\
    map sock_id (w_clients w') = [1; 2] /\
    In (mkSocket 2 2 []) (w_clients w').
Proof.
  destruct (broadcast_keeps_the_registry sample_stringify deleted_event
              (world_of school [mkSocket 1 1 []; mkSocket 2 2 []]))
    as (w' & Hrun & Hids & Hskip & _).
  exists w'. repeat apply conj; auto.
  apply Hskip; [right; left; reflexivity | discriminate].
Defined.

(** C9, as stated, fails: a socket found CLOSING at publish time receives
    nothing and is still registered afterwards. *)
Lemma broadcast_leaves_closing_socket_registered :
  readyState (mkSocket 7 2 []) <> 1 /\
  broadcast sample_stringify deleted_event (world_of school [mkSocket 7 2 []]) =
  (Ok tt,
   mkWorld (FileOf school) true [mkSocket 7 2 []] sample_clock 0
           [CBroadcast deleted_event]).
Proof. split; [discriminate | reflexivity]. Qed.



(** * Examples: the further properties at concrete requests *)



(** A second subscriber connects. *)
Lemma on_connection_registers_and_welcomes_witness :
  (forall c, In c [mkSocket 1 1 ["hello"]] -> sock_id c <> 2) /\
  w_clients (snd (on_connection sample_stringify 2
                    (world_of school [mkSocket 1 1 ["hello"]]))) =
  [mkSocket 1 1 ["hello"]; mkSocket 2 1 ["connected"]].
Proof.
  assert (N : forall c, In c [mkSocket 1 1 ["hello"]] -> sock_id c <> 2).
  { intros c [<- | []]. discriminate. }
  split; [exact N|].
  pose proof (on_connection_registers_and_welcomes sample_stringify 2
                (world_of school [mkSocket 1 1 ["hello"]]) N) as T.
  cbv zeta in T. destruct T as (_ & T & _). exact T.
Defined.



(** * The process in full: theorems *)
Module NodeFacts.
Import Node.

Section Facts.

Variable JSON_stringify : Message -> string.

Local Abbreviation after_broadcast := (after_broadcast JSON_stringify).
Local Abbreviation broadcast := (broadcast JSON_stringify).
Local Abbreviation post_classes := (post_classes JSON_stringify).
Local Abbreviation delete_classes := (delete_classes JSON_stringify).
Local Abbreviation post_students := (post_students JSON_stringify).
Local Abbreviation delete_students := (delete_students JSON_stringify).
Local Abbreviation post_attendance := (post_attendance JSON_stringify).
Local Abbreviation delete_attendance := (delete_attendance JSON_stringify).
Local Abbreviation mutate := (mutate JSON_stringify).
Local Abbreviation serve := (serve JSON_stringify).
Local Abbreviation after_requests := (after_requests JSON_stringify).
Local Abbreviation reachable := (reachable JSON_stringify).

(** ** The steps every request goes through *)

Lemma readData_steps (w : World) : readData w = (Ok (loaded w), after_read w).
Proof.
  destruct w as [f k cs clk n calls p].
  destruct f; [destruct k | | ]; reflexivity.
Qed.

Lemma writeData_steps (data : Document) (w : World) :
  writeData data w =
  (Ok (match w_disk w with Writes => true | _ => false end), after_write data w).
Proof.
  unfold writeData, try_catch, bind, modify, fs_writeFileSync, after_write, ret.
  cbn. destruct (w_disk w); reflexivity.
Qed.

Lemma broadcast_steps (message : Message) (w : World) :
  broadcast message w = (Ok tt, after_broadcast message w).
Proof. reflexivity. Qed.

Lemma bind_steps {A B : Type} (m : M A) (k : A -> M B) (w w' : World) (a : A) :
  m w = (Ok a, w') -> bind m k w = k a w'.
Proof. intros H. unfold bind. rewrite H. reflexivity. Qed.

Lemma handler_steps (m : M Response) (w w' : World) (r : Response) :
  m w = (Ok r, w') -> handler m w = (Ok r, w').
Proof. intros H. unfold handler, try_catch. rewrite H. reflexivity. Qed.

Lemma after_read_frame (w : World) :
  w_disk (after_read w) = w_disk w /\
  w_clients (after_read w) = w_clients w /\
  w_clock (after_read w) = w_clock w /\
  w_tick (after_read w) = w_tick w /\
  w_calls (after_read w) = w_calls w /\
  w_proto (after_read w) = w_proto w /\
  loaded (after_read w) = loaded w.
Proof.
  destruct w as [f k cs clk n calls p].
  destruct f; [destruct k | | ]; cbn; repeat split.
Qed.

(** What a request that reads, writes [d] and broadcasts [message] leaves. *)
Lemma mutation_frame (message : Message) (d : Document) (n : nat) (w : World) :
  let w' := after_broadcast message (after_write d (set_tick n (after_read w))) in
  w_calls w' = w_calls w ++ [CWriteData d; CBroadcast message] /\
  w_disk w' = w_disk w /\
  w_file w' = file_after d w /\
  w_clients w' = map (deliver (JSON_stringify message)) (w_clients w) /\
  w_clock w' = w_clock w /\
  w_tick w' = n /\
  w_proto w' = w_proto w.
Proof.
  destruct w as [f k cs clk t calls p].
  destruct f, k; cbn; rewrite <- ?app_assoc; repeat split.
Qed.

Lemma loaded_after_write (message : Message) (d : Document) (n : nat) (w : World) :
  loaded (after_broadcast message (after_write d (set_tick n (after_read w)))) =
  match w_disk w with
  | Writes => d
  | Refuses => loaded w
  | Tears => mkDocument [] [] []
  end.
Proof.
  destruct (mutation_frame message d n w) as (_ & _ & Hfile & _). cbv zeta in Hfile.
  unfold loaded at 1. rewrite Hfile. unfold file_after, loaded.
  destruct (w_disk w); reflexivity.
Qed.

(** ** Strict equality *)

Lemma strict_eq_true (a b : value) : strict_eq a b = true -> a = b.
Proof.
  destruct a, b; cbn; try discriminate; intros H; try reflexivity.
  - apply Bool.eqb_prop in H. congruence.
  - apply Z.eqb_eq in H. congruence.
  - apply String.eqb_eq in H. congruence.
Qed.

Lemma strict_eq_sym (a b : value) : strict_eq a b = strict_eq b a.
Proof.
  destruct a, b; cbn; try reflexivity.
  - destruct b, b0; reflexivity.
  - apply Z.eqb_sym.
  - apply String.eqb_sym.
Qed.

Lemma strict_eq_refl (a : value) : primitive a = true -> strict_eq a a = true.
Proof.
  destruct a; cbn; try discriminate; intros _.
  - destruct b; reflexivity.
  - apply Z.eqb_refl.
  - apply String.eqb_refl.
Qed.

Lemma find_written_middle {A : Type} (p : A -> bool) (l1 l2 : list A) (x : A) :
  (forall y, In y l1 -> p y = false) ->
  find_written p (List.length l1) (l1 ++ x :: l2) = Some x.
Proof.
  induction l1 as [|y t IH]; intros H; cbn; [reflexivity|].
  rewrite (H y (or_introl eq_refl)). apply IH. intros z Hz. apply H. right. exact Hz.
Qed.

Lemma find_written_last {A : Type} (p : A -> bool) (l : list A) (x : A) :
  (forall y, In y l -> p y = false) ->
  find_written p (List.length l) (l ++ [x]) = Some x.
Proof. apply find_written_middle. Qed.

Lemma element_at {A : Type} (l1 l2 : list A) (x : A) (w : World) :
  element (l1 ++ x :: l2) (Z.of_nat (List.length l1)) w = (Ok x, w).
Proof.
  unfold element. rewrite Nat2Z.id, nth_error_app2, Nat.sub_diag by lia.
  reflexivity.
Qed.

(** ** POST /api/classes *)

Lemma read_own (proto : list string) (name : string) (v : value) :
  truthy v = true -> read proto name v = v.
Proof. destruct v; cbn; try reflexivity; discriminate. Qed.

Lemma upsert_class_found (req : ClassBody) (w : World) l1 old l2 :
  let id := read (w_proto w) "id" (cb_id req) in
  let name := read (w_proto w) "name" (cb_name req) in
  truthy id = true -> truthy name = true ->
  classes (loaded w) = l1 ++ old :: l2 ->
  (forall c, In c l1 -> strict_eq (c_id c) id = false) ->
  strict_eq (c_id old) id = true ->
  post_classes req w =
  let w1 := after_read w in
  let new := restamp id name old w1 in
  (Ok (mkResponse 200 (BClass (Some new))),
   after_broadcast (Event "class_updated" (DClass (Some new)) "updated")
     (after_write (set_classes (l1 ++ new :: l2) (loaded w))
        (set_tick (w_tick w1 + (if truthy (c_createdAt old) then 1 else 2)) w1))).
Proof.
  intros id name Hid Hname Hl Hl1 Hold.
  unfold post_classes. apply handler_steps.
  erewrite bind_steps by apply readData_steps.
  destruct (after_read_frame w) as (_ & _ & _ & _ & _ & Hproto & _).
  unfold gets at 1. unfold bind at 1. rewrite Hproto.
  fold id name. unfold falsy. rewrite Hid, Hname. cbn [negb orb].
  rewrite Hl, (findIndex_first _ l1 l2 old Hl1 Hold).
  replace (Z.of_nat (List.length l1) >=? 0)%Z with true by (symmetry; apply Z.geb_le; lia).
  erewrite bind_steps.
  2:{ erewrite bind_steps by apply element_at.
      instantiate (1 := set_tick (w_tick (after_read w) + (if truthy (c_createdAt old) then 1 else 2)) (after_read w)).
      instantiate (1 := set_classes (l1 ++ restamp id name old (after_read w) :: l2) (loaded w)).
      unfold now, bind, ret, restamp.
      destruct (truthy (c_createdAt old));
        cbn [w_tick w_clock set_tick];
        rewrite Nat2Z.id, array_set_middle, ?Nat.add_1_r, ?Nat.add_succ_r, ?Nat.add_0_r;
        reflexivity. }
  erewrite bind_steps by apply writeData_steps.
  cbn [classes set_classes].
  rewrite Nat2Z.id, (find_written_middle _ l1 l2 _ Hl1).
  erewrite bind_steps by apply broadcast_steps.
  reflexivity.
Qed.

Lemma upsert_class_fresh (req : ClassBody) (w : World) :
  let id := read (w_proto w) "id" (cb_id req) in
  let name := read (w_proto w) "name" (cb_name req) in
  truthy id = true -> truthy name = true ->
  (forall c, In c (classes (loaded w)) -> strict_eq (c_id c) id = false) ->
  post_classes req w =
  let w1 := after_read w in
  let new := stamp id name w1 in
  (Ok (mkResponse 200 (BClass (Some new))),
   after_broadcast (Event "class_updated" (DClass (Some new)) "created")
     (after_write (set_classes (classes (loaded w) ++ [new]) (loaded w))
        (set_tick (w_tick w1 + 2) w1))).
Proof.
  intros id name Hid Hname Hnone.
  unfold post_classes. apply handler_steps.
  erewrite bind_steps by apply readData_steps.
  destruct (after_read_frame w) as (_ & _ & _ & _ & _ & Hproto & _).
  unfold gets at 1. unfold bind at 1. rewrite Hproto.
  fold id name. unfold falsy. rewrite Hid, Hname. cbn [negb orb].
  rewrite (findIndex_none _ _ Hnone).
  cbn [Z.geb Z.compare].
  erewrite bind_steps.
  2:{ instantiate (1 := set_tick (w_tick (after_read w) + 2) (after_read w)).
      instantiate (1 := set_classes (classes (loaded w) ++ [stamp id name (after_read w)]) (loaded w)).
      unfold now, bind, ret, stamp, push. cbn.
      rewrite ?Nat.add_succ_r, ?Nat.add_0_r. reflexivity. }
  erewrite bind_steps by apply writeData_steps.
  cbn [classes set_classes].
  rewrite (find_written_last _ _ _ Hnone).
  erewrite bind_steps by apply broadcast_steps.
  reflexivity.
Qed.

Lemma upsert_class_rejects (req : ClassBody) (w : World) :
  falsy (read (w_proto w) "id" (cb_id req)) || falsy (read (w_proto w) "name" (cb_name req)) = true ->
  post_classes req w =
  (Ok (mkResponse 400 (BError "id and name are required")), after_read w).
Proof.
  intros H.
  unfold post_classes. apply handler_steps.
  erewrite bind_steps by apply readData_steps.
  destruct (after_read_frame w) as (_ & _ & _ & _ & _ & Hproto & _).
  unfold gets at 1. unfold bind at 1. rewrite Hproto, H. reflexivity.
Qed.

(** ** POST /api/students *)

Lemma upsert_student_found (req : StudentBody) (w : World) l1 old l2 :
  let id := read (w_proto w) "id" (sb_id req) in
  truthy id = true ->
  truthy (read (w_proto w) "name" (sb_name req)) = true ->
  truthy (read (w_proto w) "className" (sb_className req)) = true ->
  students (loaded w) = l1 ++ old :: l2 ->
  (forall s, In s l1 -> strict_eq (s_id s) id = false) ->
  strict_eq (s_id old) id = true ->
  post_students req w =
  let w1 := after_read w in
  let new := student_of req w1 in
  (Ok (mkResponse 200 (BStudent (Some new))),
   after_broadcast (Event "student_updated" (DStudent (Some new)) "updated")
     (after_write (set_students (l1 ++ new :: l2) (loaded w))
        (set_tick (S (w_tick w1)) w1))).
Proof.
  intros id Hid Hname Hclass Hl Hl1 Hold.
  unfold post_students. apply handler_steps.
  erewrite bind_steps by apply readData_steps.
  destruct (after_read_frame w) as (_ & _ & _ & _ & _ & Hproto & _).
  unfold gets at 1. unfold bind at 1. rewrite Hproto.
  fold id. unfold falsy. rewrite Hid, Hname, Hclass. cbn [negb orb].
  rewrite Hl, (findIndex_first _ l1 l2 old Hl1 Hold).
  replace (Z.of_nat (List.length l1) >=? 0)%Z with true by (symmetry; apply Z.geb_le; lia).
  erewrite bind_steps.
  2:{ instantiate (1 := set_tick (S (w_tick (after_read w))) (after_read w)).
      instantiate (1 := set_students (l1 ++ student_of req (after_read w) :: l2) (loaded w)).
      unfold now, bind, ret, student_of.
      rewrite Nat2Z.id, array_set_middle, Hproto. reflexivity. }
  erewrite bind_steps by apply writeData_steps.
  cbn [students set_students].
  rewrite Nat2Z.id, (find_written_middle _ l1 l2 _ Hl1).
  erewrite bind_steps by apply broadcast_steps.
  reflexivity.
Qed.

Lemma upsert_student_fresh (req : StudentBody) (w : World) :
  let id := read (w_proto w) "id" (sb_id req) in
  truthy id = true ->
  truthy (read (w_proto w) "name" (sb_name req)) = true ->
  truthy (read (w_proto w) "className" (sb_className req)) = true ->
  (forall s, In s (students (loaded w)) -> strict_eq (s_id s) id = false) ->
  post_students req w =
  let w1 := after_read w in
  let new := student_of req w1 in
  (Ok (mkResponse 200 (BStudent (Some new))),
   after_broadcast (Event "student_updated" (DStudent (Some new)) "created")
     (after_write (set_students (students (loaded w) ++ [new]) (loaded w))
        (set_tick (S (w_tick w1)) w1))).
Proof.
  intros id Hid Hname Hclass Hnone.
  unfold post_students. apply handler_steps.
  erewrite bind_steps by apply readData_steps.
  destruct (after_read_frame w) as (_ & _ & _ & _ & _ & Hproto & _).
  unfold gets at 1. unfold bind at 1. rewrite Hproto.
  fold id. unfold falsy. rewrite Hid, Hname, Hclass. cbn [negb orb].
  rewrite (findIndex_none _ _ Hnone).
  cbn [Z.geb Z.compare].
  erewrite bind_steps.
  2:{ instantiate (1 := set_tick (S (w_tick (after_read w))) (after_read w)).
      instantiate (1 := set_students (students (loaded w) ++ [student_of req (after_read w)]) (loaded w)).
      unfold now, bind, ret, student_of, push. rewrite Hproto. reflexivity. }
  erewrite bind_steps by apply writeData_steps.
  cbn [students set_students].
  rewrite (find_written_last _ _ _ Hnone).
  erewrite bind_steps by apply broadcast_steps.
  reflexivity.
Qed.

Lemma upsert_student_rejects (req : StudentBody) (w : World) :
  falsy (read (w_proto w) "id" (sb_id req)) || falsy (read (w_proto w) "name" (sb_name req))
    || falsy (read (w_proto w) "className" (sb_className req)) = true ->
  post_students req w =
  (Ok (mkResponse 400 (BError "id, name, and className are required")), after_read w).
Proof.
  intros H.
  unfold post_students. apply handler_steps.
  erewrite bind_steps by apply readData_steps.
  destruct (after_read_frame w) as (_ & _ & _ & _ & _ & Hproto & _).
  unfold gets at 1. unfold bind at 1. rewrite Hproto, H. reflexivity.
Qed.

(** ** POST /api/attendance *)

Lemma upsert_attendance_found (req : AttendanceBody) (w : World) l1 old l2 :
  let id := read (w_proto w) "id" (ab_id req) in
  invalid (w_proto w) (UpsertAttendance req) = false ->
  attendance (loaded w) = l1 ++ old :: l2 ->
  (forall a, In a l1 -> strict_eq (a_id a) id = false) ->
  strict_eq (a_id old) id = true ->
  post_attendance req w =
  let w1 := after_read w in
  let new := attendance_of req w1 in
  (Ok (mkResponse 200 (BAttendance (Some new))),
   after_broadcast (Event "attendance_updated" (DAttendance (Some new)) "updated")
     (after_write (set_attendance (l1 ++ new :: l2) (loaded w))
        (set_tick
           (w_tick w1 +
            (if truthy (read (w_proto w) "timestamp" (ab_timestamp req)) then 1 else 2))
           w1))).
Proof.
  intros id Hvalid Hl Hl1 Hold.
  unfold post_attendance. apply handler_steps.
  erewrite bind_steps by apply readData_steps.
  destruct (after_read_frame w) as (_ & _ & _ & _ & _ & Hproto & _).
  unfold gets at 1. unfold bind at 1. rewrite Hproto.
  cbn [invalid] in Hvalid. rewrite Hvalid.
  fold id.
  rewrite Hl, (findIndex_first _ l1 l2 old Hl1 Hold).
  replace (Z.of_nat (List.length l1) >=? 0)%Z with true by (symmetry; apply Z.geb_le; lia).
  erewrite bind_steps.
  2:{ instantiate (1 := set_tick (w_tick (after_read w) + (if truthy (read (w_proto w) "timestamp" (ab_timestamp req)) then 1 else 2)) (after_read w)).
      instantiate (1 := set_attendance (l1 ++ attendance_of req (after_read w) :: l2) (loaded w)).
      unfold now, bind, ret, attendance_of. rewrite Hproto.
      destruct (truthy (read (w_proto w) "timestamp" (ab_timestamp req)));
        cbn [w_tick w_clock set_tick];
        rewrite Nat2Z.id, array_set_middle, ?Nat.add_1_r, ?Nat.add_succ_r, ?Nat.add_0_r;
        reflexivity. }
  erewrite bind_steps by apply writeData_steps.
  cbn [attendance set_attendance].
  rewrite Nat2Z.id, (find_written_middle _ l1 l2 _ Hl1).
  erewrite bind_steps by apply broadcast_steps.
  reflexivity.
Qed.

Lemma upsert_attendance_fresh (req : AttendanceBody) (w : World) :
  let id := read (w_proto w) "id" (ab_id req) in
  invalid (w_proto w) (UpsertAttendance req) = false ->
  (forall a, In a (attendance (loaded w)) -> strict_eq (a_id a) id = false) ->
  post_attendance req w =
  let w1 := after_read w in
  let new := attendance_of req w1 in
  (Ok (mkResponse 200 (BAttendance (Some new))),
   after_broadcast (Event "attendance_updated" (DAttendance (Some new)) "created")
     (after_write (set_attendance (attendance (loaded w) ++ [new]) (loaded w))
        (set_tick
           (w_tick w1 +
            (if truthy (read (w_proto w) "timestamp" (ab_timestamp req)) then 1 else 2))
           w1))).
Proof.
  intros id Hvalid Hnone.
  unfold post_attendance. apply handler_steps.
  erewrite bind_steps by apply readData_steps.
  destruct (after_read_frame w) as (_ & _ & _ & _ & _ & Hproto & _).
  unfold gets at 1. unfold bind at 1. rewrite Hproto.
  cbn [invalid] in Hvalid. rewrite Hvalid.
  fold id.
  rewrite (findIndex_none _ _ Hnone).
  cbn [Z.geb Z.compare].
  erewrite bind_steps.
  2:{ instantiate (1 := set_tick (w_tick (after_read w) + (if truthy (read (w_proto w) "timestamp" (ab_timestamp req)) then 1 else 2)) (after_read w)).
      instantiate (1 := set_attendance (attendance (loaded w) ++ [attendance_of req (after_read w)]) (loaded w)).
      unfold now, bind, ret, attendance_of, push. rewrite Hproto.
      destruct (truthy (read (w_proto w) "timestamp" (ab_timestamp req)));
        cbn [w_tick w_clock set_tick];
        rewrite ?Nat.add_1_r, ?Nat.add_succ_r, ?Nat.add_0_r;
        reflexivity. }
  erewrite bind_steps by apply writeData_steps.
  cbn [attendance set_attendance].
  rewrite (find_written_last _ _ _ Hnone).
  erewrite bind_steps by apply broadcast_steps.
  reflexivity.
Qed.

Lemma upsert_attendance_rejects (req : AttendanceBody) (w : World) :
  invalid (w_proto w) (UpsertAttendance req) = true ->
  post_attendance req w =
  (Ok (mkResponse 400
         (BError "id, studentId, studentName, className, prayer, date, and status are required")),
   after_read w).
Proof.
  intros H.
  unfold post_attendance. apply handler_steps.
  erewrite bind_steps by apply readData_steps.
  destruct (after_read_frame w) as (_ & _ & _ & _ & _ & Hproto & _).
  unfold gets at 1. unfold bind at 1. rewrite Hproto.
  cbn [invalid] in H. rewrite H. reflexivity.
Qed.

(** ** The mutations, uniformly *)

Lemma upsert_found {A : Type} (p : A -> bool) (x old : A) (l1 l2 : list A) :
  (forall y, In y l1 -> p y = false) -> p old = true ->
  upsert p x (l1 ++ old :: l2) = l1 ++ x :: l2 /\
  find p (l1 ++ old :: l2) = Some old /\
  existsb p (l1 ++ old :: l2) = true.
Proof.
  intros Hl1 Hold. induction l1 as [|y t IH]; cbn.
  - rewrite Hold. repeat split.
  - rewrite (Hl1 y (or_introl eq_refl)).
    destruct IH as (-> & -> & ->); [intros z Hz; apply Hl1; right; exact Hz|].
    repeat split.
Qed.

Lemma upsert_fresh {A : Type} (p : A -> bool) (x : A) (l : list A) :
  (forall y, In y l -> p y = false) ->
  upsert p x l = l ++ [x] /\ find p l = None /\ existsb p l = false.
Proof.
  intros Hl. induction l as [|y t IH]; cbn.
  - repeat split.
  - rewrite (Hl y (or_introl eq_refl)).
    destruct IH as (-> & -> & ->); [intros z Hz; apply Hl; right; exact Hz|].
    repeat split.
Qed.

Lemma stamps_after_read (w : World) :
  (forall id name old, restamp id name old (after_read w) = restamp id name old w) /\
  (forall id name, stamp id name (after_read w) = stamp id name w) /\
  (forall req, student_of req (after_read w) = student_of req w) /\
  (forall req, attendance_of req (after_read w) = attendance_of req w).
Proof.
  destruct (after_read_frame w) as (_ & _ & Hclock & Htick & _ & Hproto & _).
  unfold restamp, stamp, student_of, attendance_of.
  rewrite Hclock, Htick, Hproto. repeat split.
Qed.

Lemma delete_classes_steps (id : string) (w : World) :
  delete_classes id w =
  (Ok (mkResponse 200 BSuccess),
   after_broadcast (event (DeleteClass id) w)
     (after_write (handed (DeleteClass id) w) (set_tick (w_tick w) (after_read w)))).
Proof.
  unfold delete_classes. apply handler_steps.
  erewrite bind_steps by apply readData_steps.
  cbn [handed event].
  replace (set_tick (w_tick w) (after_read w)) with (after_read w).
  2:{ destruct (after_read_frame w) as (_ & _ & _ & Htick & _).
      rewrite <- Htick. destruct (after_read w); reflexivity. }
  destruct (find _ (classes (loaded w)));
    (erewrite bind_steps by apply writeData_steps);
    (erewrite bind_steps by apply broadcast_steps); reflexivity.
Qed.

Lemma delete_students_steps (id : string) (w : World) :
  delete_students id w =
  (Ok (mkResponse 200 BSuccess),
   after_broadcast (event (DeleteStudent id) w)
     (after_write (handed (DeleteStudent id) w) (set_tick (w_tick w) (after_read w)))).
Proof.
  unfold delete_students. apply handler_steps.
  erewrite bind_steps by apply readData_steps.
  cbn [handed event].
  replace (set_tick (w_tick w) (after_read w)) with (after_read w).
  2:{ destruct (after_read_frame w) as (_ & _ & _ & Htick & _).
      rewrite <- Htick. destruct (after_read w); reflexivity. }
  erewrite bind_steps by apply writeData_steps.
  erewrite bind_steps by apply broadcast_steps. reflexivity.
Qed.

Lemma delete_attendance_steps (id : string) (w : World) :
  delete_attendance id w =
  (Ok (mkResponse 200 BSuccess),
   after_broadcast (event (DeleteAttendance id) w)
     (after_write (handed (DeleteAttendance id) w) (set_tick (w_tick w) (after_read w)))).
Proof.
  unfold delete_attendance. apply handler_steps.
  erewrite bind_steps by apply readData_steps.
  cbn [handed event].
  replace (set_tick (w_tick w) (after_read w)) with (after_read w).
  2:{ destruct (after_read_frame w) as (_ & _ & _ & Htick & _).
      rewrite <- Htick. destruct (after_read w); reflexivity. }
  erewrite bind_steps by apply writeData_steps.
  erewrite bind_steps by apply broadcast_steps. reflexivity.
Qed.

(** Every mutation that passes validation reads, stamps, writes, announces
    and answers. *)
Lemma mutate_steps (m : Mutation) (w : World) :
  invalid (w_proto w) m = false ->
  exists n,
    mutate m w =
    (Ok (mkResponse 200 (answer m w)),
     after_broadcast (event m w)
       (after_write (handed m w) (set_tick n (after_read w)))).
Proof.
  intros Hvalid.
  destruct (stamps_after_read w) as (Hre & Hst & Hstu & Hatt).
  destruct m as [req | id | req | id | req | id]; cbn [mutate].
  - cbn [invalid] in Hvalid. apply Bool.orb_false_elim in Hvalid.
    destruct Hvalid as [Hid Hname]. unfold falsy in Hid, Hname.
    apply Bool.negb_false_iff in Hid, Hname.
    cbn [answer event handed]. unfold class_of, action_of.
    destruct (first_match (fun c => strict_eq (c_id c) (read (w_proto w) "id" (cb_id req)))
                          (classes (loaded w)))
      as [Hnone | (l1 & old & l2 & Hl & Hold & Hl1)].
    + destruct (upsert_fresh _ (stamp (read (w_proto w) "id" (cb_id req))
                                  (read (w_proto w) "name" (cb_name req)) w) _ Hnone)
        as (Hu & Hf & He).
      rewrite Hf, He, Hu.
      eexists. rewrite (upsert_class_fresh req w Hid Hname Hnone).
      cbv zeta. rewrite Hst. reflexivity.
    + rewrite Hl.
      destruct (upsert_found _ (restamp (read (w_proto w) "id" (cb_id req))
                                  (read (w_proto w) "name" (cb_name req)) old w)
                             old l1 l2 Hl1 Hold)
        as (Hu & Hf & He).
      rewrite Hf, He, Hu.
      eexists. rewrite (upsert_class_found req w l1 old l2 Hid Hname Hl Hl1 Hold).
      cbv zeta. rewrite Hre. reflexivity.
  - eexists. apply delete_classes_steps.
  - cbn [invalid] in Hvalid. apply Bool.orb_false_elim in Hvalid.
    destruct Hvalid as [Hvalid Hclass]. apply Bool.orb_false_elim in Hvalid.
    destruct Hvalid as [Hid Hname]. unfold falsy in Hid, Hname, Hclass.
    apply Bool.negb_false_iff in Hid, Hname, Hclass.
    cbn [answer event handed]. unfold action_of.
    destruct (first_match (fun s => strict_eq (s_id s) (read (w_proto w) "id" (sb_id req)))
                          (students (loaded w)))
      as [Hnone | (l1 & old & l2 & Hl & Hold & Hl1)].
    + destruct (upsert_fresh _ (student_of req w) _ Hnone) as (-> & _ & ->).
      eexists. rewrite (upsert_student_fresh req w Hid Hname Hclass Hnone).
      cbv zeta. rewrite Hstu. reflexivity.
    + rewrite Hl.
      destruct (upsert_found _ (student_of req w) old l1 l2 Hl1 Hold) as (-> & _ & ->).
      eexists. rewrite (upsert_student_found req w l1 old l2 Hid Hname Hclass Hl Hl1 Hold).
      cbv zeta. rewrite Hstu. reflexivity.
  - eexists. apply delete_students_steps.
  - cbn [answer event handed]. unfold action_of.
    destruct (first_match (fun a => strict_eq (a_id a) (read (w_proto w) "id" (ab_id req)))
                          (attendance (loaded w)))
      as [Hnone | (l1 & old & l2 & Hl & Hold & Hl1)].
    + destruct (upsert_fresh _ (attendance_of req w) _ Hnone) as (-> & _ & ->).
      eexists. rewrite (upsert_attendance_fresh req w Hvalid Hnone).
      cbv zeta. rewrite Hatt. reflexivity.
    + rewrite Hl.
      destruct (upsert_found _ (attendance_of req w) old l1 l2 Hl1 Hold) as (-> & _ & ->).
      eexists. rewrite (upsert_attendance_found req w l1 old l2 Hvalid Hl Hl1 Hold).
      cbv zeta. rewrite Hatt. reflexivity.
  - eexists. apply delete_attendance_steps.
Qed.

Lemma mutate_rejects (m : Mutation) (w : World) :
  invalid (w_proto w) m = true ->
  mutate m w = (Ok (mkResponse 400 (BError (requirement m))), after_read w).
Proof.
  intros H. destruct m as [req | id | req | id | req | id]; cbn [mutate requirement];
    try discriminate H.
  - apply upsert_class_rejects. exact H.
  - apply upsert_student_rejects. exact H.
  - apply upsert_attendance_rejects. exact H.
Qed.

(** ** The GET routes *)

Lemma get_classes_steps (w : World) :
  get_classes w = (Ok (mkResponse 200 (BClasses (classes (loaded w)))), after_read w).
Proof.
  unfold get_classes. apply handler_steps.
  erewrite bind_steps by apply readData_steps. reflexivity.
Qed.

Lemma get_students_steps (w : World) :
  get_students w = (Ok (mkResponse 200 (BStudents (students (loaded w)))), after_read w).
Proof.
  unfold get_students. apply handler_steps.
  erewrite bind_steps by apply readData_steps. reflexivity.
Qed.

Lemma get_students_class_steps (className : string) (w : World) :
  get_students_class className w =
  (Ok (mkResponse 200
         (BStudents (filter (fun s => strict_eq (s_className s) (VStr className))
                            (students (loaded w))))),
   after_read w).
Proof.
  unfold get_students_class. apply handler_steps.
  erewrite bind_steps by apply readData_steps. reflexivity.
Qed.

Lemma get_attendance_steps (q : AttendanceQuery) (w : World) :
  get_attendance q w =
  (Ok (mkResponse 200
         (BAttendanceList
            (filter_if (read (w_proto w) "studentId" (q_studentId q)) a_studentId
               (filter_if (read (w_proto w) "prayer" (q_prayer q)) a_prayer
                  (filter_if (read (w_proto w) "className" (q_className q)) a_className
                     (filter_if (read (w_proto w) "date" (q_date q)) a_date
                        (attendance (loaded w)))))))),
   after_read w).
Proof.
  unfold get_attendance. apply handler_steps.
  erewrite bind_steps by apply readData_steps.
  destruct (after_read_frame w) as (_ & _ & _ & _ & _ & Hproto & _).
  unfold gets at 1. unfold bind at 1. rewrite Hproto. reflexivity.
Qed.

(** The summary loop touches nothing of the process but [Object.prototype],
    to which it can only add names. *)
Lemma summary_step_frame (summary : Summary) (record : Attendance) (w : World) :
  exists added,
    snd (summary_step summary record w) = set_proto (w_proto w ++ added) w.
Proof.
  assert (Hsame : w = set_proto (w_proto w ++ []) w).
  { rewrite app_nil_r. destruct w; reflexivity. }
  unfold summary_step.
  destruct (key_of (a_date record)) as [d | |]; try (exists []; exact Hsame).
  destruct (key_of (a_prayer record)) as [p | |]; try (exists []; exact Hsame).
  match goal with
  | |- context [match obj_get ?pr ?s d with Own _ => _ | InheritedArray => _
                | InheritedBuiltin => _ | Missing => _ end] =>
      destruct (obj_get pr s d) as [byPrayer | | |]
  end; try (exists []; exact Hsame).
  - match goal with
    | |- context [match obj_get ?pr ?s p with Own _ => _ | InheritedArray => _
                  | InheritedBuiltin => _ | Missing => _ end] =>
        destruct (obj_get pr s p)
    end; exists []; exact Hsame.
  - destruct (d =? "__proto__")%string; [| exists []; exact Hsame].
    destruct (existsb (String.eqb p) (w_proto w)); [exists []; exact Hsame |].
    destruct (inherited p); [exists []; exact Hsame |].
    exists [p]. reflexivity.
Qed.

Lemma forEach_summary_frame (l : list Attendance) (summary : Summary) (w : World) :
  exists added,
    snd (forEach_summary l summary w) = set_proto (w_proto w ++ added) w.
Proof.
  revert summary w. induction l as [|record t IH]; intros summary w; cbn [forEach_summary].
  - exists []. rewrite app_nil_r. destruct w; reflexivity.
  - unfold bind.
    destruct (summary_step_frame summary record w) as (a1 & H1).
    destruct (summary_step summary record w) as [[s1 | e |] w1]; cbn [snd] in H1.
    + destruct (IH s1 w1) as (a2 & H2). exists (a1 ++ a2).
      rewrite H2, H1. cbn [w_proto set_proto]. rewrite app_assoc. reflexivity.
    + exists a1. exact H1.
    + exists a1. exact H1.
Qed.

Lemma get_summary_frame (q : SummaryQuery) (w : World) :
  exists added,
    snd (get_summary q w) = set_proto (w_proto w ++ added) (after_read w).
Proof.
  destruct (after_read_frame w) as (_ & _ & _ & _ & _ & Hproto & _).
  unfold get_summary, handler, try_catch.
  unfold bind at 1. rewrite readData_steps.
  unfold gets at 1. unfold bind at 1.
  unfold bind.
  match goal with
  | |- context [forEach_summary ?l ?s ?w0] =>
      destruct (forEach_summary_frame l s w0) as (added & H);
      destruct (forEach_summary l s w0) as [[s1 | e |] w1]
  end; cbn [snd] in H; exists added; rewrite <- Hproto; exact H.
Qed.

(** ** The shape of the stored document *)

Lemma distinct_snoc (ids : list value) (id : value) :
  distinct ids -> (forall y, In y ids -> strict_eq y id = false) ->
  distinct (ids ++ [id]).
Proof.
  induction ids as [|x t IH]; cbn; intros Hd Hnone.
  - split; [intros y [] | exact I].
  - destruct Hd as [Hx Ht]. split.
    + intros y Hy. apply in_app_or in Hy. destruct Hy as [Hy | [<- | []]].
      * apply Hx. exact Hy.
      * rewrite strict_eq_sym. apply Hnone. left. reflexivity.
    + apply IH; [exact Ht | intros y Hy; apply Hnone; right; exact Hy].
Qed.

Lemma distinct_filter {A : Type} (key : A -> value) (p : A -> bool) (l : list A) :
  distinct (map key l) -> distinct (map key (filter p l)).
Proof.
  induction l as [|x t IH]; cbn; [trivial|]. intros [Hx Ht].
  destruct (p x); cbn; [split|]; auto.
  intros y Hy. apply Hx. apply in_map_iff in Hy. destruct Hy as (z & <- & Hz).
  apply in_map. apply filter_In in Hz. tauto.
Qed.

Lemma distinct_upsert {A : Type} (key : A -> value) (id : value) (x : A) (l : list A) :
  key x = id -> distinct (map key l) ->
  distinct (map key (upsert (fun y => strict_eq (key y) id) x l)).
Proof.
  intros Hx Hd.
  destruct (first_match (fun y => strict_eq (key y) id) l)
    as [Hnone | (l1 & old & l2 & -> & Hold & Hl1)].
  - destruct (upsert_fresh _ x _ Hnone) as (-> & _). rewrite map_app. cbn [map].
    rewrite Hx. apply distinct_snoc; [exact Hd|].
    intros y Hy. apply in_map_iff in Hy. destruct Hy as (z & <- & Hz). apply Hnone, Hz.
  - destruct (upsert_found _ x old l1 l2 Hl1 Hold) as (-> & _).
    apply strict_eq_true in Hold.
    rewrite map_app in *. cbn [map] in *. rewrite Hx, <- Hold. exact Hd.
Qed.

Lemma in_upsert {A : Type} (p : A -> bool) (x y : A) (l : list A) :
  In y (upsert p x l) -> y = x \/ In y l.
Proof.
  induction l as [|z t IH]; cbn.
  - intros [<- | []]. left. reflexivity.
  - destruct (p z); cbn; intros [<- | H]; auto.
    destruct (IH H); auto.
Qed.

Lemma truthy_stamp (s : string) : s <> "" -> truthy (VStr s) = true.
Proof. destruct s; [congruence | reflexivity]. Qed.

Lemma class_of_stamped (req : ClassBody) (w : World) :
  (forall k, w_clock w k <> "") ->
  (forall c, In c (classes (loaded w)) -> truthy (c_createdAt c) = true) ->
  c_id (class_of req w) = read (w_proto w) "id" (cb_id req) /\
  c_name (class_of req w) = read (w_proto w) "name" (cb_name req) /\
  truthy (c_createdAt (class_of req w)) = true.
Proof.
  intros Hclock Hstamped. unfold class_of.
  destruct (find _ (classes (loaded w))) as [old|] eqn:Hfind.
  - apply find_some in Hfind. destruct Hfind as [Hin _].
    unfold restamp. rewrite (Hstamped old Hin). cbn. auto.
  - unfold stamp. cbn. repeat split. apply truthy_stamp, Hclock.
Qed.

Lemma handed_tidy (m : Mutation) (w : World) :
  (forall k, w_clock w k <> "") -> tidy (loaded w) ->
  invalid (w_proto w) m = false -> tidy (handed m w).
Proof.
  intros Hclock (Hc & Hs & Ha & Hcls) Hvalid.
  destruct m as [req | id | req | id | req | id]; cbn [handed].
  - destruct (class_of_stamped req w Hclock (fun c H => proj2 (Hcls c H)))
      as (Hid & Hname & Hstamp).
    cbn [invalid] in Hvalid. apply Bool.orb_false_elim in Hvalid.
    destruct Hvalid as [Hvid _]. unfold falsy in Hvid. apply Bool.negb_false_iff in Hvid.
    unfold tidy. cbn [classes students attendance set_classes].
    repeat apply conj; auto.
    + apply distinct_upsert; assumption.
    + intros c Hin. apply in_upsert in Hin. destruct Hin as [-> | Hin].
      * split; [rewrite Hid; exact Hvid | exact Hstamp].
      * apply Hcls, Hin.
  - assert (Hsub : forall c, In c (filter (fun c => negb (strict_eq (c_id c) (VStr id)))
                                         (classes (loaded w))) ->
                             truthy (c_id c) = true /\ truthy (c_createdAt c) = true).
    { intros c Hin. apply filter_In in Hin. apply Hcls. tauto. }
    destruct (find _ (classes (loaded w))); unfold tidy;
      cbn [classes students attendance set_classes set_students];
      repeat apply conj; auto using distinct_filter; apply Hsub.
  - unfold tidy. cbn [classes students attendance set_students].
    repeat apply conj; auto. apply distinct_upsert; [reflexivity | assumption].
  - unfold tidy. cbn [classes students attendance set_students set_attendance].
    repeat apply conj; auto using distinct_filter.
  - unfold tidy. cbn [classes students attendance set_attendance].
    repeat apply conj; auto. apply distinct_upsert; [reflexivity | assumption].
  - unfold tidy. cbn [classes students attendance set_attendance].
    repeat apply conj; auto using distinct_filter.
Qed.

Lemma tidy_empty : tidy (mkDocument [] [] []).
Proof. unfold tidy. cbn. intuition. Qed.

(** What a request leaves of the clock and of the document. *)
Lemma serve_keeps_shape (r : Request) (w : World) :
  (forall k, w_clock w k <> "") -> tidy (loaded w) ->
  (forall k, w_clock (snd (serve r w)) k <> "") /\ tidy (loaded (snd (serve r w))).
Proof.
  intros Hclock Htidy.
  destruct (after_read_frame w) as (_ & _ & Hrc & _ & _ & _ & Hrl).
  assert (Hread : (forall k, w_clock (after_read w) k <> "") /\ tidy (loaded (after_read w))).
  { rewrite Hrc, Hrl. auto. }
  destruct r as [m | | | className | q | q]; cbn [serve].
  - destruct (invalid (w_proto w) m) eqn:Hvalid.
    + rewrite (mutate_rejects m w Hvalid). exact Hread.
    + destruct (mutate_steps m w Hvalid) as (n & ->). cbn [snd].
      destruct (mutation_frame (event m w) (handed m w) n w) as (_ & _ & _ & _ & Hc & _).
      cbv zeta in Hc. rewrite Hc, loaded_after_write. split; [exact Hclock|].
      destruct (w_disk w); [apply handed_tidy; assumption | assumption | apply tidy_empty].
  - rewrite get_classes_steps. exact Hread.
  - rewrite get_students_steps. exact Hread.
  - rewrite get_students_class_steps. exact Hread.
  - rewrite get_attendance_steps. exact Hread.
  - destruct (get_summary_frame q w) as (added & ->). exact Hread.
Qed.

Lemma reachable_shape (w : World) :
  reachable w -> (forall k, w_clock w k <> "") /\ tidy (loaded w).
Proof.
  induction 1 as [w (Hfile & _ & Hclock) | r w _ [Hc Ht] | k w _ IH | cs w _ IH | w _ IH
                  | p w _ IH].
  - split; [exact Hclock|]. unfold loaded. rewrite Hfile. apply tidy_empty.
  - apply serve_keeps_shape; assumption.
  - exact IH.
  - exact IH.
  - exact IH.
  - exact IH.
Qed.

(** ** One record per id *)

Lemma distinct_split {A : Type} (key : A -> value) (l1 l2 : list A) (x : A) :
  distinct (map key (l1 ++ x :: l2)) ->
  (forall y, In y l1 -> strict_eq (key y) (key x) = false) /\
  (forall y, In y l2 -> strict_eq (key y) (key x) = false).
Proof.
  induction l1 as [|z t IH]; cbn; intros [Hz Ht].
  - split; [intros y [] |]. intros y Hy. apply Hz, in_map, Hy.
  - destruct (IH Ht) as [H1 H2]. split; [|exact H2].
    intros y [<- | Hy]; [|apply H1, Hy].
    rewrite strict_eq_sym. apply Hz. rewrite map_app. apply in_or_app. right. left.
    reflexivity.
Qed.

Lemma filter_upsert_one {A : Type} (key : A -> value) (id : value) (x : A) (l : list A) :
  key x = id -> primitive id = true -> distinct (map key l) ->
  filter (fun y => strict_eq (key y) id)
         (upsert (fun y => strict_eq (key y) id) x l) = [x].
Proof.
  intros Hx Hprim Hd.
  assert (Hself : strict_eq (key x) id = true) by (rewrite Hx; apply strict_eq_refl, Hprim).
  destruct (first_match (fun y => strict_eq (key y) id) l)
    as [Hnone | (l1 & old & l2 & -> & Hold & Hl1)].
  - destruct (upsert_fresh _ x _ Hnone) as (-> & _).
    rewrite filter_app, (filter_none _ _ Hnone). cbn. rewrite Hself. reflexivity.
  - destruct (upsert_found _ x old l1 l2 Hl1 Hold) as (-> & _).
    destruct (distinct_split key l1 l2 old Hd) as [_ Hl2].
    apply strict_eq_true in Hold. rewrite Hold in Hl2.
    rewrite filter_app, (filter_none _ _ Hl1). cbn. rewrite Hself, (filter_none _ _ Hl2).
    reflexivity.
Qed.

Lemma strict_eq_false (a b : value) : primitive b = true -> a <> b -> strict_eq a b = false.
Proof.
  intros Hb Hne. destruct (strict_eq a b) eqn:H; [|reflexivity].
  apply strict_eq_true in H. contradiction.
Qed.

(** POST /api/classes with an id that is a string, a number or a boolean. *)
Lemma class_upsert_once (req : ClassBody) (w : World) :
  (forall k, w_clock w k <> "") -> tidy (loaded w) ->
  primitive (cb_id req) = true -> truthy (cb_id req) = true ->
  truthy (cb_name req) = true ->
  exists new d' w' action,
    post_classes req w = (Ok (mkResponse 200 (BClass (Some new))), w') /\
    w_calls w' = w_calls w ++
      [CWriteData d'; CBroadcast (Event "class_updated" (DClass (Some new)) action)] /\
    w_file w' = file_after d' w /\
    filter (fun c => strict_eq (c_id c) (cb_id req)) (classes d') = [new] /\
    c_id new = cb_id req /\ c_name new = cb_name req /\
    students d' = students (loaded w) /\ attendance d' = attendance (loaded w) /\
    (forall l1 old l2,
        classes (loaded w) = l1 ++ old :: l2 -> c_id old = cb_id req ->
        classes d' = l1 ++ new :: l2 /\
        c_createdAt new = c_createdAt old /\
        c_updatedAt new = VStr (w_clock w (w_tick w)) /\
        action = "updated") /\
    ((forall c, In c (classes (loaded w)) -> c_id c <> cb_id req) ->
        classes d' = classes (loaded w) ++ [new] /\
        c_createdAt new = VStr (w_clock w (w_tick w)) /\
        c_updatedAt new = VStr (w_clock w (S (w_tick w))) /\
        action = "created") /\
    tidy d' /\ w_clock w' = w_clock w /\ w_disk w' = w_disk w.
Proof.
  intros Hclock Htidy Hprim Hid Hname.
  pose proof Htidy as (Hc & _ & _ & Hcls).
  assert (Hvalid : invalid (w_proto w) (UpsertClass req) = false).
  { cbn [invalid]. rewrite !read_own by assumption. unfold falsy. rewrite Hid, Hname.
    reflexivity. }
  destruct (mutate_steps (UpsertClass req) w Hvalid) as (n & Hrun).
  destruct (mutation_frame (event (UpsertClass req) w) (handed (UpsertClass req) w) n w)
    as (Hcalls & Hdisk & Hfile & _ & Hclk & _).
  cbv zeta in Hcalls, Hdisk, Hfile, Hclk.
  pose proof (handed_tidy (UpsertClass req) w Hclock Htidy Hvalid) as Htidy'.
  destruct (class_of_stamped req w Hclock (fun c H => proj2 (Hcls c H)))
    as (Hnid & Hnname & _).
  cbn [mutate answer event handed] in *.
  rewrite !read_own in * by assumption.
  eexists _, _, _, _.
  split; [exact Hrun|]. split; [exact Hcalls|]. split; [exact Hfile|].
  cbn [classes students attendance set_classes].
  split; [apply filter_upsert_one; assumption|].
  split; [exact Hnid|]. split; [exact Hnname|].
  split; [reflexivity|]. split; [reflexivity|].
  split; [|split; [|auto]].
  - intros l1 old l2 Hl Hold.
    rewrite Hl in Hc. destruct (distinct_split c_id l1 l2 old Hc) as [Hl1 _].
    rewrite Hold in Hl1.
    assert (Hself : strict_eq (c_id old) (cb_id req) = true)
      by (rewrite Hold; apply strict_eq_refl, Hprim).
    unfold class_of, action_of. rewrite read_own by assumption. rewrite Hl.
    destruct (upsert_found (fun c => strict_eq (c_id c) (cb_id req))
                (restamp (cb_id req) (read (w_proto w) "name" (cb_name req)) old w)
                old l1 l2 Hl1 Hself) as (Hu & Hf & He).
    rewrite Hf, He, Hu. unfold restamp.
    rewrite (proj2 (Hcls old (eq_ind_r (fun l => In old l) (in_elt old l1 l2) Hl))).
    cbn. auto.
  - intros Hnone.
    assert (Hnone' : forall c, In c (classes (loaded w)) ->
                               strict_eq (c_id c) (cb_id req) = false).
    { intros c Hin. apply strict_eq_false; auto. }
    unfold class_of, action_of. rewrite read_own by assumption.
    destruct (upsert_fresh (fun c => strict_eq (c_id c) (cb_id req))
                (stamp (cb_id req) (read (w_proto w) "name" (cb_name req)) w)
                _ Hnone') as (Hu & Hf & He).
    rewrite Hf, He, Hu. cbn. auto.
Qed.

(** C1.  On a document of the data model (no two records of a collection
    with the same id, every class with its id and creation stamp), a class
    upsert whose id is a non-empty string (or a non-zero number or [true]) and
    whose name is not empty leaves exactly one class with that id: a class
    that had the id is replaced at its position, keeping its [createdAt] and
    getting a fresh [updatedAt]; otherwise the class is appended with both
    stamps; the students and the attendance are handed on as read.  A second
    upsert of the id under another name, once the first is stored, replaces
    that class where it stands and keeps its [createdAt], so the id is still
    held once. *)
Theorem class_upsert_in_place (req : ClassBody) (w : World) :
  (forall k, w_clock w k <> "") -> tidy (loaded w) ->
  primitive (cb_id req) = true -> truthy (cb_id req) = true ->
  truthy (cb_name req) = true ->
  exists new d' w' action,
    post_classes req w = (Ok (mkResponse 200 (BClass (Some new))), w') /\
    w_calls w' = w_calls w ++
      [CWriteData d'; CBroadcast (Event "class_updated" (DClass (Some new)) action)] /\
    w_file w' = file_after d' w /\
    filter (fun c => strict_eq (c_id c) (cb_id req)) (classes d') = [new] /\
    c_id new = cb_id req /\ c_name new = cb_name req /\
    students d' = students (loaded w) /\ attendance d' = attendance (loaded w) /\
    (forall l1 old l2,
        classes (loaded w) = l1 ++ old :: l2 -> c_id old = cb_id req ->
        classes d' = l1 ++ new :: l2 /\
        c_createdAt new = c_createdAt old /\
        c_updatedAt new = VStr (w_clock w (w_tick w)) /\
        action = "updated") /\
    ((forall c, In c (classes (loaded w)) -> c_id c <> cb_id req) ->
        classes d' = classes (loaded w) ++ [new] /\
        c_createdAt new = VStr (w_clock w (w_tick w)) /\
        c_updatedAt new = VStr (w_clock w (S (w_tick w))) /\
        action = "created") /\
    (forall req2,
        cb_id req2 = cb_id req -> truthy (cb_name req2) = true -> w_disk w = Writes ->
        exists new2 d2 w2,
          post_classes req2 w' = (Ok (mkResponse 200 (BClass (Some new2))), w2) /\
          w_file w2 = FileOf d2 /\
          c_id new2 = cb_id req /\ c_name new2 = cb_name req2 /\
          c_createdAt new2 = c_createdAt new /\
          filter (fun c => strict_eq (c_id c) (cb_id req)) (classes d2) = [new2] /\
          forall l1 l2, classes d' = l1 ++ new :: l2 -> classes d2 = l1 ++ new2 :: l2).
Proof.
  intros Hclock Htidy Hprim Hid Hname.
  destruct (class_upsert_once req w Hclock Htidy Hprim Hid Hname)
    as (new & d' & w' & action & Hrun & Hcalls & Hfile & Hone & Hnid & Hnname & Hs & Ha
        & Hfound & Hfresh & Htidy' & Hclk & Hdisk).
  exists new, d', w', action.
  repeat (split; [assumption|]).
  intros req2 Hid2 Hname2 Hwrites.
  assert (Hloaded : loaded w' = d').
  { unfold loaded. rewrite Hfile. unfold file_after. rewrite Hwrites. reflexivity. }
  assert (Hclock' : forall k, w_clock w' k <> "") by (rewrite Hclk; exact Hclock).
  destruct (class_upsert_once req2 w') as
    (new2 & d2 & w2 & action2 & Hrun2 & _ & Hfile2 & Hone2 & Hnid2 & Hnname2 & _ & _
     & Hfound2 & _);
    try rewrite Hloaded; try rewrite Hid2; try assumption.
  rewrite Hloaded, Hid2 in *.
  exists new2, d2, w2.
  split; [exact Hrun2|].
  split; [rewrite Hfile2; unfold file_after; rewrite Hdisk, Hwrites; reflexivity|].
  split; [exact Hnid2|]. split; [exact Hnname2|].
  assert (Hin : In new (classes d')).
  { assert (H : In new (filter (fun c => strict_eq (c_id c) (cb_id req)) (classes d')))
      by (rewrite Hone; left; reflexivity).
    apply filter_In in H. tauto. }
  split.
  - apply in_split in Hin. destruct Hin as (l1 & l2 & Hl).
    apply (Hfound2 l1 new l2 Hl Hnid).
  - split; [exact Hone2|].
    intros l1 l2 Hl. apply (Hfound2 l1 new l2 Hl Hnid).
Qed.

(** ** GET /api/summary *)

Lemma plain_in_not_index (proto : list string) (k : string) :
  plain_in proto k = true -> array_index k = None.
Proof. unfold plain_in. destruct (array_index k); [discriminate | reflexivity]. Qed.

Lemma plain_in_missing {V : Type} (proto : list string) (o : JsObj V) (k : string) :
  plain_in proto k = true ->
  find (fun kv => fst kv =? k) o = None -> obj_get proto o k = Missing.
Proof.
  unfold plain_in, obj_get. intros H ->.
  destruct (array_index k); [discriminate|].
  apply andb_true_iff in H. destruct H as [Hi Hp].
  apply negb_true_iff in Hi, Hp. rewrite Hi, Hp. reflexivity.
Qed.

Lemma ensure_plain {V : Type} (proto : list string) (o : JsObj V) (k : string) (init : V) :
  plain_in proto k = true ->
  (obj_get proto o k = Own (value_or o k init)) \/
  (obj_get proto o k = Missing /\
   obj_get proto (obj_set o k init) k = Own (value_or o k init) /\
   forall v, obj_set (obj_set o k init) k v = obj_set o k v).
Proof.
  intros Hk. pose proof (plain_in_not_index proto k Hk) as Hi.
  destruct (find (fun kv => fst kv =? k) o) as [kv|] eqn:Hf.
  - left. unfold obj_get, value_or. rewrite Hf. reflexivity.
  - right. split; [apply plain_in_missing; assumption|].
    unfold obj_get, value_or. rewrite Hf.
    rewrite (obj_set_append o k init Hi Hf).
    rewrite (find_last o k init Hf). split; [reflexivity|].
    intros v. rewrite (obj_set_append o k v Hi Hf).
    unfold obj_set. rewrite has_own_find, (find_last o k init Hf).
    apply obj_replace_last. exact Hf.
Qed.

Lemma summary_step_plain (summary : Summary) (record : Attendance) (w : World) d p :
  a_date record = VStr d -> a_prayer record = VStr p ->
  plain_in (w_proto w) d = true -> plain_in (w_proto w) p = true ->
  summary_step summary record w =
  let byPrayer := value_or summary d [] in
  let records := value_or byPrayer p [] in
  (Ok (obj_set summary d (obj_set byPrayer p (push records record))), w).
Proof.
  intros Ed Ep Hd Hp. unfold summary_step. rewrite Ed, Ep. cbn [key_of]. cbv zeta.
  destruct (ensure_plain (w_proto w) summary d [] Hd) as [G1 | (M1 & G1 & S1)];
    [rewrite !G1 | rewrite !M1, !G1]; cbv iota beta;
    (destruct (ensure_plain (w_proto w) (value_or summary d []) p [] Hp)
       as [G2 | (M2 & G2 & S2)];
     [rewrite !G2 | rewrite !M2, !G2]); cbv iota beta;
    rewrite ?S1, ?S2; reflexivity.
Qed.

Lemma grouped_as_table (l : list Attendance) :
  grouped_by_date_then_prayer l =
  tabulate (fun d => group_by (fun a => text (a_prayer a))
                              (filter (fun a => text (a_date a) =? d) l))
           (first_appearances (map (fun a => text (a_date a)) l)).
Proof.
  unfold grouped_by_date_then_prayer, group_by at 2, tabulate.
  rewrite map_map. reflexivity.
Qed.

Lemma summary_step_groups (l : list Attendance) (record : Attendance) (w : World) d p :
  a_date record = VStr d -> a_prayer record = VStr p ->
  plain_in (w_proto w) d = true -> plain_in (w_proto w) p = true ->
  summary_step (grouped_by_date_then_prayer l) record w =
  (Ok (grouped_by_date_then_prayer (l ++ [record])), w).
Proof.
  intros Ed Ep Hd Hp. rewrite (summary_step_plain _ _ _ d p Ed Ep Hd Hp). cbv zeta.
  f_equal. f_equal.
  pose proof (plain_in_not_index _ _ Hd) as Id.
  pose proof (plain_in_not_index _ _ Hp) as Ip.
  assert (Kd : text (a_date record) = d) by (rewrite Ed; reflexivity).
  assert (Kp : text (a_prayer record) = p) by (rewrite Ep; reflexivity).
  rewrite !grouped_as_table, value_or_tabulate.
  set (ld := filter (fun a => text (a_date a) =? d) l).
  set (date := fun a => text (a_date a)).
  set (prayer := fun a => text (a_prayer a)).
  assert (B : (if existsb (String.eqb d) (first_appearances (map date l))
               then group_by prayer ld else []) = group_by prayer ld).
  { destruct (existsb _ _) eqn:X; [reflexivity|].
    assert (E : ld = []); [|rewrite E; reflexivity].
    apply filter_none. intros a Ha. apply String.eqb_neq. intros Ea.
    assert (In d (first_appearances (map date l))).
    { apply first_appearances_In. rewrite <- Ea. apply (in_map date). exact Ha. }
    apply existsb_eqb_In in H. congruence. }
  rewrite B.
  assert (G : group_by prayer (ld ++ [record]) =
              obj_set (group_by prayer ld) p (push (value_or (group_by prayer ld) p []) record)).
  { rewrite <- Kp. apply (group_by_snoc prayer ld record). unfold prayer. rewrite Kp.
    exact Ip. }
  rewrite <- G.
  rewrite obj_set_tabulate by exact Id.
  replace (map date (l ++ [record])) with (map date l ++ [d])
    by (rewrite map_app; cbn [map]; unfold date; rewrite Kd; reflexivity).
  apply tabulate_ext. intros k Hk.
  rewrite filter_app. cbn [filter]. rewrite Kd, (String.eqb_sym k).
  destruct (d =? k) eqn:E.
  - apply String.eqb_eq in E. subst k. reflexivity.
  - rewrite app_nil_r. reflexivity.
Qed.

Lemma forEach_summary_groups (rest seen : list Attendance) (w : World) :
  (forall a, In a rest ->
             exists d p, a_date a = VStr d /\ a_prayer a = VStr p /\
                         plain_in (w_proto w) d = true /\ plain_in (w_proto w) p = true) ->
  forEach_summary rest (grouped_by_date_then_prayer seen) w =
  (Ok (grouped_by_date_then_prayer (seen ++ rest)), w).
Proof.
  revert seen. induction rest as [|record t IH]; intros seen H; cbn [forEach_summary].
  - rewrite app_nil_r. reflexivity.
  - destruct (H record (or_introl eq_refl)) as (d & p & Ed & Ep & Hd & Hp).
    unfold bind. rewrite (summary_step_groups seen record w d p Ed Ep Hd Hp).
    rewrite IH by (intros a Ha; apply H; right; exact Ha).
    rewrite <- app_assoc. reflexivity.
Qed.

(** C5.  When the dates and prayers of the filtered records are strings that
    are not array indices and that no object inherits, be it from the
    language or from an earlier summary, GET /api/summary answers 200 with the
    records grouped by date in the order in which the dates first appear, then
    by prayer in the same way, each group in the original order of its
    records, and changes nothing but a missing data file. *)
Theorem summary_groups_in_order (q : SummaryQuery) (w : World) :
  let l := filter_if (read (w_proto w) "className" (sq_className q)) a_className
             (filter_if (read (w_proto w) "date" (sq_date q)) a_date
                (attendance (loaded w))) in
  (forall a, In a l ->
             exists d p, a_date a = VStr d /\ a_prayer a = VStr p /\
                         plain_in (w_proto w) d = true /\ plain_in (w_proto w) p = true) ->
  get_summary q w =
  (Ok (mkResponse 200 (BSummary (grouped_by_date_then_prayer l))), after_read w).
Proof.
  intros l H. unfold get_summary. apply handler_steps.
  erewrite bind_steps by apply readData_steps.
  destruct (after_read_frame w) as (_ & _ & _ & _ & _ & Hproto & _).
  unfold gets at 1. unfold bind at 1. rewrite Hproto. fold l.
  unfold bind.
  assert (G := forEach_summary_groups l [] (after_read w)).
  rewrite Hproto in G. specialize (G H).
  change (grouped_by_date_then_prayer []) with ([] : Summary) in G.
  cbn [app] in G. rewrite G. reflexivity.
Qed.

(** ** Failed writes *)

(** C6.  A mutation that passes validation on a disk that fails the write
    is answered 200 with the body it has when the write succeeds (the record
    as upserted, or the success flag), hands [writeData] the same document and
    broadcasts the same event to the same sockets.  Only the file differs: it
    is as it was when the write is refused, and no longer parses, so that the
    next request reads the empty document, when the write tears it. *)
Theorem failed_write_is_not_surfaced (m : Mutation) (w : World) :
  invalid (w_proto w) m = false -> w_disk w <> Writes ->
  exists w' w2,
    mutate m w = (Ok (mkResponse 200 (answer m w)), w') /\
    w_calls w' = w_calls w ++ [CWriteData (handed m w); CBroadcast (event m w)] /\
    w_clients w' = map (deliver (JSON_stringify (event m w))) (w_clients w) /\
    w_file w' = match w_disk w with Tears => Corrupt | _ => w_file w end /\
    loaded w' = match w_disk w with Tears => mkDocument [] [] [] | _ => loaded w end /\
    mutate m (set_disk Writes w) = (Ok (mkResponse 200 (answer m w)), w2) /\
    w_calls w2 = w_calls w' /\ w_clients w2 = w_clients w' /\
    w_file w2 = FileOf (handed m w).
Proof.
  intros Hvalid Hdisk.
  destruct (mutate_steps m w Hvalid) as (n & Hrun).
  destruct (mutate_steps m (set_disk Writes w) Hvalid) as (n2 & Hrun2).
  destruct (mutation_frame (event m w) (handed m w) n w)
    as (Hcalls & _ & Hfile & Hcs & _).
  destruct (mutation_frame (event m (set_disk Writes w)) (handed m (set_disk Writes w))
              n2 (set_disk Writes w))
    as (Hcalls2 & _ & Hfile2 & Hcs2 & _).
  cbv zeta in *.
  eexists _, _.
  split; [exact Hrun|]. split; [exact Hcalls|]. split; [exact Hcs|].
  split; [rewrite Hfile; unfold file_after; destruct (w_disk w); congruence|].
  split; [rewrite loaded_after_write; destruct (w_disk w); congruence|].
  split; [exact Hrun2|].
  split; [rewrite Hcalls, Hcalls2; reflexivity|].
  split; [rewrite Hcs, Hcs2; reflexivity|].
  rewrite Hfile2. reflexivity.
Qed.

(** ** Validation *)

Lemma read_inherited (proto : list string) (name : string) :
  In name proto -> read proto name VUndefined = VRef.
Proof.
  intros H. unfold read.
  destruct (existsb (String.eqb name) proto) eqn:E; [reflexivity|].
  apply existsb_eqb_In in H. congruence.
Qed.

(** C7.  Once a summary has put [status] on [Object.prototype], an
    attendance payload that carries no [status] but the six other required
    members passes the check of POST /api/attendance: the member read from the
    payload is the array the summary left.  The record is stored with it,
    handed to [writeData], broadcast and returned with status 200. *)
Theorem missing_status_is_inherited (req : AttendanceBody) (w : World) :
  In "status" (w_proto w) -> ab_status req = VUndefined ->
  truthy (ab_id req) = true -> truthy (ab_studentId req) = true ->
  truthy (ab_studentName req) = true -> truthy (ab_className req) = true ->
  truthy (ab_prayer req) = true -> truthy (ab_date req) = true ->
  exists stored w',
    post_attendance req w = (Ok (mkResponse 200 (BAttendance (Some stored))), w') /\
    a_id stored = ab_id req /\ a_status stored = VRef /\
    In stored (attendance (handed (UpsertAttendance req) w)) /\
    w_calls w' = w_calls w ++
      [CWriteData (handed (UpsertAttendance req) w);
       CBroadcast (event (UpsertAttendance req) w)] /\
    w_file w' = file_after (handed (UpsertAttendance req) w) w.
Proof.
  intros Hin Hstatus Hid Hsid Hsname Hclass Hprayer Hdate.
  assert (Hvalid : invalid (w_proto w) (UpsertAttendance req) = false).
  { cbn [invalid]. rewrite Hstatus, (read_inherited _ _ Hin).
    rewrite !read_own by assumption. unfold falsy.
    rewrite Hid, Hsid, Hsname, Hclass, Hprayer, Hdate. reflexivity. }
  destruct (mutate_steps (UpsertAttendance req) w Hvalid) as (n & Hrun).
  destruct (mutation_frame (event (UpsertAttendance req) w)
              (handed (UpsertAttendance req) w) n w) as (Hcalls & _ & Hfile & _).
  cbv zeta in *. cbn [mutate answer] in Hrun.
  eexists _, _. split; [exact Hrun|].
  split; [unfold attendance_of; cbn [a_id]; apply read_own, Hid|].
  split; [unfold attendance_of; cbn [a_status]; rewrite Hstatus; apply read_inherited, Hin|].
  split; [|split; assumption].
  cbn [handed attendance set_attendance].
  clear. induction (attendance (loaded w)) as [|y t IH]; cbn; [auto|].
  destruct (strict_eq _ _); cbn; auto.
Qed.

(** X19.  While [Object.prototype] carries none of the members a POST
    handler requires, a payload that lacks one of them, or carries it as an
    empty string, [null], [false] or 0, is answered 400 with the text naming
    the requirement, and nothing else happens: no write, no broadcast, no
    frame, no clock reading, the document as read. *)
Theorem unread_member_is_refused (m : Mutation) (w : World) :
  invalid [] m = true ->
  (forall k, In k (required m) -> existsb (String.eqb k) (w_proto w) = false) ->
  exists w',
    mutate m w = (Ok (mkResponse 400 (BError (requirement m))), w') /\
    w_calls w' = w_calls w /\ w_clients w' = w_clients w /\
    w_tick w' = w_tick w /\ w_proto w' = w_proto w /\ w_disk w' = w_disk w /\
    loaded w' = loaded w.
Proof.
  intros H Hclean.
  assert (Hread : forall k v, In k (required m) -> read (w_proto w) k v = read [] k v).
  { intros k v Hk. unfold read. rewrite (Hclean k Hk). reflexivity. }
  assert (H' : invalid (w_proto w) m = true).
  { rewrite <- H. destruct m; cbn [invalid]; try reflexivity;
      rewrite !Hread by (cbn; tauto); reflexivity. }
  exists (after_read w). split; [apply mutate_rejects, H'|].
  destruct (after_read_frame w) as (Hd & Hcs & _ & Ht & Hc & Hp & Hl).
  repeat split; assumption.
Qed.

(** ** Further properties of the process in full *)

Lemma reachable_after_requests (rs : list Request) (w : World) :
  reachable w -> reachable (after_requests rs w).
Proof.
  revert w. induction rs as [|r t IH]; intros w H; cbn [Node.after_requests]; [exact H|].
  apply IH. apply reach_serve. exact H.
Qed.


Lemma summary_step_same (summary : Summary) (record : Attendance) (w : World) :
  a_date record <> VStr "__proto__" -> snd (summary_step summary record w) = w.
Proof.
  intros Hd. unfold summary_step.
  destruct (a_date record) as [| | b | n | d |] eqn:Ed; try reflexivity. cbn [key_of].
  destruct (key_of (a_prayer record)) as [p | |]; try reflexivity.
  match goal with
  | |- context [match obj_get ?pr ?s d with Own _ => _ | InheritedArray => _
                | InheritedBuiltin => _ | Missing => _ end] =>
      destruct (obj_get pr s d) as [byPrayer | | |]
  end; try reflexivity.
  - match goal with
    | |- context [match obj_get ?pr ?s p with Own _ => _ | InheritedArray => _
                  | InheritedBuiltin => _ | Missing => _ end] =>
        destruct (obj_get pr s p)
    end; reflexivity.
  - destruct (d =? "__proto__")%string eqn:E; [|reflexivity].
    apply String.eqb_eq in E. congruence.
Qed.

Lemma forEach_summary_same (l : list Attendance) (summary : Summary) (w : World) :
  (forall a, In a l -> a_date a <> VStr "__proto__") ->
  snd (forEach_summary l summary w) = w.
Proof.
  revert summary. induction l as [|record t IH]; intros summary H; cbn [forEach_summary];
    [reflexivity|].
  unfold bind.
  pose proof (summary_step_same summary record w (H record (or_introl eq_refl))) as E.
  destruct (summary_step summary record w) as [[s1 | e |] w1]; cbn [snd] in E; subst w1;
    [|reflexivity|reflexivity].
  apply IH. intros a Ha. apply H. right. exact Ha.
Qed.

(** X4.  The GET routes only read.  The four listings leave the process as
    [readData] leaves it: nothing written or broadcast, no frame, no clock
    reading, [Object.prototype] and the document as they were.  The summary
    leaves everything but [Object.prototype] so, and [Object.prototype] as
    well when the dates of the stored records are strings other than
    [__proto__]. *)
Theorem reads_only_read (r : Request) (w : World) :
  w_calls (after_read w) = w_calls w /\ w_clients (after_read w) = w_clients w /\
  w_tick (after_read w) = w_tick w /\ w_proto (after_read w) = w_proto w /\
  loaded (after_read w) = loaded w /\
  match r with
  | Mutate _ => True
  | Summarize q =>
      set_proto (w_proto w) (snd (serve r w)) = after_read w /\
      ((forall a, In a (attendance (loaded w)) ->
                  exists d, a_date a = VStr d /\ d <> "__proto__") ->
       snd (serve r w) = after_read w)
  | _ => snd (serve r w) = after_read w
  end.
Proof.
  destruct (after_read_frame w) as (_ & Hcs & _ & Ht & Hc & Hp & Hl).
  repeat (split; [assumption|]).
  destruct r as [m | | | className | q | q]; cbn [Node.serve].
  - exact I.
  - rewrite get_classes_steps. reflexivity.
  - rewrite get_students_steps. reflexivity.
  - rewrite get_students_class_steps. reflexivity.
  - rewrite get_attendance_steps. reflexivity.
  - split.
    + destruct (get_summary_frame q w) as (added & ->).
      rewrite <- Hp. destruct (after_read w); reflexivity.
    + intros H. unfold get_summary, handler, try_catch.
      unfold bind at 1. rewrite readData_steps.
      unfold gets at 1. unfold bind at 1. unfold bind.
      match goal with
      | |- context [forEach_summary ?l ?s ?w0] =>
          assert (E : snd (forEach_summary l s w0) = w0);
          [| destruct (forEach_summary l s w0) as [[s1 | e |] w1]; exact E]
      end.
      apply forEach_summary_same. intros a Ha.
      assert (Hin : In a (attendance (loaded w))).
      { unfold filter_if in Ha.
        repeat match type of Ha with
               | In _ (if ?c then _ else _) => destruct c
               | In _ (filter _ _) => apply filter_In in Ha; destruct Ha as [Ha _]
               end; exact Ha. }
      destruct (H a Hin) as (d & Ed & Hd). rewrite Ed. congruence.
Qed.

(** X7.  [writeData] never throws.  On a disk that writes it returns [true] and
    the next [readData] returns the document written; on a disk that refuses
    it returns [false] and [readData] returns what it returned before; on a
    disk that tears the file it returns [false] and [readData] returns the
    empty document. *)
Theorem writeData_then_readData (d : Document) (w : World) :
  exists w1,
    writeData d w =
      (Ok (match w_disk w with Writes => true | _ => false end), w1) /\
    w_calls w1 = w_calls w ++ [CWriteData d] /\
    fst (readData w1) =
      Ok (match w_disk w with
          | Writes => d
          | Refuses => loaded w
          | Tears => mkDocument [] [] []
          end).
Proof.
  exists (after_write d w). split; [apply writeData_steps|].
  rewrite readData_steps. cbn [fst].
  destruct w as [f k cs clk n calls p]. destruct k; cbn; auto.
Qed.

(** X8.  When data.json does not parse, the handlers carry on with the empty
    document: a mutation that passes validation, on a disk that writes,
    replaces the file by a document that holds the one record just upserted
    and nothing else, or nothing at all after a delete. *)
Theorem unreadable_file_is_replaced (m : Mutation) (w : World) :
  w_file w = Corrupt -> w_disk w = Writes -> invalid (w_proto w) m = false ->
  exists w',
    mutate m w = (Ok (mkResponse 200 (answer m w)), w') /\
    w_file w' = FileOf (handed m w) /\
    handed m w =
      match m with
      | UpsertClass req =>
          mkDocument [stamp (read (w_proto w) "id" (cb_id req))
                            (read (w_proto w) "name" (cb_name req)) w] [] []
      | UpsertStudent req => mkDocument [] [student_of req w] []
      | UpsertAttendance req => mkDocument [] [] [attendance_of req w]
      | _ => mkDocument [] [] []
      end.
Proof.
  intros Hfile Hdisk Hvalid.
  destruct (mutate_steps m w Hvalid) as (n & Hrun).
  destruct (mutation_frame (event m w) (handed m w) n w) as (_ & _ & Hf & _).
  cbv zeta in Hf. unfold file_after in Hf. rewrite Hdisk in Hf.
  eexists. split; [exact Hrun|]. split; [exact Hf|].
  destruct m; unfold handed, class_of, loaded; rewrite Hfile; reflexivity.
Qed.

(** X18.  DELETE /api/attendance/:id hands [writeData] the classes and students as
    read and the attendance records whose id is not the string [id], in
    their order; it answers success and broadcasts the event carrying [id]
    whether or not a record had it.  The file holds that document when the
    disk writes, is untouched when it refuses and unreadable when it tears. *)
Theorem delete_attendance_removes_by_id (id : string) (w : World) :
  let w' := snd (delete_attendance id w) in
  let d' := mkDocument (classes (loaded w)) (students (loaded w))
              (filter (fun a => negb (strict_eq (a_id a) (VStr id)))
                      (attendance (loaded w))) in
  fst (delete_attendance id w) = Ok (mkResponse 200 BSuccess) /\
  w_calls w' = w_calls w ++
    [CWriteData d'; CBroadcast (Event "attendance_deleted" (DId id) "deleted")] /\
  w_clients w' =
    map (deliver (JSON_stringify (Event "attendance_deleted" (DId id) "deleted")))
        (w_clients w) /\
  w_file w' = file_after d' w /\
  (forall a, In a (attendance d') <->
             In a (attendance (loaded w)) /\ a_id a <> VStr id).
Proof.
  cbv zeta. rewrite delete_attendance_steps. cbn [fst snd].
  destruct (mutation_frame (event (DeleteAttendance id) w)
              (handed (DeleteAttendance id) w) (w_tick w) w)
    as (Hcalls & _ & Hfile & Hcs & _).
  cbv zeta in *.
  split; [reflexivity|]. split; [exact Hcalls|]. split; [exact Hcs|].
  split; [exact Hfile|].
  intros a. cbn [attendance]. rewrite filter_In, negb_true_iff.
  split; intros [Hin H]; (split; [exact Hin|]).
  - intros E. rewrite E in H. cbn in H. rewrite String.eqb_refl in H. discriminate.
  - apply strict_eq_false; [reflexivity | exact H].
Qed.

Lemma mutate_stored (m : Mutation) (w : World) :
  invalid (w_proto w) m = false -> w_disk w = Writes ->
  loaded (snd (mutate m w)) = handed m w /\
  w_disk (snd (mutate m w)) = Writes /\
  w_proto (snd (mutate m w)) = w_proto w.
Proof.
  intros Hvalid Hdisk. destruct (mutate_steps m w Hvalid) as (n & ->). cbn [snd].
  destruct (mutation_frame (event m w) (handed m w) n w) as (_ & Hd & _ & _ & _ & _ & Hp).
  cbv zeta in *. rewrite loaded_after_write, Hd, Hp, Hdisk. auto.
Qed.

Lemma filter_upsert_out {A : Type} (p : A -> bool) (x : A) (l : list A) :
  p x = true ->
  filter (fun y => negb (p y)) (upsert p x l) = filter (fun y => negb (p y)) l /\
  find p (upsert p x l) = Some x.
Proof.
  intros Hx. induction l as [|y t [IH1 IH2]]; cbn.
  - rewrite Hx. auto.
  - destruct (p y) eqn:Hy; cbn; rewrite ?Hx, ?Hy; cbn; auto.
    rewrite IH1. auto.
Qed.

Lemma class_of_id (req : ClassBody) (w : World) :
  c_id (class_of req w) = read (w_proto w) "id" (cb_id req) /\
  c_name (class_of req w) = read (w_proto w) "name" (cb_name req).
Proof.
  unfold class_of. destruct (find _ _); unfold restamp, stamp;
    [destruct (truthy _)|]; auto.
Qed.

Lemma document_parts (d : Document) :
  mkDocument (classes d) (students d) (attendance d) = d.
Proof. destruct d; reflexivity. Qed.

(** X12.  On a disk that writes, upserting an attendance record under a string id
    the document does not hold and then deleting that id gives back the
    document as it was.  For a student the classes and students come back as
    they were, while the delete also removes every attendance record whose
    [studentId] is that id. *)
Theorem upsert_then_delete_restores (id : string) (w : World) :
  w_disk w = Writes ->
  (forall req,
      ab_id req = VStr id ->
      invalid (w_proto w) (UpsertAttendance req) = false ->
      (forall a, In a (attendance (loaded w)) -> a_id a <> VStr id) ->
      loaded (after_requests
                [Mutate (UpsertAttendance req); Mutate (DeleteAttendance id)] w) =
      loaded w) /\
  (forall req,
      sb_id req = VStr id ->
      invalid (w_proto w) (UpsertStudent req) = false ->
      (forall s, In s (students (loaded w)) -> s_id s <> VStr id) ->
      loaded (after_requests
                [Mutate (UpsertStudent req); Mutate (DeleteStudent id)] w) =
      set_attendance
        (filter (fun a => negb (strict_eq (a_studentId a) (VStr id)))
                (attendance (loaded w)))
        (loaded w)).
Proof.
  intros Hdisk. split; intros req Hid Hvalid Hfresh; cbn [Node.after_requests Node.serve].
  - destruct (mutate_stored _ w Hvalid Hdisk) as (Hl & Hd & _).
    destruct (mutate_stored (DeleteAttendance id) _ eq_refl Hd) as (-> & _).
    cbn [handed]. rewrite Hl. cbn [handed]. rewrite Hid. cbn [read].
    cbn [attendance set_attendance classes students].
    destruct (filter_upsert_out (fun a => strict_eq (a_id a) (VStr id))
                (attendance_of req w) (attendance (loaded w))) as [-> _].
    { unfold attendance_of. cbn [a_id]. rewrite Hid. cbn. apply String.eqb_refl. }
    rewrite filter_all.
    + unfold set_attendance. cbn [classes students attendance]. apply document_parts.
    + intros a Ha. apply negb_true_iff, strict_eq_false; [reflexivity | auto].
  - destruct (mutate_stored _ w Hvalid Hdisk) as (Hl & Hd & _).
    destruct (mutate_stored (DeleteStudent id) _ eq_refl Hd) as (-> & _).
    cbn [handed]. rewrite Hl. cbn [handed]. rewrite Hid. cbn [read].
    cbn [attendance set_attendance set_students classes students].
    destruct (filter_upsert_out (fun s => strict_eq (s_id s) (VStr id))
                (student_of req w) (students (loaded w))) as [-> _].
    { unfold student_of. cbn [s_id]. rewrite Hid. cbn. apply String.eqb_refl. }
    rewrite (filter_all (fun s => negb (strict_eq (s_id s) (VStr id)))); [reflexivity|].
    intros s Hs. apply negb_true_iff, strict_eq_false; [reflexivity | auto].
Qed.

Lemma strict_eq_differ (a b : value) : a <> b -> strict_eq a b = false.
Proof.
  intros Hne. destruct (strict_eq a b) eqn:H; [|reflexivity].
  apply strict_eq_true in H. contradiction.
Qed.


(** ** The summary, whatever the order of its keys *)

Lemma obj_get_unshadowed {V : Type} (proto : list string) (o : JsObj V) (k : string)
      (init : V) :
  inherited k = false -> existsb (String.eqb k) proto = false ->
  (obj_get proto o k = Own (value_or o k init)) \/
  (obj_get proto o k = Missing /\
   obj_get proto (obj_set o k init) k = Own (value_or o k init)).
Proof.
  intros Hi Hp. unfold obj_get, value_or.
  rewrite find_obj_set_same.
  destruct (find (fun kv => fst kv =? k) o) as [kv|]; [left; reflexivity|].
  right. rewrite Hi, Hp. repeat split.
Qed.

Lemma lookup_after_push (summary s1 : Summary) (b1 : JsObj (list Attendance))
      (d0 p0 : string) (record : Attendance) :
  let b := value_or summary d0 [] in
  (forall k' dflt, k' <> d0 -> value_or s1 k' dflt = value_or summary k' dflt) ->
  (forall k', k' <> d0 -> has_own s1 k' = has_own summary k') ->
  (forall k' dflt, k' <> p0 -> value_or b1 k' dflt = value_or b k' dflt) ->
  (forall k', k' <> p0 -> has_own b1 k' = has_own b k') ->
  let summary' := obj_set s1 d0 (obj_set b1 p0 (push (value_or b p0 []) record)) in
  (forall d p,
      records_of summary' d p =
      if (d =? d0) && (p =? p0)
      then records_of summary d p ++ [record]
      else records_of summary d p) /\
  (forall d, has_own summary' d = (d =? d0) || has_own summary d) /\
  (forall d p,
      has_own (value_or summary' d []) p =
      ((d =? d0) && (p =? p0)) || has_own (value_or summary d []) p).
Proof.
  intros b V1 O1 V2 O2 summary'. unfold summary', records_of. repeat apply conj.
  - intros d p. rewrite value_or_set.
    destruct (String.eqb_spec d d0) as [-> | N]; cbn [andb].
    + fold b. rewrite value_or_set. unfold push.
      destruct (String.eqb_spec p p0) as [-> | N']; [reflexivity|].
      apply V2, N'.
    + rewrite (V1 d [] N). reflexivity.
  - intros d. rewrite has_own_set.
    destruct (String.eqb_spec d d0) as [-> | N]; [reflexivity|].
    cbn [orb]. apply O1, N.
  - intros d p. rewrite value_or_set.
    destruct (String.eqb_spec d d0) as [-> | N]; cbn [andb].
    + fold b. rewrite has_own_set.
      destruct (String.eqb_spec p p0) as [-> | N']; [reflexivity|].
      cbn [orb]. apply O2, N'.
    + rewrite (V1 d [] N). reflexivity.
Qed.

Lemma set_keeps_others {V : Type} (o : JsObj V) (k : string) (v : V) :
  (forall k' dflt, k' <> k -> value_or (obj_set o k v) k' dflt = value_or o k' dflt) /\
  (forall k', k' <> k -> has_own (obj_set o k v) k' = has_own o k').
Proof.
  split.
  - intros k' dflt N. rewrite value_or_set. apply String.eqb_neq in N. rewrite N.
    reflexivity.
  - intros k' N. rewrite has_own_set. apply String.eqb_neq in N. rewrite N. reflexivity.
Qed.

Lemma summary_step_holds (summary : Summary) (record : Attendance) (w : World) d0 p0 :
  a_date record = VStr d0 -> a_prayer record = VStr p0 ->
  inherited d0 = false -> existsb (String.eqb d0) (w_proto w) = false ->
  inherited p0 = false -> existsb (String.eqb p0) (w_proto w) = false ->
  exists summary',
    summary_step summary record w = (Ok summary', w) /\
    (forall d p,
        records_of summary' d p =
        if (d =? d0) && (p =? p0)
        then records_of summary d p ++ [record]
        else records_of summary d p) /\
    (forall d, has_own summary' d = (d =? d0) || has_own summary d) /\
    (forall d p,
        has_own (value_or summary' d []) p =
        ((d =? d0) && (p =? p0)) || has_own (value_or summary d []) p).
Proof.
  intros Ed Ep Hd Hdp Hp Hpp. unfold summary_step. rewrite Ed, Ep. cbn [key_of]. cbv zeta.
  set (b := value_or summary d0 []).
  destruct (obj_get_unshadowed (w_proto w) summary d0 [] Hd Hdp) as [G1 | (M1 & G1)];
    [rewrite !G1 | rewrite !M1, !G1]; cbv iota beta; fold b;
    (destruct (obj_get_unshadowed (w_proto w) b p0 [] Hp Hpp) as [G2 | (M2 & G2)];
     [rewrite !G2 | rewrite !M2, !G2]); cbv iota beta;
    eexists; (split; [reflexivity|]).
  - apply (lookup_after_push summary summary b d0 p0 record); auto.
  - apply (lookup_after_push summary summary (obj_set b p0 []) d0 p0 record); auto;
      apply set_keeps_others.
  - apply (lookup_after_push summary (obj_set summary d0 []) b d0 p0 record); auto;
      apply set_keeps_others.
  - apply (lookup_after_push summary (obj_set summary d0 []) (obj_set b p0 [])
             d0 p0 record); apply set_keeps_others.
Qed.

Lemma forEach_summary_holds (rest : list Attendance) (summary : Summary) (w : World) :
  (forall a, In a rest ->
             exists d p, a_date a = VStr d /\ a_prayer a = VStr p /\
                         inherited d = false /\ inherited p = false /\
                         existsb (String.eqb d) (w_proto w) = false /\
                         existsb (String.eqb p) (w_proto w) = false) ->
  exists summary',
    forEach_summary rest summary w = (Ok summary', w) /\
    (forall d p,
        records_of summary' d p =
        records_of summary d p
        ++ filter (fun a => strict_eq (a_date a) (VStr d) && strict_eq (a_prayer a) (VStr p))
                  rest) /\
    (forall d,
        has_own summary' d =
        has_own summary d || existsb (fun a => strict_eq (a_date a) (VStr d)) rest) /\
    (forall d p,
        has_own (value_or summary' d []) p =
        has_own (value_or summary d []) p
        || existsb (fun a => strict_eq (a_date a) (VStr d) && strict_eq (a_prayer a) (VStr p))
                   rest).
Proof.
  revert summary. induction rest as [|r t IH]; intros summary H; cbn [forEach_summary].
  - exists summary. split; [reflexivity|]. cbn [filter existsb].
    repeat split; intros; rewrite ?app_nil_r, ?orb_false_r; reflexivity.
  - destruct (H r (or_introl eq_refl)) as (d0 & p0 & Ed & Ep & Hd & Hp & Hdp & Hpp).
    destruct (summary_step_holds summary r w d0 p0 Ed Ep Hd Hdp Hp Hpp)
      as (s1 & Hs1 & R1 & D1 & P1).
    unfold bind. rewrite Hs1.
    destruct (IH s1 (fun a Ha => H a (or_intror Ha))) as (s2 & Hs2 & R2 & D2 & P2).
    exists s2. split; [exact Hs2|]. repeat split.
    + intros d p. rewrite R2, R1. cbn [filter]. rewrite Ed, Ep. cbn [strict_eq].
      rewrite (String.eqb_sym d0), (String.eqb_sym p0).
      destruct ((d =? d0) && (p =? p0)); [rewrite <- app_assoc|]; reflexivity.
    + intros d. rewrite D2, D1. cbn [existsb]. rewrite Ed. cbn [strict_eq].
      rewrite (String.eqb_sym d0).
      destruct (d =? d0), (has_own summary d); reflexivity.
    + intros d p. rewrite P2, P1. cbn [existsb]. rewrite Ed, Ep. cbn [strict_eq].
      rewrite (String.eqb_sym d0), (String.eqb_sym p0).
      destruct ((d =? d0) && (p =? p0)),
               (has_own (value_or summary d []) p); reflexivity.
Qed.

(** X16.  Whatever the order of its keys, the summary puts every record where it
    belongs.  When the dates and prayers of the filtered records are strings
    that no object inherits, from the language or from an earlier summary,
    GET /api/summary answers 200 with an object that holds, under each date
    and prayer, exactly the records with that date and prayer in their
    original order, has a date key exactly when some record carries the date,
    and under it a prayer key exactly when some record carries both.  Dates
    and prayers that are numerals are covered. *)
Theorem summary_holds_every_record (q : SummaryQuery) (w : World) :
  let l := filter_if (read (w_proto w) "className" (sq_className q)) a_className
             (filter_if (read (w_proto w) "date" (sq_date q)) a_date
                (attendance (loaded w))) in
  (forall a, In a l ->
             exists d p, a_date a = VStr d /\ a_prayer a = VStr p /\
                         inherited d = false /\ inherited p = false /\
                         existsb (String.eqb d) (w_proto w) = false /\
                         existsb (String.eqb p) (w_proto w) = false) ->
  exists s,
    get_summary q w = (Ok (mkResponse 200 (BSummary s)), after_read w) /\
    (forall d p,
        records_of s d p =
        filter (fun a => strict_eq (a_date a) (VStr d) && strict_eq (a_prayer a) (VStr p)) l) /\
    (forall d, has_own s d = existsb (fun a => strict_eq (a_date a) (VStr d)) l) /\
    (forall d p,
        has_own (value_or s d []) p =
        existsb (fun a => strict_eq (a_date a) (VStr d) && strict_eq (a_prayer a) (VStr p)) l).
Proof.
  intros l H.
  destruct (after_read_frame w) as (_ & _ & _ & _ & _ & Hproto & _).
  assert (H' := H). rewrite <- Hproto in H'.
  destruct (forEach_summary_holds l [] (after_read w) H') as (s & Hs & R & D & P).
  exists s. split.
  - unfold get_summary. apply handler_steps.
    erewrite bind_steps by apply readData_steps.
    unfold gets at 1. unfold bind at 1. rewrite Hproto. fold l.
    unfold bind. rewrite Hs. reflexivity.
  - repeat split; intros; rewrite ?R, ?D, ?P; reflexivity.
Qed.


(** X20.  An id that is an array or an object is never [===] the id of a
    stored class, its own stored copy included: POST /api/classes with such
    an id appends a class whatever the document holds, and announces it as
    created. *)
Theorem reference_id_is_appended (req : ClassBody) (w : World) :
  cb_id req = VRef -> truthy (cb_name req) = true ->
  exists new w',
    post_classes req w = (Ok (mkResponse 200 (BClass (Some new))), w') /\
    new = stamp VRef (cb_name req) w /\
    w_calls w' = w_calls w ++
      [CWriteData (set_classes (classes (loaded w) ++ [new]) (loaded w));
       CBroadcast (Event "class_updated" (DClass (Some new)) "created")] /\
    w_file w' = file_after (set_classes (classes (loaded w) ++ [new]) (loaded w)) w.
Proof.
  intros Hid Hname.
  assert (Hnone : forall c, In c (classes (loaded w)) ->
                            strict_eq (c_id c) (read (w_proto w) "id" (cb_id req)) = false).
  { intros c _. rewrite Hid. cbn [read]. destruct (c_id c); reflexivity. }
  assert (Hrid : truthy (read (w_proto w) "id" (cb_id req)) = true)
    by (rewrite Hid; reflexivity).
  assert (Hrname : truthy (read (w_proto w) "name" (cb_name req)) = true)
    by (rewrite read_own; assumption).
  rewrite (upsert_class_fresh req w Hrid Hrname Hnone). cbv zeta.
  destruct (stamps_after_read w) as (_ & Hst & _). rewrite Hst.
  rewrite Hid, (read_own _ _ _ Hname). cbn [read].
  eexists _, _. split; [reflexivity|]. split; [reflexivity|].
  match goal with
  | |- context [after_broadcast ?msg (after_write ?d (set_tick ?n (after_read w)))] =>
      destruct (mutation_frame msg d n w) as (Hcalls & _ & Hfile & _)
  end.
  cbv zeta in *. split; assumption.
Qed.

(** ** Summaries after a write on [Object.prototype] *)

Lemma summary_step_loses (seen : list string) (record : Attendance) (w : World) d p :
  a_date record = VStr d -> a_prayer record = VStr p ->
  plain_in (w_proto w) d = true -> existsb (String.eqb p) (w_proto w) = true ->
  summary_step (tabulate (fun _ => []) (first_appearances seen)) record w =
  (Ok (tabulate (fun _ => []) (first_appearances (seen ++ [d]))), w).
Proof.
  intros Ed Ep Hd Hp. unfold summary_step. rewrite Ed, Ep. cbn [key_of]. cbv zeta.
  cbv delta [JsObj Summary] in *.
  match goal with |- context [obj_get _ (tabulate ?g0 _) d] => set (g := g0) end.
  rewrite first_appearances_snoc.
  destruct (existsb (String.eqb d) seen) eqn:E.
  - assert (Hin : In d (first_appearances seen)).
    { apply first_appearances_In, existsb_eqb_In, E. }
    match goal with
    | |- context [obj_get ?pr (tabulate g ?ks) d] =>
        assert (G : obj_get pr (tabulate g ks) d = Own [])
    end.
    { unfold obj_get. rewrite (find_tabulate_present g _ d Hin). reflexivity. }
    rewrite !G. cbv iota beta.
    match goal with
    | |- context [obj_get ?pr ?s p] => assert (P : obj_get pr s p = InheritedArray)
    end.
    { unfold obj_get. cbn [find]. rewrite Hp. reflexivity. }
    rewrite !P. cbv iota beta. rewrite app_nil_r. reflexivity.
  - assert (Hout : ~ In d (first_appearances seen)).
    { rewrite first_appearances_In, <- existsb_eqb_In. congruence. }
    pose proof (find_tabulate_absent g _ d Hout) as Hf.
    match goal with
    | |- context [obj_get ?pr (tabulate g ?ks) d] =>
        assert (M1 : obj_get pr (tabulate g ks) d = Missing)
    end.
    { apply plain_in_missing; assumption. }
    rewrite !M1. cbv iota beta.
    match goal with
    | |- context [obj_get ?pr (obj_set ?s d ?v) d] =>
        assert (S1 : obj_set s d v = s ++ [(d, v)])
          by (apply obj_set_append; [apply (plain_in_not_index _ _ Hd) | exact Hf]);
        assert (G : obj_get pr (obj_set s d v) d = Own v)
          by (rewrite S1; unfold obj_get; rewrite (find_last _ d v Hf); reflexivity)
    end.
    rewrite !G. cbv iota beta.
    match goal with
    | |- context [obj_get ?pr ?s p] => assert (P : obj_get pr s p = InheritedArray)
    end.
    { unfold obj_get. cbn [find]. rewrite Hp. reflexivity. }
    rewrite !P. cbv iota beta. rewrite S1.
    unfold tabulate. rewrite map_app. reflexivity.
Qed.

Lemma forEach_summary_loses (rest : list Attendance) (seen : list string) (w : World) :
  (forall a, In a rest ->
             exists d p, a_date a = VStr d /\ a_prayer a = VStr p /\
                         plain_in (w_proto w) d = true /\
                         existsb (String.eqb p) (w_proto w) = true) ->
  forEach_summary rest (tabulate (fun _ => []) (first_appearances seen)) w =
  (Ok (tabulate (fun _ => [])
         (first_appearances (seen ++ map (fun a => text (a_date a)) rest))), w).
Proof.
  revert seen. induction rest as [|record t IH]; intros seen H; cbn [forEach_summary map].
  - rewrite app_nil_r. reflexivity.
  - destruct (H record (or_introl eq_refl)) as (d & p & Ed & Ep & Hd & Hp).
    unfold bind. rewrite (summary_step_loses seen record w d p Ed Ep Hd Hp).
    rewrite IH by (intros a Ha; apply H; right; exact Ha).
    rewrite Ed. cbn [text]. rewrite <- app_assoc. reflexivity.
Qed.

(** X21.  Once a summary has put the name of a prayer on [Object.prototype],
    the records under that prayer are pushed onto the array it holds there
    and not into the summary: when every filtered record has such a prayer
    and a date that is a string, not an array index and not inherited,
    GET /api/summary answers 200 with the dates in order of first appearance
    and an empty object under each. *)
Theorem summary_loses_inherited_prayers (q : SummaryQuery) (w : World) :
  let l := filter_if (read (w_proto w) "className" (sq_className q)) a_className
             (filter_if (read (w_proto w) "date" (sq_date q)) a_date
                (attendance (loaded w))) in
  (forall a, In a l ->
             exists d p, a_date a = VStr d /\ a_prayer a = VStr p /\
                         plain_in (w_proto w) d = true /\
                         existsb (String.eqb p) (w_proto w) = true) ->
  get_summary q w =
  (Ok (mkResponse 200
         (BSummary (map (fun d => (d, []))
                        (first_appearances (map (fun a => text (a_date a)) l))))),
   after_read w).
Proof.
  intros l H. unfold get_summary. apply handler_steps.
  erewrite bind_steps by apply readData_steps.
  destruct (after_read_frame w) as (_ & _ & _ & _ & _ & Hproto & _).
  unfold gets at 1. unfold bind at 1. rewrite Hproto. fold l.
  assert (G := forEach_summary_loses l [] (after_read w)).
  rewrite Hproto in G. specialize (G H).
  change (tabulate (fun _ => []) (first_appearances [])) with ([] : Summary) in G.
  cbn [app] in G. unfold bind. rewrite G. reflexivity.
Qed.

End Facts.

(** ** Examples *)

Lemma sample_clock_stamps : forall k, sample_clock k <> "".
Proof. intros [|[|[|k]]]; discriminate. Qed.

(** Grade 5 renamed where it stands, then renamed again. *)
Lemma class_upsert_in_place_witness :
  let w := world_of (mkDocument [grade5; grade6] [] []) Writes [] in
  let req := mkClassBody (VStr "c1") (VStr "Grade 5 B") in
  primitive (cb_id req) = true /\ truthy (cb_id req) = true /\
  truthy (cb_name req) = true /\
  exists new d' w' action,
    post_classes any_stringify req w = (Ok (mkResponse 200 (BClass (Some new))), w') /\
    classes d' = [new; grade6] /\
    w_file w' = FileOf d' /\
    c_name new = VStr "Grade 5 B" /\
    c_createdAt new = c_createdAt grade5 /\
    c_updatedAt new = VStr "2024-03-01T08:00:00.000Z" /\
    action = "updated".
Proof.
  intros w req.
  assert (T : tidy (loaded w)).
  { unfold tidy. cbn. intuition (subst; reflexivity). }
  repeat apply conj; [reflexivity | reflexivity | reflexivity |].
  destruct (class_upsert_in_place any_stringify req w sample_clock_stamps T
              eq_refl eq_refl eq_refl)
    as (new & d' & w' & action & Hrun & _ & Hfile & _ & _ & Hname & _ & _ & Hfound & _).
  destruct (Hfound [] grade5 [grade6] eq_refl eq_refl) as (Hc & Hcr & Hup & Ha).
  exists new, d', w', action. repeat apply conj; auto.
Defined.

(** The three records of the specification's example. *)
Lemma summary_groups_in_order_witness :
  let rec1 := taken "a1" "2024-01-01" "fajr" in
  let rec2 := taken "a2" "2024-01-01" "fajr" in
  let rec3 := taken "a3" "2024-01-02" "dhuhr" in
  let w := world_of (mkDocument [] [] [rec1; rec2; rec3]) Writes [] in
  (forall a, In a [rec1; rec2; rec3] ->
             exists d p, a_date a = VStr d /\ a_prayer a = VStr p /\
                         plain_in (w_proto w) d = true /\ plain_in (w_proto w) p = true) /\
  get_summary no_filter w =
  (Ok (mkResponse 200
         (BSummary [("2024-01-01", [("fajr", [rec1; rec2])]);
                    ("2024-01-02", [("dhuhr", [rec3])])])),
   w).
Proof.
  intros rec1 rec2 rec3 w.
  assert (P : forall a, In a [rec1; rec2; rec3] ->
             exists d p, a_date a = VStr d /\ a_prayer a = VStr p /\
                         plain_in (w_proto w) d = true /\ plain_in (w_proto w) p = true).
  { intros a [<- | [<- | [<- | []]]]; eexists _, _; repeat split. }
  split; [exact P|].
  rewrite (summary_groups_in_order no_filter w P). reflexivity.
Defined.

(** C5, as stated, fails on dates that are numerals: the summary lists
    20240101 before 20240102 although 20240102 appears first. *)
Lemma summary_orders_numeral_dates :
  let later := taken "a1" "20240102" "fajr" in
  let earlier := taken "a2" "20240101" "fajr" in
  let w := world_of (mkDocument [] [] [later; earlier]) Writes [] in
  grouped_by_date_then_prayer [later; earlier] =
    [("20240102", [("fajr", [later])]); ("20240101", [("fajr", [earlier])])] /\
  get_summary no_filter w =
  (Ok (mkResponse 200
         (BSummary [("20240101", [("fajr", [earlier])]);
                    ("20240102", [("fajr", [later])])])),
   w).
Proof. split; reflexivity. Qed.

(** An attendance upsert against a disk that refuses the write. *)
Lemma failed_write_is_not_surfaced_witness :
  let w := world_of (mkDocument [grade5] [] [taken "a1" "2024-01-01" "fajr"]) Refuses
                    [mkSocket 1 1 []] in
  let m := UpsertAttendance (mark "a9" "2024-01-03" "asr") in
  invalid (w_proto w) m = false /\ w_disk w = Refuses /\
  exists w',
    mutate any_stringify m w = (Ok (mkResponse 200 (answer m w)), w') /\
    w_file w' = w_file w /\
    w_calls w' = [CWriteData (handed m w); CBroadcast (event m w)] /\
    w_clients w' = [mkSocket 1 1 ["attendance_updated/created"]].
Proof.
  intros w m. split; [reflexivity|]. split; [reflexivity|].
  destruct (failed_write_is_not_surfaced any_stringify m w eq_refl)
    as (w' & w2 & Hrun & Hcalls & Hcs & Hfile & _); [discriminate|].
  exists w'. repeat apply conj; auto.
Defined.

(** C6, as stated, fails.  The write of the new record is refused, yet the
    request is answered 200 with the record and the event reaches the open
    socket; and when the write tears the file, the class the document held
    is gone from the next listing as well. *)
Lemma failed_write_still_answers_and_broadcasts :
  let d := mkDocument [grade5] [] [taken "a1" "2024-01-01" "fajr"] in
  let req := mark "a9" "2024-01-03" "asr" in
  let stored :=
    mkAttendance (VStr "a9") (VStr "s1") (VStr "Amal") (VStr "Grade 5") (VStr "asr")
      (VStr "2024-01-03") (VStr "present") VNull
      (VStr "2024-03-01T08:00:00.000Z") (VStr "2024-03-01T08:00:00.001Z") in
  let announced := Event "attendance_updated" (DAttendance (Some stored)) "created" in
  (exists w',
      post_attendance any_stringify req (world_of d Refuses [mkSocket 1 1 []]) =
        (Ok (mkResponse 200 (BAttendance (Some stored))), w') /\
      w_file w' = FileOf d /\
      w_calls w' =
        [CWriteData (mkDocument [grade5] [] [taken "a1" "2024-01-01" "fajr"; stored]);
         CBroadcast announced] /\
      w_clients w' = [mkSocket 1 1 [any_stringify announced]]) /\
  (exists w',
      post_attendance any_stringify req (world_of d Tears [mkSocket 1 1 []]) =
        (Ok (mkResponse 200 (BAttendance (Some stored))), w') /\
      w_file w' = Corrupt /\
      w_clients w' = [mkSocket 1 1 [any_stringify announced]] /\
      fst (get_classes w') = Ok (mkResponse 200 (BClasses []))).
Proof. split; eexists; repeat split. Qed.

(** The three requests that make C7 fail: a record dated [__proto__] under the
    prayer [status], a summary, then a payload without [status], which the
    process as started refuses. *)
Lemma missing_status_is_inherited_witness :
  let w0 := set_clients [mkSocket 1 1 []] fresh_world in
  let req := unmarked "a2" "2024-01-01" "fajr" in
  let w := after_requests any_stringify
             [Mutate (UpsertAttendance (mark "a1" "__proto__" "status"));
              Summarize no_filter] w0 in
  fst (post_attendance any_stringify req w0) =
    Ok (mkResponse 400
          (BError "id, studentId, studentName, className, prayer, date, and status are required")) /\
  w_proto w = ["status"] /\ ab_status req = VUndefined /\
  exists stored w',
    post_attendance any_stringify req w =
      (Ok (mkResponse 200 (BAttendance (Some stored))), w') /\
    a_status stored = VRef /\
    attendance (loaded w') = attendance (loaded w) ++ [stored] /\
    w_clients w' =
      [mkSocket 1 1 ["attendance_updated/created"; "attendance_updated/created"]].
Proof.
  intros w0 req w.
  split; [reflexivity|]. split; [reflexivity|]. split; [reflexivity|].
  destruct (missing_status_is_inherited any_stringify req w
              (or_introl eq_refl) eq_refl eq_refl eq_refl eq_refl eq_refl eq_refl eq_refl)
    as (stored & w' & Hrun & _ & Hst & _).
  exists stored, w'. split; [exact Hrun|]. split; [exact Hst|].
  pose proof (f_equal snd Hrun) as Ew. cbn [snd] in Ew.
  pose proof (f_equal fst Hrun) as Es. cbn [fst] in Es.
  assert (Es' : fst (post_attendance any_stringify req w) =
                Ok (mkResponse 200 (BAttendance (Some (attendance_of req w)))))
    by reflexivity.
  rewrite Es' in Es. injection Es as Es. subst stored. rewrite <- Ew.
  split; reflexivity.
Defined.

(** A payload without [status], on a process that has served no summary. *)
Lemma unread_member_is_refused_witness :
  let w := world_of (mkDocument [grade5] [] []) Writes [mkSocket 1 1 []] in
  let m := UpsertAttendance (unmarked "a2" "2024-01-01" "fajr") in
  invalid [] m = true /\ w_proto w = [] /\
  exists w',
    mutate any_stringify m w =
      (Ok (mkResponse 400
             (BError "id, studentId, studentName, className, prayer, date, and status are required")),
       w') /\
    w_calls w' = [] /\ w_clients w' = [mkSocket 1 1 []] /\
    loaded w' = mkDocument [grade5] [] [].
Proof.
  intros w m. split; [reflexivity|]. split; [reflexivity|].
  destruct (unread_member_is_refused any_stringify m w eq_refl (fun k _ => eq_refl))
    as (w' & Hrun & Hcalls & Hcs & _ & _ & _ & Hl).
  exists w'. repeat apply conj; auto.
Defined.


(** A class upserted over a data file that does not parse. *)
Lemma unreadable_file_is_replaced_witness :
  let w := mkWorld Corrupt Writes [] sample_clock 0 [] [] in
  let m := UpsertClass (mkClassBody (VStr "c1") (VStr "Grade 5")) in
  w_file w = Corrupt /\ w_disk w = Writes /\ invalid (w_proto w) m = false /\
  exists w',
    mutate any_stringify m w = (Ok (mkResponse 200 (answer m w)), w') /\
    w_file w' =
      FileOf (mkDocument
                [mkClass (VStr "c1") (VStr "Grade 5") (VStr "2024-03-01T08:00:00.000Z")
                         (VStr "2024-03-01T08:00:00.001Z")] [] []).
Proof.
  intros w m. repeat apply conj; [reflexivity | reflexivity | reflexivity |].
  destruct (unreadable_file_is_replaced any_stringify m w eq_refl eq_refl eq_refl)
    as (w' & Hrun & Hfile & Hdoc).
  exists w'. split; [exact Hrun|]. rewrite Hfile, Hdoc. reflexivity.
Defined.

(** A record taken and deleted again. *)
Lemma upsert_then_delete_restores_witness :
  let d := mkDocument [grade5] [] [taken "a1" "2024-01-01" "fajr"] in
  let w := world_of d Writes [] in
  w_disk w = Writes /\
  loaded (after_requests any_stringify
            [Mutate (UpsertAttendance (mark "a9" "2024-01-03" "asr"));
             Mutate (DeleteAttendance "a9")] w) = d.
Proof.
  intros d w. split; [reflexivity|].
  apply (proj1 (upsert_then_delete_restores any_stringify "a9" w eq_refl)
           (mark "a9" "2024-01-03" "asr") eq_refl eq_refl).
  intros a [<- | []]. discriminate.
Defined.


(** Two records under numeral dates: the keys come out in ascending order,
    and each record is under its date and prayer. *)
Lemma summary_holds_every_record_witness :
  let later := taken "a1" "20240102" "fajr" in
  let earlier := taken "a2" "20240101" "fajr" in
  let w := world_of (mkDocument [] [] [later; earlier]) Writes [] in
  exists s,
    get_summary no_filter w = (Ok (mkResponse 200 (BSummary s)), w) /\
    map fst s = ["20240101"; "20240102"] /\
    records_of s "20240102" "fajr" = [later] /\
    records_of s "20240101" "fajr" = [earlier] /\
    has_own s "20240103" = false.
Proof.
  intros later earlier w.
  destruct (summary_holds_every_record no_filter w) as (s & Hrun & R & D & _).
  { intros a [<- | [<- | []]]; eexists _, _; repeat split. }
  exists s. split; [exact Hrun|].
  split.
  - assert (E : get_summary no_filter w =
                (Ok (mkResponse 200
                       (BSummary [("20240101", [("fajr", [earlier])]);
                                  ("20240102", [("fajr", [later])])])), w))
      by reflexivity.
    rewrite Hrun in E. injection E as E. subst s. reflexivity.
  - rewrite !R, D. repeat split.
Defined.

(** The same payload, with an array for id, posted twice. *)
Lemma reference_id_is_appended_witness :
  let req := mkClassBody VRef (VStr "Grade 5") in
  let w := after_requests any_stringify [Mutate (UpsertClass req)] fresh_world in
  cb_id req = VRef /\ truthy (cb_name req) = true /\
  exists new w',
    post_classes any_stringify req w = (Ok (mkResponse 200 (BClass (Some new))), w') /\
    map c_name (classes (loaded w)) = [VStr "Grade 5"] /\
    map c_name (classes (loaded w')) = [VStr "Grade 5"; VStr "Grade 5"] /\
    map c_id (classes (loaded w')) = [VRef; VRef].
Proof.
  intros req w. split; [reflexivity|]. split; [reflexivity|].
  destruct (reference_id_is_appended any_stringify req w eq_refl eq_refl)
    as (new & w' & Hrun & Hnew & _ & Hfile).
  exists new, w'. split; [exact Hrun|]. split; [reflexivity|].
  assert (Hl : loaded w' = set_classes (classes (loaded w) ++ [new]) (loaded w))
    by (unfold loaded at 1; rewrite Hfile; reflexivity).
  rewrite Hl, Hnew. split; reflexivity.
Defined.

(** The summary of a record under [fajr], before and after a summary over a
    record dated [__proto__] under the prayer [fajr]. *)
Lemma summary_loses_inherited_prayers_witness :
  let w0 := world_of (mkDocument [] [] [taken "a1" "2024-01-01" "fajr"]) Writes [] in
  let w := after_requests any_stringify
             [Mutate (UpsertAttendance (mark "a2" "__proto__" "fajr"));
              Summarize no_filter;
              Mutate (DeleteAttendance "a2")] w0 in
  fst (get_summary no_filter w0) =
    Ok (mkResponse 200
          (BSummary [("2024-01-01", [("fajr", [taken "a1" "2024-01-01" "fajr"])])])) /\
  loaded w = loaded w0 /\ w_proto w = ["fajr"] /\
  fst (get_summary no_filter w) = Ok (mkResponse 200 (BSummary [("2024-01-01", [])])).
Proof.
  intros w0 w. split; [reflexivity|]. split; [reflexivity|]. split; [reflexivity|].
  rewrite (summary_loses_inherited_prayers no_filter w); [reflexivity|].
  intros a [<- | []]. eexists _, _. repeat split.
Defined.

End NodeFacts.
